(** * A model of [pdf_outline_extractor.py]

    The extractor reads the page / block / line / span structure that the
    PDF decoder hands over and infers a title and an outline of H1/H2/H3
    headings.  This development embeds the class [PDFOutlineExtractor]
    function by function and proves properties of the outline it builds.

    Conventions of the embedding:
    - a Python [str] is a list of code points ([list Z]);
    - the numbers of the decoder (font sizes, coordinates) are the floats
      of the interpreter: the type class [Numbers] holds their type and
      the operations the source uses; [numbers_exact] is the instance of
      exact rationals and [binary64] the one of IEEE double precision;
    - the Unicode character database of the interpreter (case mapping,
      word characters, decimal digits, white space) is the type class
      [Unicode]; [unicode_basic] is an instance for evaluation;
    - an exception is a result [None]: of decoding a page, of [pdfplumber]
      on a page, of [int] on a run of more than 4300 digits; the handler
      of [extract_outline] turns it into the empty result;
    - [re] is modelled by a parser of the pattern syntax the source uses and
      a backtracking matcher, so that the patterns stand here as the
      source writes them;
    - the per-instance list [detected_lists] is threaded explicitly. *)

From Stdlib Require Import String Ascii.
From Stdlib Require Import ZArith QArith Qround Lqa List Bool Lia Arith Sorted.
From Corelib Require Import PrimFloat FloatOps SpecFloat.
From Stdlib Require Import Uint63.
Import ListNotations.
Local Open Scope string_scope.
Local Open Scope list_scope.
Local Open Scope Z_scope.

Set Implicit Arguments.

(** ** Strings *)

Module Str.

Definition str := list Z.

(** Decoding of the UTF-8 bytes of a literal into code points. *)
Fixpoint utf8_decode (l : list Z) : str :=
  match l with
  | [] => []
  | b0 :: t =>
      if b0 <? 128 then b0 :: utf8_decode t
      else if b0 <? 224 then
        match t with
        | b1 :: t' => ((b0 mod 32) * 64 + b1 mod 64) :: utf8_decode t'
        | _ => []
        end
      else if b0 <? 240 then
        match t with
        | b1 :: b2 :: t' =>
            ((b0 mod 16) * 4096 + (b1 mod 64) * 64 + b2 mod 64) :: utf8_decode t'
        | _ => []
        end
      else
        match t with
        | b1 :: b2 :: b3 :: t' =>
            ((b0 mod 8) * 262144 + (b1 mod 64) * 4096 + (b2 mod 64) * 64 + b3 mod 64)
              :: utf8_decode t'
        | _ => []
        end
  end.

Definition utf8 (s : String.string) : str :=
  utf8_decode
    (map (fun a => Z.of_N (Ascii.N_of_ascii a)) (String.list_ascii_of_string s)).

Definition eqb (a b : str) : bool :=
  if list_eq_dec Z.eq_dec a b then true else false.

(** [a < b] and [a <= b] on strings: code point by code point, a proper
    prefix first. *)
Fixpoint ltb (a b : str) : bool :=
  match a, b with
  | _, [] => false
  | [], _ :: _ => true
  | x :: a', y :: b' => (x <? y) || ((x =? y) && ltb a' b')
  end.

Definition leb (a b : str) : bool := negb (ltb b a).

(** [a in l] for a list or a set of strings. *)
Definition mem (a : str) (l : list str) : bool := existsb (eqb a) l.

Fixpoint startswith (p s : str) : bool :=
  match p, s with
  | [], _ => true
  | _ :: _, [] => false
  | x :: p', y :: s' => (x =? y) && startswith p' s'
  end.

Definition endswith (p s : str) : bool := startswith (rev p) (rev s).

(** [p in s] for strings. *)
Fixpoint contains (p s : str) : bool :=
  startswith p s || match s with [] => false | _ :: s' => contains p s' end.

Fixpoint join (sep : str) (l : list str) : str :=
  match l with
  | [] => []
  | [a] => a
  | a :: l' => a ++ sep ++ join sep l'
  end.

Fixpoint dropwhile (f : Z -> bool) (s : str) : str :=
  match s with
  | [] => []
  | c :: s' => if f c then dropwhile f s' else s
  end.

(** [s.strip(chars)], with the set of characters as a predicate. *)
Definition strip_with (f : Z -> bool) (s : str) : str :=
  rev (dropwhile f (rev (dropwhile f s))).

Definition in_chars (chars : str) (c : Z) : bool := existsb (Z.eqb c) chars.

(** [s.split()] with the separator as a predicate: maximal runs of the
    other characters. *)
Fixpoint split_with (f : Z -> bool) (cur : str) (s : str) : list str :=
  match s with
  | [] => match cur with [] => [] | _ => [rev cur] end
  | c :: s' =>
      if f c then
        match cur with
        | [] => split_with f [] s'
        | _ => rev cur :: split_with f [] s'
        end
      else split_with f (c :: cur) s'
  end.

(** Removal of duplicates, first occurrences kept: the size of [set(l)] is
    the length of the result. *)
Fixpoint dedup (l : list str) : list str :=
  match l with
  | [] => []
  | a :: l' => if mem a l' then dedup l' else a :: dedup l'
  end.

Definition len (s : str) : Z := Z.of_nat (length s).

End Str.

Import Str.

Arguments utf8 s%_string.

Definition strs (l : list string) : list str := map utf8 l.

(** ** The Unicode database of the interpreter *)

(** What the string methods and [re] read from the character database.
    [str_lower] and [str_upper] are [str.lower] and [str.upper];
    [is_space] is [str.isspace] on one character, also the class [\s];
    [digit_value] is the value of a decimal digit (class [\d], [int]);
    [is_word] is the class [\w]; [case_variants c] lists the characters
    that match [c] under [re.IGNORECASE], [c] itself included. *)
Class Unicode := {
  str_lower : str -> str;
  str_upper : str -> str;
  is_space : Z -> bool;
  digit_value : Z -> option Z;
  is_word : Z -> bool;
  case_variants : Z -> list Z
}.

Definition in_range (lo hi c : Z) : bool := (lo <=? c) && (c <=? hi).

Module Basic.

Definition ascii_lower (c : Z) : Z := if in_range 65 90 c then c + 32 else c.
Definition ascii_upper (c : Z) : Z := if in_range 97 122 c then c - 32 else c.

(** Simple case pairs of Basic Latin, Latin-1, Greek and Cyrillic. *)
Definition lower1 (c : Z) : Z :=
  if in_range 65 90 c then c + 32
  else if in_range 192 222 c && negb (c =? 215) then c + 32
  else if in_range 913 939 c && negb (c =? 930) then c + 32
  else if in_range 1040 1071 c then c + 32
  else if in_range 1024 1039 c then c + 80
  else c.

Definition upper1 (c : Z) : Z :=
  if in_range 97 122 c then c - 32
  else if in_range 224 254 c && negb (c =? 247) then c - 32
  else if in_range 945 971 c && negb (c =? 962) then c - 32
  else if in_range 1072 1103 c then c - 32
  else if in_range 1104 1119 c then c - 80
  else c.

Definition space (c : Z) : bool :=
  in_range 9 13 c || in_range 28 32 c || (c =? 133) || (c =? 160) || (c =? 5760)
  || in_range 8192 8202 c || in_range 8232 8233 c || (c =? 8239) || (c =? 8287)
  || (c =? 12288).

(** Decimal digits of Basic Latin, Arabic-Indic, Devanagari and the
    full-width forms. *)
Definition digit_blocks : list Z := [48; 1632; 1776; 2406; 65296].

Definition digit (c : Z) : option Z :=
  match filter (fun b => in_range b (b + 9) c) digit_blocks with
  | b :: _ => Some (c - b)
  | [] => None
  end.

Definition word (c : Z) : bool :=
  (c =? 95) || in_range 48 57 c || in_range 65 90 c || in_range 97 122 c
  || (c =? 170) || (c =? 181) || (c =? 186)
  || (in_range 192 591 c && negb (c =? 215) && negb (c =? 247))
  || in_range 880 1023 c || in_range 1024 1327 c
  || in_range 1568 1610 c || in_range 1632 1641 c || in_range 1646 1747 c
  || in_range 12353 12438 c || in_range 12449 12538 c || in_range 12540 12543 c
  || in_range 13312 19903 c || in_range 19968 40959 c || in_range 44032 55203 c.

Definition variants (c : Z) : list Z := [c; lower1 c; upper1 c].

End Basic.

(** An instance for evaluation: exact on Basic Latin, and on the simple
    case pairs and letters of the scripts of the keyword tables. *)
#[export] Instance unicode_basic : Unicode := {
  str_lower := map Basic.lower1;
  str_upper := map Basic.upper1;
  is_space := Basic.space;
  digit_value := Basic.digit;
  is_word := Basic.word;
  case_variants := Basic.variants
}.

(** The one law of the database the proofs below use: on a string of
    Basic Latin, [str.lower] maps [A-Z] to [a-z] and nothing else. *)
Definition is_ascii (s : str) : Prop := Forall (fun c => 0 <= c < 128) s.

Class UnicodeLaws (U : Unicode) : Prop := {
  lower_ascii : forall s, is_ascii s -> str_lower s = map Basic.ascii_lower s
}.

(** ** The floats of the interpreter *)

(** The numbers the decoder hands over and the arithmetic of the
    interpreter on them.  [lit q] is the float that the literal of value
    [q] denotes ([1.4], [0.6], [16]); [of_int] is the conversion of an
    [int] in mixed arithmetic; [fsum] is the built-in [sum] of a list of
    floats; [fround] is [round(x)]; [fmod] is [%]; [fleb] and [fltb] are
    [<=] and [<], false on a number that is not one. *)
Class Numbers := {
  num : Type;
  lit : Q -> num;
  of_int : Z -> num;
  fadd : num -> num -> num;
  fsub : num -> num -> num;
  fmul : num -> num -> num;
  fdiv : num -> num -> num;
  fabs : num -> num;
  fmod : num -> num -> num;
  fsum : list num -> num;
  fround : num -> Z;
  fleb : num -> num -> bool;
  fltb : num -> num -> bool
}.

(** *** Exact arithmetic *)

(** Comparisons and helpers on the rationals. *)
Definition Qleb (a b : Q) : bool := Qle_bool a b.
Definition Qltb (a b : Q) : bool := negb (Qle_bool b a).
Definition Qabs' (a : Q) : Q := if Qle_bool 0 a then a else Qopp a.
Definition Qsum (l : list Q) : Q := fold_left Qplus l (0 # 1).

(** [x % m] for a positive [m]. *)
Definition Qmod (x m : Q) : Q := (x - m * inject_Z (Qfloor (x / m)))%Q.

(** [round(x)]: to the nearest integer, halves to the even one. *)
Definition Qround_even (x : Q) : Z :=
  let f := Qfloor x in
  let d := (x - inject_Z f)%Q in
  if Qltb d (1 # 2) then f
  else if Qltb (1 # 2) d then f + 1
  else if Z.even f then f else f + 1.

(** The arithmetic without rounding: every number is the rational it
    denotes. *)
#[export] Instance numbers_exact : Numbers := {
  num := Q;
  lit := fun q => q;
  of_int := inject_Z;
  fadd := Qplus;
  fsub := Qminus;
  fmul := Qmult;
  fdiv := Qdiv;
  fabs := Qabs';
  fmod := Qmod;
  fsum := Qsum;
  fround := Qround_even;
  fleb := Qleb;
  fltb := Qltb
}.

(** The operations of the exact arithmetic, shown as what they are. *)
Ltac exact_numbers :=
  cbn [num lit of_int fadd fsub fmul fdiv fabs fmod fsum fround fleb fltb numbers_exact]
    in *.

(** *** Double precision *)

Module Binary64.

(** An [int] below [2 ^ 62] in absolute value, as a float. *)
Definition of_Z (z : Z) : float :=
  match z with
  | Z0 => PrimFloat.zero
  | Zpos _ => PrimFloat.of_uint63 (Uint63.of_Z z)
  | Zneg p => PrimFloat.opp (PrimFloat.of_uint63 (Uint63.of_Z (Zpos p)))
  end.

(** The float nearest to a fraction of two such integers: the float that
    a decimal literal of this value denotes. *)
Definition of_Q (q : Q) : float := PrimFloat.div (of_Z (Qnum q)) (of_Z (Zpos (Qden q))).

(** The value [m * 2 ^ e] of a finite float. *)
Definition parts (x : float) : option (Z * Z) :=
  match Prim2SF x with
  | S754_zero _ => Some (0, 0)
  | S754_finite s m e => Some (if s then Z.neg m else Z.pos m, e)
  | _ => None
  end.

Definition of_parts (m e : Z) : float := SF2Prim (binary_normalize prec emax m e false).

(** [round(x)] on a finite float: halves go to the even integer. *)
Definition round (x : float) : Z :=
  match parts x with
  | Some (m, e) =>
      if 0 <=? e then m * 2 ^ e
      else
        let d := 2 ^ (- e) in
        let q := m / d in
        let r := m mod d in
        if 2 * r <? d then q
        else if d <? 2 * r then q + 1
        else if Z.even q then q else q + 1
  | None => 0
  end.

(** [x % y] on finite floats: the exact remainder with the sign of [x],
    to which [y] is added when the signs differ. *)
Definition modulo (x y : float) : float :=
  match parts x, parts y with
  | Some (mx, ex), Some (my, ey) =>
      if my =? 0 then PrimFloat.nan
      else
        let e := Z.min ex ey in
        let r := Z.rem (mx * 2 ^ (ex - e)) (my * 2 ^ (ey - e)) in
        if r =? 0 then (if my <? 0 then PrimFloat.opp PrimFloat.zero else PrimFloat.zero)
        else if (r <? 0) && (0 <? my) || (0 <? r) && (my <? 0)
             then PrimFloat.add (of_parts r e) y
             else of_parts r e
  | _, _ => PrimFloat.nan
  end.

End Binary64.

(** The floats of the machine, for evaluation: the operations are those
    of IEEE 754 double precision, and [sum] adds from left to right, as
    the interpreter does before version 3.12. *)
Definition binary64 : Numbers := {|
  num := float;
  lit := Binary64.of_Q;
  of_int := Binary64.of_Z;
  fadd := PrimFloat.add;
  fsub := PrimFloat.sub;
  fmul := PrimFloat.mul;
  fdiv := PrimFloat.div;
  fabs := PrimFloat.abs;
  fmod := Binary64.modulo;
  fsum := fun l => fold_left PrimFloat.add l PrimFloat.zero;
  fround := Binary64.round;
  fleb := PrimFloat.leb;
  fltb := PrimFloat.ltb
|}.

(** ** Regular expressions *)

Module Re.

(** The items of a character set. *)
Inductive citem :=
| CLit (c : Z)
| CRange (lo hi : Z)
| CDigit
| CSpace
| CWord.

Inductive regex :=
| REps
| RSet (neg : bool) (items : list citem)
| RAny
| RSeq (a b : regex)
| RAlt (a b : regex)
| RRep (a : regex) (lo : nat) (hi : option nat)
| RGroup (n : nat) (a : regex)
| RBol
| REol
| RWordB.

(** *** The pattern syntax *)

Definition ch (a : ascii) : Z := Z.of_N (N_of_ascii a).

Definition is_ascii_digit (c : Z) : bool := in_range 48 57 c.
Definition is_ascii_alnum (c : Z) : bool :=
  in_range 48 57 c || in_range 65 90 c || in_range 97 122 c.

Definition hex_value (c : Z) : option Z :=
  if in_range 48 57 c then Some (c - 48)
  else if in_range 97 102 c then Some (c - 87)
  else if in_range 65 70 c then Some (c - 55)
  else None.

(** The four hexadecimal digits of an escape [\uXXXX]. *)
Definition parse_hex4 (inp : str) : option (Z * str) :=
  match inp with
  | a :: b :: c :: d :: rest =>
      match hex_value a, hex_value b, hex_value c, hex_value d with
      | Some a, Some b, Some c, Some d => Some (((a * 16 + b) * 16 + c) * 16 + d, rest)
      | _, _, _, _ => None
      end
  | _ => None
  end.

Fixpoint parse_nat (acc : option nat) (inp : str) : option nat * str :=
  match inp with
  | c :: rest =>
      if is_ascii_digit c then
        parse_nat (Some (match acc with Some n => 10 * n | None => 0 end
                         + Z.to_nat (c - 48))%nat) rest
      else (acc, inp)
  | [] => (acc, inp)
  end.

(** An escape, after its backslash: a class, a code point, or the
    character itself when it is not a letter or a digit. *)
Definition parse_escape (inp : str) : option (citem * str) :=
  match inp with
  | c :: rest =>
      if c =? ch "d" then Some (CDigit, rest)
      else if c =? ch "s" then Some (CSpace, rest)
      else if c =? ch "w" then Some (CWord, rest)
      else if c =? ch "u" then
        match parse_hex4 rest with
        | Some (v, rest') => Some (CLit v, rest')
        | None => None
        end
      else if is_ascii_alnum c then None
      else Some (CLit c, rest)
  | [] => None
  end.

Definition class_atom (inp : str) : option (citem * str) :=
  match inp with
  | c :: rest => if c =? ch "\" then parse_escape rest else Some (CLit c, rest)
  | [] => None
  end.

(** The inside of [[...]], up to and including the closing bracket. *)
Fixpoint parse_class (fuel : nat) (inp : str) (acc : list citem)
  : option (list citem * str) :=
  match fuel with
  | O => None
  | S fuel' =>
      match inp with
      | [] => None
      | c :: rest =>
          if c =? ch "]" then Some (rev acc, rest)
          else
            match class_atom inp with
            | None => None
            | Some (it, rest1) =>
                match it, rest1 with
                | CLit lo, d :: e :: rest2 =>
                    if (d =? ch "-") && negb (e =? ch "]") then
                      match class_atom (e :: rest2) with
                      | Some (CLit hi, rest3) =>
                          parse_class fuel' rest3 (CRange lo hi :: acc)
                      | _ => None
                      end
                    else parse_class fuel' rest1 (it :: acc)
                | _, _ => parse_class fuel' rest1 (it :: acc)
                end
            end
      end
  end.

(** A quantifier after an atom, if there is one. *)
Definition parse_quant (a : regex) (inp : str) : regex * str :=
  match inp with
  | c :: rest =>
      if c =? ch "*" then (RRep a 0 None, rest)
      else if c =? ch "+" then (RRep a 1 None, rest)
      else if c =? ch "?" then (RRep a 0 (Some 1%nat), rest)
      else if c =? ch "{" then
        match parse_nat None rest with
        | (Some lo, d :: rest1) =>
            if d =? ch "}" then (RRep a lo (Some lo), rest1)
            else if d =? ch "," then
              match parse_nat None rest1 with
              | (hi, e :: rest2) =>
                  if e =? ch "}" then (RRep a lo hi, rest2) else (a, inp)
              | _ => (a, inp)
              end
            else (a, inp)
        | _ => (a, inp)
        end
      else (a, inp)
  | [] => (a, inp)
  end.

Definition presult : Type := option (regex * str * nat).

(** Alternatives, sequences and atoms; [g] counts the capturing groups
    opened so far. *)
Fixpoint parse_alt (fuel : nat) (inp : str) (g : nat) {struct fuel} : presult :=
  match fuel with
  | O => None
  | S fuel' =>
      match parse_seq fuel' inp g with
      | Some (r, c :: rest, g1) =>
          if c =? ch "|" then
            match parse_alt fuel' rest g1 with
            | Some (r2, rest2, g2) => Some (RAlt r r2, rest2, g2)
            | None => None
            end
          else Some (r, c :: rest, g1)
      | other => other
      end
  end
with parse_seq (fuel : nat) (inp : str) (g : nat) {struct fuel} : presult :=
  match fuel with
  | O => None
  | S fuel' =>
      match inp with
      | [] => Some (REps, [], g)
      | c :: _ =>
          if (c =? ch "|") || (c =? ch ")") then Some (REps, inp, g)
          else
            match parse_atom fuel' inp g with
            | Some (a, rest, g1) =>
                let (a', rest1) := parse_quant a rest in
                match parse_seq fuel' rest1 g1 with
                | Some (REps, rest2, g2) => Some (a', rest2, g2)
                | Some (r, rest2, g2) => Some (RSeq a' r, rest2, g2)
                | None => None
                end
            | None => None
            end
      end
  end
with parse_atom (fuel : nat) (inp : str) (g : nat) {struct fuel} : presult :=
  match fuel with
  | O => None
  | S fuel' =>
      match inp with
      | [] => None
      | c :: rest =>
          if c =? ch "(" then
            let noncap :=
              match rest with
              | q :: d :: rest' =>
                  if (q =? ch "?") && (d =? ch ":") then Some rest' else None
              | _ => None
              end in
            match noncap with
            | Some rest' =>
                match parse_alt fuel' rest' g with
                | Some (r, e :: rest2, g1) =>
                    if e =? ch ")" then Some (r, rest2, g1) else None
                | _ => None
                end
            | None =>
                match parse_alt fuel' rest (S g) with
                | Some (r, e :: rest2, g1) =>
                    if e =? ch ")" then Some (RGroup (S g) r, rest2, g1) else None
                | _ => None
                end
            end
          else if c =? ch "[" then
            let (neg, body) :=
              match rest with
              | d :: rest' => if d =? ch "^" then (true, rest') else (false, rest)
              | [] => (false, rest)
              end in
            match parse_class (S (List.length body)) body [] with
            | Some (items, rest1) => Some (RSet neg items, rest1, g)
            | None => None
            end
          else if c =? ch "\" then
            match rest with
            | d :: rest' =>
                if d =? ch "b" then Some (RWordB, rest', g)
                else
                  match parse_escape rest with
                  | Some (it, rest1) => Some (RSet false [it], rest1, g)
                  | None => None
                  end
            | [] => None
            end
          else if c =? ch "." then Some (RAny, rest, g)
          else if c =? ch "^" then Some (RBol, rest, g)
          else if c =? ch "$" then Some (REol, rest, g)
          else if (c =? ch "*") || (c =? ch "+") || (c =? ch "?") then None
          else Some (RSet false [CLit c], rest, g)
      end
  end.

Definition parse (pat : str) : option regex :=
  match parse_alt (4 * List.length pat + 8) pat 0 with
  | Some (r, [], _) => Some r
  | _ => None
  end.

(** A pattern that is not of the syntax above compiles to the expression
    that matches nothing; every pattern of the source is of that syntax
    (see [patterns_parse] below). *)
Definition compile (pat : str) : regex :=
  match parse pat with
  | Some r => r
  | None => RSet false []
  end.

(** *** Matching *)

Section Matching.

Context {U : Unicode}.

(** [ic] is the flag [re.IGNORECASE]. *)
Variable ic : bool.

Definition item_ok (it : citem) (c : Z) : bool :=
  match it with
  | CLit l => c =? l
  | CRange lo hi => in_range lo hi c
  | CDigit => match digit_value c with Some _ => true | None => false end
  | CSpace => is_space c
  | CWord => is_word c
  end.

Definition set_ok (neg : bool) (items : list citem) (c : Z) : bool :=
  let cands := if ic then c :: case_variants c else [c] in
  xorb neg (existsb (fun it => existsb (item_ok it) cands) items).

(** A position in the subject: the character before it, its index, and
    what is left to read. *)
Record mstate := { m_prev : option Z; m_pos : nat; m_rest : str }.

Definition advance (c : Z) (st : mstate) (t : str) : mstate :=
  {| m_prev := Some c; m_pos := S (m_pos st); m_rest := t |}.

Definition word_before (st : mstate) : bool :=
  match m_prev st with Some c => is_word c | None => false end.

Definition word_after (st : mstate) : bool :=
  match m_rest st with c :: _ => is_word c | [] => false end.

(** The groups captured so far, the latest first: number, start, end. *)
Definition caps : Type := list (nat * (nat * nat)).

Definition mres : Type := option (nat * caps).

Definition at_most (hi : option nat) (i : nat) : bool :=
  match hi with Some h => (h <=? i)%nat | None => false end.

(** The backtracking matcher, in continuation-passing style: alternatives
    are tried from left to right and repetitions are greedy, so the first
    result is the match [re] reports.  An optional iteration must consume
    a character, which bounds the loop by the length of the subject. *)
Fixpoint m (r : regex) (st : mstate) (cs : caps)
  (k : mstate -> caps -> mres) {struct r} : mres :=
  match r with
  | REps => k st cs
  | RSet neg items =>
      match m_rest st with
      | c :: t => if set_ok neg items c then k (advance c st t) cs else None
      | [] => None
      end
  | RAny =>
      match m_rest st with
      | c :: t => if c =? 10 then None else k (advance c st t) cs
      | [] => None
      end
  | RSeq a b => m a st cs (fun st' cs' => m b st' cs' k)
  | RAlt a b =>
      match m a st cs k with
      | Some x => Some x
      | None => m b st cs k
      end
  | RRep a lo hi =>
      (fix loop (fuel i : nat) (st : mstate) (cs : caps) {struct fuel} : mres :=
         match fuel with
         | O => None
         | S fuel' =>
             if (i <? lo)%nat then
               m a st cs (fun st' cs' => loop fuel' (S i) st' cs')
             else if at_most hi i then k st cs
             else
               match m a st cs (fun st' cs' =>
                        if (m_pos st <? m_pos st')%nat
                        then loop fuel' (S i) st' cs' else None) with
               | Some x => Some x
               | None => k st cs
               end
         end) (lo + List.length (m_rest st) + 1)%nat 0%nat st cs
  | RGroup n a =>
      m a st cs (fun st' cs' => k st' ((n, (m_pos st, m_pos st')) :: cs'))
  | RBol => if (m_pos st =? 0)%nat then k st cs else None
  | REol =>
      match m_rest st with
      | [] => k st cs
      | [c] => if c =? 10 then k st cs else None
      | _ => None
      end
  | RWordB => if xorb (word_before st) (word_after st) then k st cs else None
  end.

Definition match_at (r : regex) (st : mstate) : mres :=
  m r st [] (fun st' cs => Some (m_pos st', cs)).

(** A match object: start, end and groups. *)
Record mobj := { mo_start : nat; mo_end : nat; mo_caps : caps }.

Fixpoint search_from (r : regex) (prev : option Z) (pos : nat) (rest : str)
  : option mobj :=
  match match_at r {| m_prev := prev; m_pos := pos; m_rest := rest |} with
  | Some (e, cs) => Some {| mo_start := pos; mo_end := e; mo_caps := cs |}
  | None =>
      match rest with
      | [] => None
      | c :: t => search_from r (Some c) (S pos) t
      end
  end.

(** [re.match(pat, text, flags)] and [re.search(pat, text, flags)]. *)
Definition re_match (pat text : str) : option mobj :=
  match match_at (compile pat) {| m_prev := None; m_pos := 0; m_rest := text |} with
  | Some (e, cs) => Some {| mo_start := 0; mo_end := e; mo_caps := cs |}
  | None => None
  end.

Definition re_search (pat text : str) : option mobj :=
  search_from (compile pat) None 0 text.

Definition matches (pat text : str) : bool :=
  match re_match pat text with Some _ => true | None => false end.

Definition searches (pat text : str) : bool :=
  match re_search pat text with Some _ => true | None => false end.

Definition substr (text : str) (s e : nat) : str := firstn (e - s) (skipn s text).

(** [mo.group(0)] and [mo.group(n)]; a group that took no part reads as
    the empty string. *)
Definition group0 (text : str) (mo : mobj) : str :=
  substr text (mo_start mo) (mo_end mo).

Fixpoint lookup_cap (n : nat) (cs : caps) : option (nat * nat) :=
  match cs with
  | [] => None
  | (n', se) :: cs' => if (n =? n')%nat then Some se else lookup_cap n cs'
  end.

Definition group (text : str) (mo : mobj) (n : nat) : str :=
  match lookup_cap n (mo_caps mo) with
  | Some (s, e) => substr text s e
  | None => []
  end.

(** [re.sub(pat, repl, text)] with the replacement as a function of the
    match: the matches are found from left to right and do not overlap. *)
Fixpoint sub_loop (fuel : nat) (r : regex) (repl : mobj -> str)
  (prev : option Z) (pos : nat) (rest : str) : str :=
  match fuel with
  | O => rest
  | S fuel' =>
      match match_at r {| m_prev := prev; m_pos := pos; m_rest := rest |} with
      | Some (e, cs) =>
          let mo := {| mo_start := pos; mo_end := e; mo_caps := cs |} in
          if (pos <? e)%nat then
            let taken := firstn (e - pos) rest in
            repl mo ++ sub_loop fuel' r repl (Some (last taken 0)) e (skipn (e - pos) rest)
          else
            repl mo ++
            match rest with
            | [] => []
            | c :: t => c :: sub_loop fuel' r repl (Some c) (S pos) t
            end
      | None =>
          match rest with
          | [] => []
          | c :: t => c :: sub_loop fuel' r repl (Some c) (S pos) t
          end
      end
  end.

Definition re_sub (pat : str) (repl : mobj -> str) (text : str) : str :=
  sub_loop (S (List.length text)) (compile pat) repl None 0 text.

End Matching.

End Re.

(** ** The tables of [setup_multilingual_patterns] *)

Inductive lang := en | ja | zh | es | fr | de | ar | ko | ru.

Definition lang_eqb (a b : lang) : bool :=
  match a, b with
  | en, en | ja, ja | zh, zh | es, es | fr, fr | de, de | ar, ar | ko, ko | ru, ru => true
  | _, _ => false
  end.

Lemma lang_eqb_eq a b : lang_eqb a b = true <-> a = b.
Proof. destruct a, b; simpl; split; congruence. Qed.

(** The keys of the three dictionaries, in the order of insertion. *)
Definition languages : list lang := [en; ja; zh; es; fr; de; ar; ko; ru].

(** One entry of [heading_keywords]; the fields are in the order of the
    dictionary. *)
Record Keywords := {
  part : list str;
  appendix : list str;
  chapter : list str;
  introduction : list str;
  conclusion : list str;
  references : list str;
  table_of_contents : list str
}.

(** [keywords.values()]. *)
Definition keyword_values (k : Keywords) : list (list str) :=
  [part k; appendix k; chapter k; introduction k; conclusion k; references k;
   table_of_contents k].

Definition heading_keywords (l : lang) : Keywords :=
  match l with
  | en =>
      {| part := strs ["part"; "section"];
         appendix := strs ["appendix"; "annex"];
         chapter := strs ["chapter"; "chap"];
         introduction := strs ["introduction"; "intro"];
         conclusion := strs ["conclusion"; "summary"];
         references := strs ["references"; "bibliography"; "citations"];
         table_of_contents := strs ["table of contents"; "contents"; "toc"] |}
  | ja =>
      {| part := strs ["部"; "章"; "パート"; "第.*部"; "第.*章"];
         appendix := strs ["付録"; "別添"; "添付"; "参考資料"];
         chapter := strs ["章"; "第.*章"; "チャプター"];
         introduction := strs ["はじめに"; "序論"; "導入"; "概要"; "まえがき"];
         conclusion := strs ["結論"; "まとめ"; "おわりに"; "総括"];
         references := strs ["参考文献"; "引用文献"; "文献"; "参照"];
         table_of_contents := strs ["目次"; "内容"; "もくじ"] |}
  | zh =>
      {| part := strs ["部分"; "部"; "章"; "第.*部"; "第.*章"];
         appendix := strs ["附录"; "附錄"; "附件"; "参考资料"; "參考資料"];
         chapter := strs ["章"; "第.*章"; "章节"; "章節"];
         introduction := strs ["介绍"; "介紹"; "序言"; "导言"; "導言"; "概述"];
         conclusion := strs ["结论"; "結論"; "总结"; "總結"; "小结"; "小結"];
         references := strs ["参考文献"; "參考文獻"; "引用文献"; "引用文獻"; "文献"; "文獻"];
         table_of_contents := strs ["目录"; "目錄"; "内容"; "內容"] |}
  | es =>
      {| part := strs ["parte"; "sección"; "capítulo"];
         appendix := strs ["apéndice"; "anexo"; "adjunto"];
         chapter := strs ["capítulo"; "cap"];
         introduction := strs ["introducción"; "intro"; "presentación"];
         conclusion := strs ["conclusión"; "resumen"; "síntesis"];
         references := strs ["referencias"; "bibliografía"; "citas"];
         table_of_contents := strs ["índice"; "contenido"; "tabla de contenidos"] |}
  | fr =>
      {| part := strs ["partie"; "section"; "chapitre"];
         appendix := strs ["annexe"; "appendice"; "complément"];
         chapter := strs ["chapitre"; "chap"];
         introduction := strs ["introduction"; "présentation"; "avant-propos"];
         conclusion := strs ["conclusion"; "résumé"; "synthèse"];
         references := strs ["références"; "bibliographie"; "citations"];
         table_of_contents := strs ["table des matières"; "sommaire"; "contenu"] |}
  | de =>
      {| part := strs ["teil"; "abschnitt"; "kapitel"];
         appendix := strs ["anhang"; "anlage"; "beilage"];
         chapter := strs ["kapitel"; "kap"];
         introduction := strs ["einführung"; "einleitung"; "vorwort"];
         conclusion := strs ["schlussfolgerung"; "zusammenfassung"; "fazit"];
         references := strs ["literatur"; "bibliographie"; "quellen"];
         table_of_contents := strs ["inhaltsverzeichnis"; "inhalt"] |}
  | ar =>
      {| part := strs ["جزء"; "قسم"; "فصل"; "باب"];
         appendix := strs ["ملحق"; "مرفق"; "ضميمة"];
         chapter := strs ["فصل"; "باب"];
         introduction := strs ["مقدمة"; "تمهيد"; "استهلال"];
         conclusion := strs ["خاتمة"; "استنتاج"; "ملخص"];
         references := strs ["مراجع"; "مصادر"; "ببليوغرافيا"];
         table_of_contents := strs ["فهرس المحتويات"; "المحتويات"; "فهرس"] |}
  | ko =>
      {| part := strs ["부"; "편"; "장"; "제.*부"; "제.*편"];
         appendix := strs ["부록"; "첨부"; "참고자료"];
         chapter := strs ["장"; "제.*장"; "챕터"];
         introduction := strs ["서론"; "도입"; "개요"; "머리말"];
         conclusion := strs ["결론"; "요약"; "맺음말"; "정리"];
         references := strs ["참고문헌"; "인용문헌"; "문헌"; "참조"];
         table_of_contents := strs ["목차"; "차례"; "내용"] |}
  | ru =>
      {| part := strs ["часть"; "раздел"; "глава"];
         appendix := strs ["приложение"; "дополнение"];
         chapter := strs ["глава"; "гл"];
         introduction := strs ["введение"; "предисловие"; "вступление"];
         conclusion := strs ["заключение"; "выводы"; "резюме"];
         references := strs ["литература"; "библиография"; "источники"];
         table_of_contents := strs ["содержание"; "оглавление"] |}
  end.

Definition month_names (l : lang) : list str :=
  match l with
  | en =>
      strs ["january"; "february"; "march"; "april"; "may"; "june"; "july"; "august";
            "september"; "october"; "november"; "december"; "jan"; "feb"; "mar"; "apr";
            "may"; "jun"; "jul"; "aug"; "sep"; "oct"; "nov"; "dec"]
  | ja =>
      strs ["1月"; "2月"; "3月"; "4月"; "5月"; "6月"; "7月"; "8月"; "9月"; "10月"; "11月"; "12月"]
  | zh =>
      strs ["一月"; "二月"; "三月"; "四月"; "五月"; "六月"; "七月"; "八月"; "九月"; "十月"; "十一月"; "十二月"; "1月";
            "2月"; "3月"; "4月"; "5月"; "6月"; "7月"; "8月"; "9月"; "10月"; "11月"; "12月"]
  | es =>
      strs ["enero"; "febrero"; "marzo"; "abril"; "mayo"; "junio"; "julio"; "agosto";
            "septiembre"; "octubre"; "noviembre"; "diciembre"; "ene"; "feb"; "mar"; "abr";
            "may"; "jun"; "jul"; "ago"; "sep"; "oct"; "nov"; "dic"]
  | fr =>
      strs ["janvier"; "février"; "mars"; "avril"; "mai"; "juin"; "juillet"; "août";
            "septembre"; "octobre"; "novembre"; "décembre"; "janv"; "févr"; "mars"; "avr";
            "mai"; "juin"; "juil"; "août"; "sept"; "oct"; "nov"; "déc"]
  | de =>
      strs ["januar"; "februar"; "märz"; "april"; "mai"; "juni"; "juli"; "august";
            "september"; "oktober"; "november"; "dezember"; "jan"; "feb"; "mär"; "apr";
            "mai"; "jun"; "jul"; "aug"; "sep"; "okt"; "nov"; "dez"]
  | ar =>
      strs ["يناير"; "فبراير"; "مارس"; "أبريل"; "مايو"; "يونيو"; "يوليو"; "أغسطس"; "سبتمبر";
            "أكتوبر"; "نوفمبر"; "ديسمبر"]
  | ko =>
      strs ["1월"; "2월"; "3월"; "4월"; "5월"; "6월"; "7월"; "8월"; "9월"; "10월"; "11월"; "12월"]
  | ru =>
      strs ["январь"; "февраль"; "март"; "апрель"; "май"; "июнь"; "июль"; "август";
            "сентябрь"; "октябрь"; "ноябрь"; "декабрь"; "янв"; "фев"; "мар"; "апр"; "май";
            "июн"; "июл"; "авг"; "сен"; "окт"; "ноя"; "дек"]
  end.

Definition warning_words (l : lang) : list str :=
  match l with
  | en =>
      strs ["required"; "must"; "mandatory"; "warning"; "notice"; "important"; "attention"]
  | ja =>
      strs ["必須"; "必要"; "注意"; "警告"; "重要"; "お知らせ"; "義務"]
  | zh =>
      strs ["必需"; "必须"; "必須"; "注意"; "警告"; "重要"; "通知"; "强制"; "強制"]
  | es =>
      strs ["requerido"; "obligatorio"; "advertencia"; "aviso"; "importante"; "atención"]
  | fr =>
      strs ["requis"; "obligatoire"; "avertissement"; "avis"; "important"; "attention"]
  | de =>
      strs ["erforderlich"; "pflicht"; "warnung"; "hinweis"; "wichtig"; "achtung"]
  | ar =>
      strs ["مطلوب"; "إجباري"; "تحذير"; "إشعار"; "مهم"; "انتباه"]
  | ko =>
      strs ["필수"; "필요"; "주의"; "경고"; "중요"; "알림"; "의무"]
  | ru =>
      strs ["обязательно"; "необходимо"; "предупреждение"; "уведомление"; "важно";
            "внимание"]
  end.

(** ** The extractor *)

Section Extractor.

Context {U : Unicode} {N : Numbers}.

(** [s.strip()], [s.split()] and [s.strip('.,!?:;')]. *)
Definition strip (s : str) : str := strip_with is_space s.
Definition split (s : str) : list str := split_with is_space [] s.
Definition strip_punct (s : str) : str := strip_with (in_chars (utf8 ".,!?:;")) s.

(** [re.escape]. *)
Definition re_special (c : Z) : bool :=
  in_chars (utf8 "()[]{}?*+-|^$\.&~# ") c || in_range 9 13 c.

Definition re_escape (s : str) : str :=
  flat_map (fun c => if re_special c then [Re.ch "\"; c] else [c]) s.

(** ['|'.join(re.escape(w) for w in l)]. *)
Definition alternatives (l : list str) : str := join (utf8 "|") (map re_escape l).

(** *** [detect_language] *)

Inductive script := latin | cjk | arabic | cyrillic.

Definition script_eqb (a b : script) : bool :=
  match a, b with
  | latin, latin | cjk, cjk | arabic, arabic | cyrillic, cyrillic => true
  | _, _ => false
  end.

Definition is_kana (code : Z) : bool :=
  in_range 0x3040 0x309F code || in_range 0x30A0 0x30FF code.

Definition is_hangul (code : Z) : bool := in_range 0xAC00 0xD7AF code.

(** The branch of the counting loop that a character takes, if any. *)
Definition script_of (code : Z) : option script :=
  if in_range 0x0041 0x005A code || in_range 0x0061 0x007A code then Some latin
  else if in_range 0x4E00 0x9FFF code || in_range 0x3040 0x309F code
          || in_range 0x30A0 0x30FF code then Some cjk
  else if in_range 0x0600 0x06FF code then Some arabic
  else if in_range 0x0400 0x04FF code then Some cyrillic
  else None.

(** [script_counts[sc]] after the loop over the characters of [text]. *)
Definition script_count (text : str) (sc : script) : Z :=
  Z.of_nat (List.length (filter (fun code =>
    match script_of code with Some sc' => script_eqb sc sc' | None => false end) text)).

(** [max(d, key=...)] over keys in the order of the dictionary: the first
    key that reaches the maximum. *)
Definition max_by {A : Type} (key : A -> Z) (first : A) (others : list A) : A :=
  fold_left (fun best x => if key best <? key x then x else best) others first.

Definition max_script (text : str) : script :=
  max_by (script_count text) latin [cjk; arabic; cyrillic].

(** The number of keywords of [l] that occur in [text_lower]. *)
Definition keyword_matches (l : lang) (text_lower : str) : Z :=
  Z.of_nat (List.length (filter (fun keyword => contains keyword text_lower)
                           (concat (keyword_values (heading_keywords l))))).

Definition is_latin_lang (l : lang) : bool :=
  match l with en | es | fr | de => true | _ => false end.

Definition detect_language (text : str) : lang :=
  match text with
  | [] => en
  | _ =>
      match max_script text with
      | cjk =>
          if existsb is_kana text then ja
          else if existsb is_hangul text then ko
          else zh
      | arabic => ar
      | cyrillic => ru
      | latin =>
          let text_lower := str_lower text in
          match find (fun l => is_latin_lang l && (0 <? keyword_matches l text_lower))
                     languages with
          | Some l => l
          | None => en
          end
      end
  end.

(** *** [clean_extracted_text] *)

Definition common_suffixes : list str := strs ["ou"; "he"; "er"; "ed"; "ly"; "ng"].

Definition clean_extracted_text (text : str) (is_heading : bool) : str :=
  match text with
  | [] => text
  | _ =>
      let t1 := Re.re_sub false (utf8 "\b([A-Z])\s+([a-z]{2,})\b")
                  (fun mo => Re.group text mo 1 ++ Re.group text mo 2) text in
      let t2 := Re.re_sub false (utf8 "\b([A-Z])\s+([A-Z]{2,})\b")
                  (fun mo => Re.group t1 mo 1 ++ Re.group t1 mo 2) t1 in
      let t3 := Re.re_sub false (utf8 "\b([a-z])\s+([a-z]{2})\b")
                  (fun mo => if mem (Re.group t2 mo 2) common_suffixes
                             then Re.group t2 mo 1 ++ Re.group t2 mo 2
                             else Re.group0 t2 mo) t2 in
      let t4 := Re.re_sub false (utf8 "\s+") (fun _ => utf8 " ") t3 in
      let t5 := Re.re_sub false (utf8 "\s+([!?.,;:])") (fun mo => Re.group t4 mo 1) t4 in
      let t6 := Re.re_sub false (utf8 "([!?.,;:])\s*([!?.,;:])")
                  (fun mo => Re.group t5 mo 1 ++ Re.group t5 mo 2) t5 in
      let cleaned_text := strip t6 in
      match cleaned_text with
      | [] => cleaned_text
      | _ =>
          if is_heading && negb (endswith (utf8 " ") cleaned_text)
          then cleaned_text ++ utf8 " " else cleaned_text
      end
  end.

(** *** [smart_deduplicate_title] *)

Definition preserved_words : list str :=
  strs ["a"; "an"; "of"; "in"; "on"; "to"; "by"; "for"; "at"; "as"].

Definition clean_word_of (word : str) : str := str_lower (strip_punct word).

(** The test of the inner loop: [other_word] makes [word] a fragment. *)
Definition is_fragment_of (clean_word clean_other : str) : bool :=
  negb (eqb clean_word clean_other) && contains clean_word clean_other &&
  let length_diff := len clean_other - len clean_word in
  if (len clean_word <=? 3) && (2 <=? length_diff) then
    startswith clean_word clean_other || endswith clean_word clean_other
  else if (4 <=? len clean_word) && (2 <=? length_diff) then
    negb (Re.searches false (utf8 "\b" ++ re_escape clean_word ++ utf8 "\b") clean_other)
  else false.

Definition enumerate {A : Type} (l : list A) : list (nat * A) :=
  combine (seq 0 (List.length l)) l.

Definition smart_deduplicate_title (title : str) : str :=
  let words := split title in
  let words := filter (fun word =>
                 (1 <? len (strip_punct word))
                 || eqb (strip_punct (str_lower word)) (utf8 "a")) words in
  let filtered_words :=
    fold_left (fun filtered_words iw =>
      let '(i, word) := iw in
      let clean_word := clean_word_of word in
      if mem clean_word preserved_words then filtered_words ++ [word]
      else
        let should_keep :=
          negb (existsb (fun jw =>
                  let '(j, other_word) := jw in
                  negb (i =? j)%nat && is_fragment_of clean_word (clean_word_of other_word))
                (enumerate words)) in
        if should_keep then
          let already_added :=
            existsb (fun existing => eqb (clean_word_of existing) clean_word)
                    filtered_words in
          if already_added then filtered_words else filtered_words ++ [word]
        else filtered_words)
      (enumerate words) [] in
  join (utf8 " ") filtered_words.


(** *** The decoded document *)

Definition Rect : Type := (num * num * num * num)%type.

(** A span of the decoder.  [sp_rotation] is the angle, in degrees from 0
    to 360, that [get_text_rotation] computes from the transformation
    matrix of the span (0 when the span carries none). *)
Record Span := {
  sp_text : str;
  sp_size : num;
  sp_flags : Z;
  sp_rotation : num
}.

Record Line := { ln_spans : list Span; ln_bbox : Rect }.

(** A block has lines when it is a text block. *)
Record Block := { bk_lines : option (list Line) }.

(** A page: [page.get_text("dict")["blocks"]], [page.rect], [page.get_text()]
    and [page.get_drawings()].  A drawing contributes the rectangle of its
    path when it has one; [pg_drawings] is [None] when the call raises. *)
Record Page := {
  pg_blocks : list Block;
  pg_width : num;
  pg_height : num;
  pg_text : str;
  pg_drawings : option (list (option Rect))
}.

(** A table found by [pdfplumber]: its bounding box, whether it has
    cells, and the number of rows [extract()] returns, [None] when it
    raises. *)
Record Table := { tb_bbox : Rect; tb_cells : bool; tb_rows : option nat }.

(** A PDF file as the two libraries read it.  [pdf_pages] is the document
    of [fitz.open]; a page reads as [None] when decoding it raises, and the
    whole as [None] when opening raises.  [pdf_tables] is the document of
    [pdfplumber.open], [None] when opening raises; it lists for every page
    the tables of [page.find_tables()], [None] when that call raises. *)
Record Pdf := {
  pdf_pages : option (list (option Page));
  pdf_tables : option (list (option (list Table)))
}.

Inductive Level := H1 | H2 | H3.

Definition level_eqb (a b : Level) : bool :=
  match a, b with
  | H1, H1 | H2, H2 | H3, H3 => true
  | _, _ => false
  end.

Record HeadingRecord := { hr_level : Level; hr_text : str; hr_page : Z }.

Record OutlineResult := { res_title : str; res_outline : list HeadingRecord }.

(** [bool(flags & 16)]. *)
Definition is_bold (sp : Span) : bool := negb (Z.land (sp_flags sp) 16 =? 0).

(** [len(l)] in an operation with a float. *)
Definition flen {A : Type} (l : list A) : num := of_int (Z.of_nat (List.length l)).

(** The center of [bbox] lies in [r]. *)
Definition center_in (bbox r : Rect) : bool :=
  let '(x0, y0, x1, y1) := bbox in
  let '(rx0, ry0, rx1, ry1) := r in
  let cx := fdiv (fadd x0 x1) (lit 2) in
  let cy := fdiv (fadd y0 y1) (lit 2) in
  fleb rx0 cx && fleb cx rx1 && fleb ry0 cy && fleb cy ry1.

(** *** [is_heading_by_formatting] *)

Definition is_heading_by_formatting (span : Span) (avg_font_size : num) : option Level :=
  let font_size := sp_size span in
  let size_ratio :=
    if fltb (lit 0) avg_font_size then fdiv font_size avg_font_size else lit 1 in
  if fleb (lit (14 # 10)) size_ratio || (is_bold span && fleb (lit (12 # 10)) size_ratio)
  then Some H1
  else if fleb (lit (120 # 100)) size_ratio || (is_bold span && fleb (lit 1) size_ratio)
  then Some H2
  else if is_bold span && fleb (lit (8 # 10)) size_ratio then Some H3
  else None.

(** *** [is_text_direction_compatible] *)

Definition is_text_direction_compatible (text : str) (x_position page_width : num) : bool :=
  match detect_language text with
  | ar => fltb (fmul page_width (lit (3 # 10))) x_position
  | _ => fltb x_position (fmul page_width (lit (7 # 10)))
  end.

(** *** [is_text_in_box] *)

Definition is_text_in_box (pg : Page) (line_bbox : Rect) : bool :=
  match pg_drawings pg with
  | None => false
  | Some paths =>
      existsb (fun path =>
        match path with
        | None => false
        | Some rect =>
            let '(x0, y0, x1, y1) := rect in
            let rect_width := fsub x1 x0 in
            let rect_height := fsub y1 y0 in
            center_in line_bbox rect
            && fltb (lit 200) rect_width && fltb rect_width (lit 600)
            && fltb (lit 50) rect_height && fltb rect_height (lit 700)
        end) paths
  end.

(** *** [calculate_average_font_size] *)

Definition block_lines (b : Block) : list Line :=
  match bk_lines b with Some ls => ls | None => [] end.

Definition page_spans (pg : Page) : list Span :=
  flat_map ln_spans (flat_map block_lines (pg_blocks pg)).

Definition nonblank (sp : Span) : bool :=
  match strip (sp_text sp) with [] => false | _ => true end.

(** The sizes gathered from the first five pages. *)
Definition sampled_font_sizes (doc : list Page) : list num :=
  map sp_size (filter nonblank (flat_map page_spans (firstn 5 doc))).

Definition calculate_average_font_size (doc : list Page) : num :=
  match sampled_font_sizes doc with
  | [] => lit 12
  | font_sizes => fdiv (fsum font_sizes) (flen font_sizes)
  end.

(** *** [build_multilingual_date_patterns] *)

Definition month_patterns (months : str) : list str :=
  [utf8 "^\d{1,2}\s+(?:" ++ months ++ utf8 ")\s+\d{4}\.?$";
   utf8 "^(?:" ++ months ++ utf8 ")\s+\d{1,2},?\s+\d{4}\.?$";
   utf8 "^(?:" ++ months ++ utf8 ")\s+\d{4}\.?$"].

Definition build_multilingual_date_patterns (language : lang) : list str :=
  strs ["^\d{1,2}[-/]\d{1,2}[-/]\d{2,4}\.?$";
        "^\d{4}[-/]\d{1,2}[-/]\d{1,2}\.?$";
        "^\d{1,2}\s+\d{1,2}\s+\d{4}\.?$"]
  ++ month_patterns (alternatives (month_names language))
  ++ (if lang_eqb language en then []
      else month_patterns (alternatives (month_names en))).

(** *** [should_skip_text] *)

(** [[detected_lang, 'en'] if detected_lang != 'en' else ['en']]. *)
Definition languages_to_check (detected_lang : lang) : list lang :=
  if lang_eqb detected_lang en then [en] else [detected_lang; en].

Definition toc_patterns : list str :=
  strs [".*\.{3,}.*";
        ".*\.{2,}\s*\d+\s*$";
        ".*\s+\.+\s*\d+\s*$";
        ".*\s+\d+\s*$"].

Definition dress_words (l : lang) : str :=
  match l with
  | zh => utf8 "鞋|衣服|着装"
  | ja => utf8 "靴|服装"
  | _ => utf8 "shoes?|clothing|dress code|attire"
  end.

Definition universal_patterns : list str :=
  strs [".*\.COM\b.*";
        ".*WWW\..*";
        ".*@.*\..*";
        "^[A-Z\s]+(?:REQUIRED|MUST|SHOULD|PLEASE|VISIT).*"].

Definition warning_patterns (langs : list lang) : list str :=
  flat_map (fun l =>
    let words := alternatives (warning_words l) in
    [utf8 ".*(?:" ++ words ++ utf8 ").*";
     utf8 ".*(?:" ++ dress_words l ++ utf8 ").*(?:" ++ words ++ utf8 ").*"]) langs
  ++ universal_patterns.

(** The pattern that exempts the contents heading and the appendix
    headings from the rule on contents rows. *)
Definition toc_exception_pattern (langs : list lang) : str :=
  let toc_pattern := alternatives (flat_map (fun l => table_of_contents (heading_keywords l)) langs) in
  let appendix_pattern := alternatives (flat_map (fun l => appendix (heading_keywords l)) langs) in
  utf8 "^(?:" ++ toc_pattern ++ utf8 "|" ++ appendix_pattern ++ utf8 "\s+[A-Z0-9]+:).*$".

(** Rule 1: a row of a table of contents. *)
Definition is_toc_row (text : str) : bool :=
  let langs := languages_to_check (detect_language text) in
  existsb (fun pattern => Re.matches false pattern (strip text)) toc_patterns
  && negb (Re.matches true (toc_exception_pattern langs) (strip text)).

(** Rule 2: a warning or an instruction, by pattern or, for a long text,
    by one of the words in [text.upper()]. *)
Definition is_warning_text (text : str) : bool :=
  let langs := languages_to_check (detect_language text) in
  existsb (fun pattern => Re.matches true pattern (strip text)) (warning_patterns langs)
  || ((60 <? len text)
      && existsb (fun word => contains word (str_upper text))
                 (flat_map warning_words langs)).

Definition numbered_heading_pattern : str :=
  utf8 "^\d+\.\s+[A-Z\u4e00-\u9fff\u3040-\u309f\u30a0-\u30ff\uac00-\ud7af]".

Definition letter_pattern : str :=
  utf8 "[A-Za-z\u4e00-\u9fff\u3040-\u309f\u30a0-\u30ff\uac00-\ud7af\u0600-\u06ff\u0400-\u04ff]".

(** Some span with text and a letter in it is bold. *)
Definition main_text_bold (spans : list Span) : bool :=
  existsb (fun span =>
    let span_text := strip (sp_text span) in
    match span_text with
    | [] => false
    | _ => Re.searches false letter_pattern span_text && is_bold span
    end) spans.

Definition address_patterns : list str :=
  strs ["^\d+\s+[A-Za-z\s\u4e00-\u9fff\u3040-\u309f\u30a0-\u30ff\uac00-\ud7af]+(?:street|st\b|avenue|ave\b|road|rd\b|drive|dr\b|lane|ln\b|parkway|pkwy|boulevard|blvd\b|街|路|町|丁目)";
        "^[A-Z]{2}\s+\d{5}(?:-\d{4})?$";
        "^[A-Z][a-z]+(?:\s+[A-Z][a-z]+)*,\s*[A-Z]{2}\s+\d{5}$";
        "^(?:Suite|Ste|Apt|Unit|Building|Bldg|Floor|Fl|号室|階)\b.*\d+"].

Definition form_patterns : list str :=
  strs ["^[_\-]{3,}$";
        "^\s*(?:RSVP|Name|Date|Time|Phone|Email|Address|Sign|Signature|Title|Age|名前|日付|時間|電話|メール|住所|署名|タイトル|年齢|姓名|日期|时间|电话|邮箱|地址|签名|标题|年龄)[\s:]*[_\-]*$";
        "^\s*(?:Signature\s+of\s+\w+|署名者|签名者).*$";
        "^\s*(?:Yes|No|Maybe|はい|いいえ|たぶん|是|否|也许)[\s:]*$";
        ".*[_]{3,}.*";
        ".*[\-]{3,}.*";
        "^(?:S\.?No\.?|Sl\.?No\.?|Sr\.?No\.?|Serial\s*No\.?|Serial\s*Number|番号|序号)[\s:]*$";
        "^\d+\.\s*(?:Amount|Name|Address|Details?|Signature|金額|名前|住所|詳細|署名|金额|姓名|地址|详情|签名).*$";
        "^(?:Relationship|Amount|Signature|Details?|関係|金額|署名|詳細|关系|金额|签名|详情)[\s:]*$";
        "^[.\s]{5,}$";
        "^\.{5,}$";
        "^\s*\.+\s*$";
        ".*\.{3,}.*";
        "^\s*[•·▪▫■□○●◦‣⁃・※]\s+";
        "^\s*[-*+]\s+";
        "^\s*\d+[\.\)]\s+[a-z][a-z]";
        "^\s*[a-zA-Z][\.\)]\s+";
        "^\s*[ivxlcdm]+[\.\)]\s+";
        "^\s*\([a-zA-Z0-9]+\)\s+";
        ".*\s+\.\s*\*\s*$";
        "^[a-z].*\s+\.$";
        "^\s*(?:the|this|these|that|those|これ|その|あの|この|该|这|那)\s+";
        ".*\s+(?:years?|年|年間|岁|歲)\s*[\.\*]*$";
        "^.*\s+(?:and|or|と|または|和|或者)\s*$";
        "^.*\s+(?:of|in|to|for|with|by|at|on|の|に|で|から|へ|的|在|到|为|和|由|在)\s*$"].

Definition web_patterns : list str :=
  strs ["^(?:https?:\/\/)?(?:www\.)?[a-zA-Z0-9\-\.]+\.(?:com|org|net|edu|gov|mil|biz|info|io|co|uk|us|jp|cn|kr)/?.*$";
        "^.*\.(?:com|org|net|edu|gov|mil|biz|info|io|co|uk|us|jp|cn|kr)\s*$";
        "^(?:Email|Website|URL|Web|WWW|メール|ウェブサイト|网站|웹사이트)[:\s].*$"].

(** Rules 4 to 7: the address, form, web and date patterns, searched in
    [text] without regard to case. *)
Definition matches_noise_pattern (text : str) : bool :=
  let date_patterns := build_multilingual_date_patterns (detect_language text) in
  existsb (fun pattern => Re.searches true pattern text)
          (address_patterns ++ form_patterns ++ web_patterns ++ date_patterns).

Definition should_skip_text (text : str) (spans : option (list Span)) : bool :=
  match strip text with
  | [] => true
  | _ =>
      if is_toc_row text then true
      else if is_warning_text text then true
      else if Re.matches false numbered_heading_pattern (strip text) then
        if Re.searches false (utf8 "\.{3,}") text then true
        else
          match spans with
          | Some ((_ :: _) as spans) =>
              if main_text_bold spans then false else matches_noise_pattern text
          | _ => false
          end
      else matches_noise_pattern text
  end.

(** *** [is_heading_by_pattern] *)

Definition h1_patterns (l : lang) : list str :=
  let keywords := heading_keywords l in
  let part_words := alternatives (part keywords) in
  let chapter_words := alternatives (chapter keywords) in
  [utf8 "^(" ++ part_words ++ utf8 ")\s+[IVX\d]+";
   utf8 "^(" ++ chapter_words ++ utf8 ")\s+\d+"]
  ++ strs ["^chapter\s+\d+";
           "^第\d+章";
           "^第\d+部";
           "^글\d+장";
           "^глава\s+\d+";
           "^часть\s+[IVX\d]+";
           "^kapitel\s+\d+";
           "^teil\s+[IVX\d]+";
           "^capítulo\s+\d+";
           "^parte\s+[IVX\d]+";
           "^chapitre\s+\d+";
           "^partie\s+[IVX\d]+";
           "^فصل\s+\d+";
           "^جزء\s+\d+";
           "^제\d+장";
           "^제\d+부";
           "^[A-Z\u4e00-\u9fff\u3040-\u309f\u30a0-\u30ff\uac00-\ud7af\s]{10,}$";
           "^\d+\.\s+[A-Z\u4e00-\u9fff\u3040-\u309f\u30a0-\u30ff\uac00-\ud7af]";
           "^[A-Z\u4e00-\u9fff][A-Z\u4e00-\u9fff\u3040-\u309f\u30a0-\u30ff\uac00-\ud7af\s]+[A-Z\u4e00-\u9fff]$"].

Definition h2_patterns (l : lang) : list str :=
  let appendix_words := alternatives (appendix (heading_keywords l)) in
  [utf8 "^(" ++ appendix_words ++ utf8 ")\s+[A-Z0-9]+:";
   utf8 "^(" ++ appendix_words ++ utf8 ")\s*[A-Z0-9]+"]
  ++ strs ["^付録[A-Z0-9]";
           "^附录[A-Z0-9]";
           "^приложение\s+[A-ZА-Я0-9]";
           "^anhang\s+[A-Z0-9]";
           "^apéndice\s+[A-Z0-9]";
           "^annexe\s+[A-Z0-9]";
           "^ملحق\s+[A-Z0-9]";
           "^부록\s*[A-Z0-9]";
           "^\d+\.\d+\s+";
           "^[A-Z\u4e00-\u9fff][a-z\u3040-\u309f\u30a0-\u30ff\uac00-\ud7af]+(\s+[A-Z\u4e00-\u9fff][a-z\u3040-\u309f\u30a0-\u30ff\uac00-\ud7af]+)*:$";
           "^\d+\s+[A-Z\u4e00-\u9fff]";
           "^[A-Z\u4e00-\u9fff][a-z\u3040-\u309f\u30a0-\u30ff\uac00-\ud7af]+(\s+[A-Z\u4e00-\u9fff][a-z\u3040-\u309f\u30a0-\u30ff\uac00-\ud7af]+)*$"].

Definition h3_patterns : list str :=
  strs ["^\d+\.\d+\.\d+\s+";
        "^[a-z]\)\s+";
        "^[•·▪▫■□○●◦‣⁃・※]\s+[A-Z\u4e00-\u9fff]";
        "^[(（][a-zA-Z0-9]+[)）]\s+"].

Definition restrictive_single_word_patterns : list str :=
  strs ["^[A-Z]{4,}$";
        "^[\u4e00-\u9fff]{2,}$";
        "^[\u3040-\u309f\u30a0-\u30ff]{3,}$";
        "^[\uac00-\ud7af]{2,}$"].

Definition is_heading_by_pattern (text : str) : option Level :=
  let text := strip text in
  if should_skip_text text None then None
  else
    let langs := languages_to_check (detect_language text) in
    if existsb (fun pattern => Re.matches true pattern text) (flat_map h1_patterns langs)
    then Some H1
    else if existsb (fun pattern => Re.matches true pattern text) (flat_map h2_patterns langs)
    then Some H2
    else if existsb (fun pattern => Re.matches true pattern text) h3_patterns
    then Some H3
    else if existsb (fun pattern => Re.matches false pattern text && (3 <=? len text))
                    restrictive_single_word_patterns
    then Some H2
    else None.

(** *** [is_likely_list_item] *)

(** An entry of [self.detected_lists]. *)
Record DetectedList := {
  dl_text : str;
  dl_pattern_count : Z;
  dl_patterns : list str
}.

(** [sys.get_int_max_str_digits()]: the longest run of digits that [int]
    converts, 4300 unless the interpreter is told otherwise. *)
Definition int_max_str_digits : nat := 4300.

(** [int(s)] on a run of decimal digits; [None] when it raises
    [ValueError], the run being too long. *)
Definition int_of (s : str) : option Z :=
  if (int_max_str_digits <? List.length s)%nat then None
  else
    Some (fold_left
            (fun acc c => 10 * acc + match digit_value c with Some d => d | None => 0 end)
            s 0).

Definition subsection_pattern : str := utf8 "^(\d+)\.(\d+)\s+".

(** The text of a neighbouring line as the function rebuilds it. *)
Definition check_text_of (check_line : Line) : str :=
  strip (flat_map (fun check_span => strip (sp_text check_span) ++ utf8 " ")
                  (ln_spans check_line)).

(** What one neighbouring line adds to [found_patterns]; [None] when
    [int] raises on its number. *)
Definition check_neighbor (major_num : Z) (check_line : Line) : option (list str) :=
  let check_text := check_text_of check_line in
  match check_text with
  | [] => Some []
  | _ =>
      match Re.re_match false subsection_pattern check_text with
      | Some check_match =>
          match int_of (Re.group check_text check_match 1) with
          | None => None
          | Some check_major =>
              if check_major =? major_num then
                Some [Re.group check_text check_match 1 ++ utf8 "."
                      ++ Re.group check_text check_match 2 ++ utf8 " - "
                      ++ firstn 50 check_text ++ utf8 "..."]
              else Some []
          end
      | None => Some []
      end
  end.

(** A loop that gathers what [f] gives for the elements of [l], one after
    the other; [None] as soon as [f] raises. *)
Fixpoint gather {A B : Type} (f : A -> option (list B)) (l : list A) : option (list B) :=
  match l with
  | [] => Some []
  | a :: l' =>
      match f a with
      | None => None
      | Some found =>
          match gather f l' with
          | None => None
          | Some rest => Some (found ++ rest)
          end
      end
  end.

(** The lines at the indices [range(lo, hi)] that exist. *)
Definition lines_in_range (lines : list Line) (lo hi : nat) : list Line :=
  flat_map (fun check_i => match nth_error lines check_i with Some l => [l] | None => [] end)
           (seq lo (hi - lo)).

(** [found_patterns] after the two loops. *)
Definition found_patterns (major_num : Z) (lines : list Line) (current_index : nat)
  : option (list str) :=
  let search_range := 10%nat in
  match gather (check_neighbor major_num)
          (lines_in_range lines (current_index - search_range) current_index) with
  | None => None
  | Some before =>
      match gather (check_neighbor major_num)
              (lines_in_range lines (current_index + 1)
                 (Nat.min (List.length lines) (current_index + search_range + 1))) with
      | None => None
      | Some after => Some (before ++ after)
      end
  end.

(** The function reads and extends [self.detected_lists]: the list is an
    argument and a part of the result.  The result is [None] when one of
    the calls of [int] raises. *)
Definition is_likely_list_item (line_text : str) (lines : list Line) (current_index : nat)
  (detected_lists : list DetectedList) : option (bool * list DetectedList) :=
  if negb (Re.matches false (utf8 "^\d+\.\d+\s+") (strip line_text)) then
    Some (false, detected_lists)
  else
    match Re.re_match false subsection_pattern (strip line_text) with
    | None => Some (false, detected_lists)
    | Some mo =>
        match int_of (Re.group (strip line_text) mo 1),
              int_of (Re.group (strip line_text) mo 2) with
        | Some major_num, Some minor_num =>
            match found_patterns major_num lines current_index with
            | None => None
            | Some found =>
                let similar_patterns := Z.of_nat (List.length found) in
                let is_list := 2 <=? similar_patterns in
                if is_list then
                  Some (true, detected_lists ++ [{| dl_text := line_text;
                                                    dl_pattern_count := similar_patterns;
                                                    dl_patterns := found |}])
                else Some (false, detected_lists)
            end
        | _, _ => None
        end
    end.

(** *** Sorting *)

(** [sorted] and [list.sort]: a stable sort that compares with [<] only.
    An element goes in before the first one that is not less than it. *)
Fixpoint insert_sorted {A : Type} (lt : A -> A -> bool) (a : A) (l : list A) : list A :=
  match l with
  | [] => [a]
  | b :: l' => if lt b a then b :: insert_sorted lt a l' else a :: l
  end.

Definition sort_by {A : Type} (lt : A -> A -> bool) (l : list A) : list A :=
  fold_right (insert_sorted lt) [] l.

(** *** [extract_title_from_text] *)

Record TitleCandidate := {
  tc_text : str;
  tc_size : num;
  tc_y : num;
  tc_flags : Z
}.

(** The tables of the first page that count for the title: those of three
    rows or more, and those whose rows cannot be extracted. *)
Definition title_page_tables (pdf : Pdf) : list Rect :=
  match pdf_tables pdf with
  | Some (Some found_tables :: _) =>
      flat_map (fun table =>
        match tb_rows table with
        | None => [tb_bbox table]
        | Some n => if tb_cells table && (3 <=? n)%nat then [tb_bbox table] else []
        end) found_tables
  | _ => []
  end.

(** The filter on the text of a span. *)
Definition title_span_ok (text : str) : bool :=
  (1 <? len text)
  && negb (existsb (fun p => startswith (utf8 p) text) ["Page "; "Chapter "; "Section "])
  && negb (startswith (utf8 "http") text)
  && negb (existsb (fun p => endswith (utf8 p) text) [".com"; ".org"; ".net"])
  && negb (Re.matches false (utf8 "^[0-9\-]+$") text)
  && negb (Re.matches false (utf8 "^[0-9\s]*$") text)
  && negb (Re.matches false (utf8 "^[a-z]\s*$") text)
  && let words := split text in
     (Z.of_nat (List.length words) <=? 3)
     || fleb (fmul (flen words) (lit (6 # 10))) (flen (dedup words)).

(** The candidate of a line, if the line yields one. *)
Definition title_candidate (pdf : Pdf) (pg : Page) (line : Line) : list TitleCandidate :=
  let '(line_x, line_y, _, _) := ln_bbox line in
  let kept := filter (fun span => title_span_ok (strip (sp_text span))) (ln_spans line) in
  let line_parts := map (fun span => strip (sp_text span)) kept in
  let line_size := fold_left (fun line_size span =>
                     if fltb line_size (sp_size span) then sp_size span else line_size)
                     kept (lit 0) in
  let line_flags := fold_left (fun line_flags span => Z.lor line_flags (sp_flags span))
                      kept 0 in
  match line_parts with
  | [] => []
  | _ =>
      let is_right_aligned := fltb (fmul (pg_width pg) (lit (6 # 10))) line_x in
      let is_in_table := existsb (center_in (ln_bbox line)) (title_page_tables pdf) in
      let is_in_box := is_text_in_box pg (ln_bbox line) in
      if negb is_right_aligned && negb is_in_table && negb is_in_box
         && fltb line_y (fmul (pg_height pg) (lit (60 # 100)))
      then [{| tc_text := join (utf8 " ") line_parts; tc_size := line_size;
               tc_y := line_y; tc_flags := line_flags |}]
      else []
  end.

(** [size_groups]: the candidates by size key, the keys in the order of
    their first candidate. *)
Fixpoint group_add (size_key : Z) (c : TitleCandidate)
  (groups : list (Z * list TitleCandidate)) : list (Z * list TitleCandidate) :=
  match groups with
  | [] => [(size_key, [c])]
  | (k, cs) :: groups' =>
      if k =? size_key then (k, cs ++ [c]) :: groups'
      else (k, cs) :: group_add size_key c groups'
  end.

Definition size_groups_of (top_candidates : list TitleCandidate)
  : list (Z * list TitleCandidate) :=
  fold_left (fun groups c => group_add (fround (fdiv (tc_size c) (lit 2)) * 2) c groups)
            top_candidates [].

Definition group_of (size_key : Z) (groups : list (Z * list TitleCandidate))
  : list TitleCandidate :=
  match find (fun g => fst g =? size_key) groups with
  | Some g => snd g
  | None => []
  end.

Definition by_y (a b : TitleCandidate) : bool := fltb (tc_y a) (tc_y b).

(** The candidate joins the first group whose last line is near, or
    starts a group. *)
Fixpoint add_to_title_lines (largest_size : Z) (c : TitleCandidate)
  (title_lines : list (list TitleCandidate)) : list (list TitleCandidate) :=
  match title_lines with
  | [] => [[c]]
  | line_group :: title_lines' =>
      let last_y := match rev line_group with l :: _ => tc_y l | [] => lit 0 end in
      if fleb (fabs (fsub (tc_y c) last_y)) (of_int (largest_size * 3))
      then (line_group ++ [c]) :: title_lines'
      else line_group :: add_to_title_lines largest_size c title_lines'
  end.

Fixpoint take_while {A : Type} (f : A -> bool) (l : list A) : list A :=
  match l with
  | [] => []
  | a :: l' => if f a then a :: take_while f l' else []
  end.

(** The title of two neighbouring size groups, if they give one. *)
Definition multi_part_title (pg : Page) (groups : list (Z * list TitleCandidate))
  : option str :=
  match sort_by (fun a b => b <? a) (map fst groups) with
  | largest_size :: second_largest_size :: _ =>
      if fleb (fmul (of_int largest_size) (lit (6 # 10))) (of_int second_largest_size) then
        let all_title_candidates :=
          sort_by by_y (group_of largest_size groups ++ group_of second_largest_size groups) in
        let in_title_area :=
          take_while (fun c => negb (fltb (fmul (pg_height pg) (lit (5 # 10))) (tc_y c)))
                     all_title_candidates in
        let title_lines :=
          fold_left (fun title_lines c => add_to_title_lines largest_size c title_lines)
                    in_title_area [] in
        let title_parts :=
          filter (fun line_text => negb (eqb line_text []))
            (map (fun line_group =>
                    join (utf8 " ")
                      (filter (fun t => negb (eqb t []))
                              (map (fun c => strip (tc_text c)) line_group)))
                 title_lines) in
        match title_parts with
        | [] => None
        | _ => Some (smart_deduplicate_title (join (utf8 " ") title_parts))
        end
      else None
  | _ => None
  end.

(** The first cluster of the lines of the largest group. *)
Fixpoint first_cluster (largest_size : Z) (last_y : num) (l : list TitleCandidate)
  : list TitleCandidate :=
  match l with
  | [] => []
  | c :: l' =>
      if fleb (fsub (tc_y c) last_y) (of_int (largest_size * 3))
      then c :: first_cluster largest_size (tc_y c) l'
      else []
  end.

Fixpoint unique_parts_of (seen_texts : list str) (l : list TitleCandidate) : list str :=
  match l with
  | [] => []
  | c :: l' =>
      let text := strip (tc_text c) in
      if negb (eqb text []) && negb (mem text seen_texts) && (2 <? len text)
      then text :: unique_parts_of (text :: seen_texts) l'
      else unique_parts_of seen_texts l'
  end.

Definition single_group_title (groups : list (Z * list TitleCandidate)) : str :=
  match map fst groups with
  | [] => []
  | k :: ks =>
      let largest_size := fold_left Z.max ks k in
      match sort_by by_y (group_of largest_size groups) with
      | [] => []
      | c :: rest =>
          let best_group := c :: first_cluster largest_size (tc_y c) rest in
          match unique_parts_of [] best_group with
          | [] => []
          | unique_parts => smart_deduplicate_title (join (utf8 " ") unique_parts)
          end
      end
  end.

Definition extract_title_from_text (pdf : Pdf) (doc : list Page) : str :=
  match doc with
  | [] => utf8 "Untitled Document"
  | pg :: _ =>
      let candidates :=
        flat_map (title_candidate pdf pg) (flat_map block_lines (pg_blocks pg)) in
      match candidates with
      | [] => []
      | _ =>
          let candidates := filter (fun c => len (tc_text c) <? 200) candidates in
          let top_y := fmul (pg_height pg) (lit (60 # 100)) in
          let top_candidates := filter (fun c => fleb (tc_y c) top_y) candidates in
          match top_candidates with
          | [] => []
          | _ =>
              let size_groups := size_groups_of top_candidates in
              match multi_part_title pg size_groups with
              | Some final_title => final_title
              | None => single_group_title size_groups
              end
          end
      end
  end.

(** *** [detect_tables_with_pdfplumber] *)

(** The loop over the pages from [page_num] on: the page number and the
    box of every table of three rows or more.  When [find_tables] raises
    on a page the loop ends, and the tables of the pages before it stay. *)
Fixpoint tables_from (page_num : nat) (pages : list (option (list Table)))
  : list (Z * Rect) :=
  match pages with
  | [] => []
  | None :: _ => []
  | Some found_tables :: pages' =>
      flat_map (fun table =>
        match tb_rows table with
        | None => []
        | Some n =>
            if negb (tb_cells table) || (n <? 3)%nat then []
            else [(Z.of_nat page_num + 1, tb_bbox table)]
        end) found_tables
      ++ tables_from (S page_num) pages'
  end.

Definition detect_tables_with_pdfplumber (pdf : Pdf) : list (Z * Rect) :=
  match pdf_tables pdf with
  | None => []
  | Some pages => tables_from 0 pages
  end.

(** [tables_by_page.get(page, [])]. *)
Definition tables_of_page (tables : list (Z * Rect)) (page : Z) : list Rect :=
  map snd (filter (fun t => fst t =? page) tables).

(** *** [extract_outline] *)

(** The span stands upright or on its side, within five degrees. *)
Definition upright (span : Span) : bool :=
  existsb (fun base => fleb (fabs (fmod (fsub (sp_rotation span) base) (lit 360))) (lit 5))
          [lit 0; lit 90; lit 180; lit 270].

(** The text and the spans of a line before merging. *)
Definition line_start (line : Line) : str * list Span :=
  let kept := filter (fun span => nonblank span && upright span) (ln_spans line) in
  (flat_map (fun span => strip (sp_text span) ++ utf8 " ") kept, kept).

Definition sizes_or_zero (spans : list Span) : list num :=
  match spans with [] => [lit 0] | _ => map sp_size spans end.

(** The inner loop: the lines after [line] that are merged into it, with
    their number. *)
Fixpoint merge_following (line : Line) (following : list Line)
  (line_text : str) (line_spans : list Span) : str * list Span * nat :=
  match following with
  | [] => (line_text, line_spans, 0%nat)
  | next_line :: following' =>
      let next_spans := ln_spans next_line in
      let next_text :=
        join (utf8 " ") (map (fun s => strip (sp_text s)) (filter nonblank next_spans)) in
      match next_text with
      | [] => (line_text, line_spans, 0%nat)
      | _ =>
          let font_sizes := sizes_or_zero line_spans in
          let next_font_sizes := sizes_or_zero next_spans in
          let avg_size := fdiv (fsum font_sizes) (flen font_sizes) in
          let next_avg_size := fdiv (fsum next_font_sizes) (flen next_font_sizes) in
          let size_diff := fabs (fsub avg_size next_avg_size) in
          let '(_, _, _, line_y1) := ln_bbox line in
          let '(_, next_y0, _, _) := ln_bbox next_line in
          let vertical_diff := fabs (fsub next_y0 line_y1) in
          if fleb size_diff (lit 1) && fleb vertical_diff (fmul avg_size (lit (15 # 10))) then
            let '(t, s, n) := merge_following line following'
                                (line_text ++ next_text ++ utf8 " ")
                                (line_spans ++ next_spans) in
            (t, s, S n)
          else (line_text, line_spans, 0%nat)
      end
  end.

(** The line is the title or a part of it; asked on the first page when
    there is a title. *)
Definition is_title_related (line_text title : str) : bool :=
  let is_exact_match := eqb (str_lower (strip line_text)) (str_lower (strip title)) in
  let title_words := dedup (split (str_lower title)) in
  let line_words := dedup (split (str_lower line_text)) in
  match title_words, line_words with
  | _ :: _, _ :: _ =>
      let word_overlap := List.length (filter (fun w => mem w title_words) line_words) in
      let is_title_part :=
        (List.length line_words <=? word_overlap)%nat && (List.length line_words <=? 3)%nat in
      is_exact_match || is_title_part
  | _, _ => false
  end.

(** The page names a table of contents. *)
Definition is_on_toc_page (page_text : str) : bool :=
  existsb (fun l =>
    existsb (fun keyword => contains (str_lower keyword) page_text)
            (table_of_contents (heading_keywords l)))
    (languages_to_check (detect_language page_text)).

(** On such a page a line passes if it is the contents heading itself or a
    numbered line with a bold span. *)
Definition allowed_on_toc_page (page_text line_text : str) (line_spans : list Span) : bool :=
  let langs := languages_to_check (detect_language page_text) in
  let toc_pattern :=
    alternatives (flat_map (fun l => table_of_contents (heading_keywords l)) langs) in
  Re.matches true (utf8 "^(?:" ++ toc_pattern ++ utf8 ")$") (strip line_text)
  || (Re.matches false (utf8 "^\d+\.") (strip line_text) && existsb is_bold line_spans).

(** The level of a line: from the formatting of the first span that has
    one, unless some spans are bold and some are not; else from the
    patterns. *)
Definition heading_level_of (line_text : str) (line_spans : list Span) (avg_font_size : num)
  : option Level :=
  let any_bold := existsb is_bold line_spans in
  let all_bold := forallb is_bold line_spans in
  let by_format :=
    if any_bold && negb all_bold then None
    else
      match flat_map (fun span =>
              match is_heading_by_formatting span avg_font_size with
              | Some lv => [lv]
              | None => []
              end) line_spans with
      | lv :: _ => Some lv
      | [] => None
      end in
  match by_format with
  | Some lv => Some lv
  | None => is_heading_by_pattern line_text
  end.

(** The variables of the loops: the outline so far, the set of accepted
    line texts and the diagnostics of the instance.  [st_raised] tells
    that a [ValueError] is on its way out of the loops: nothing more is
    done then. *)
Record LoopState := {
  st_outline : list HeadingRecord;
  st_processed : list str;
  st_detected : list DetectedList;
  st_raised : bool
}.

(** The first conjuncts of the test that admits a line. *)
Definition passes_filters (pdf_title : str) (page_num : nat) (pg : Page)
  (page_tables : list Rect) (line : Line) (line_text : str) (line_spans : list Span)
  (processed_texts : list str) : bool :=
  let '(line_x, _, _, _) := ln_bbox line in
  let is_direction_compatible :=
    match line_spans with
    | [] => true
    | _ => is_text_direction_compatible line_text line_x (pg_width pg)
    end in
  let is_in_box :=
    match line_spans with [] => false | _ => is_text_in_box pg (ln_bbox line) end in
  let is_in_table :=
    match line_spans with
    | [] => false
    | _ => existsb (center_in (ln_bbox line)) page_tables
    end in
  let title_related :=
    match page_num, pdf_title with
    | O, _ :: _ => is_title_related line_text pdf_title
    | _, _ => false
    end in
  (3 <? len line_text) && (len line_text <? 200)
  && negb (mem line_text processed_texts)
  && match line_spans with [] => false | _ => true end
  && negb (should_skip_text line_text (Some line_spans))
  && negb (eqb line_text pdf_title)
  && negb title_related
  && is_direction_compatible
  && negb is_in_box
  && negb is_in_table.

(** [max(span.get("size", 0) for span in line_spans)], 0 without spans. *)
Definition max_font_size (line_spans : list Span) : num :=
  match map sp_size line_spans with
  | [] => lit 0
  | s :: ss => fold_left (fun a b => if fltb a b then b else a) ss s
  end.

(** The body of the loop over the lines of a block, after the merge: [i]
    is the index the loop goes on with. *)
Definition process_line (pdf_title : str) (avg_font_size : num) (page_num : nat) (pg : Page)
  (page_tables : list Rect) (lines : list Line) (i : nat) (line : Line)
  (line_text : str) (line_spans : list Span) (st : LoopState) : LoopState :=
  if st_raised st then st
  else if negb (passes_filters pdf_title page_num pg page_tables line line_text line_spans
                  (st_processed st)) then st
  else
    let page_text := str_lower (pg_text pg) in
    if is_on_toc_page page_text && negb (allowed_on_toc_page page_text line_text line_spans)
    then st
    else
      match heading_level_of line_text line_spans avg_font_size with
      | None => st
      | Some heading_level =>
          match is_likely_list_item line_text lines i (st_detected st) with
          | None =>
              {| st_outline := st_outline st; st_processed := st_processed st;
                 st_detected := st_detected st; st_raised := true |}
          | Some (true, detected) =>
              {| st_outline := st_outline st; st_processed := st_processed st;
                 st_detected := detected; st_raised := false |}
          | Some (false, detected) =>
              let bold_found := existsb is_bold line_spans in
              if (page_num =? 0)%nat && negb bold_found
                 && fleb (lit 16) (max_font_size line_spans) then
                {| st_outline := st_outline st; st_processed := st_processed st;
                   st_detected := detected; st_raised := false |}
              else
                let heading_text := clean_extracted_text line_text true in
                {| st_outline := st_outline st ++
                     [{| hr_level := heading_level; hr_text := heading_text;
                         hr_page := Z.of_nat page_num + 1 |}];
                   st_processed := line_text :: st_processed st;
                   st_detected := detected; st_raised := false |}
          end
      end.

(** What a turn of the loop over the lines computes for the line at index
    [i] before it tests it: the cleaned text, the spans after merging, and
    the index the loop goes on with. *)
Definition merged_line (lines : list Line) (i : nat) (line : Line)
  : str * list Span * nat :=
  let '(line_text0, line_spans0) := line_start line in
  let '(line_text1, line_spans, merged) :=
    merge_following line (skipn (S i) lines) line_text0 line_spans0 in
  let line_text := strip line_text1 in
  (match line_text with [] => line_text | _ => clean_extracted_text line_text false end,
   line_spans, (i + merged + 1)%nat).

(** The loop [while i < len(lines)]: every turn moves [i] on by one or
    more, so [fuel] turns are enough when [fuel] is the number of lines. *)
Fixpoint lines_loop (fuel : nat) (pdf_title : str) (avg_font_size : num) (page_num : nat)
  (pg : Page) (page_tables : list Rect) (lines : list Line) (i : nat) (st : LoopState)
  : LoopState :=
  match fuel with
  | O => st
  | S fuel' =>
      match nth_error lines i with
      | None => st
      | Some line =>
          let '(line_text, line_spans, i') := merged_line lines i line in
          lines_loop fuel' pdf_title avg_font_size page_num pg page_tables lines i'
            (process_line pdf_title avg_font_size page_num pg page_tables lines i' line
               line_text line_spans st)
      end
  end.

Definition page_loop (pdf_title : str) (avg_font_size : num) (tables : list (Z * Rect))
  (page_num : nat) (pg : Page) (st : LoopState) : LoopState :=
  let page_tables := tables_of_page tables (Z.of_nat page_num + 1) in
  fold_left (fun st block =>
    match bk_lines block with
    | None => st
    | Some lines =>
        lines_loop (List.length lines) pdf_title avg_font_size page_num pg page_tables
                   lines 0 st
    end) (pg_blocks pg) st.

(** The loop over the pages; [None] when decoding a page raises or [int]
    has raised, with the diagnostics gathered up to there. *)
Fixpoint pages_loop (pdf_title : str) (avg_font_size : num) (tables : list (Z * Rect))
  (page_num : nat) (pages : list (option Page)) (st : LoopState)
  : option LoopState * list DetectedList :=
  match pages with
  | [] => (if st_raised st then None else Some st, st_detected st)
  | None :: _ => (None, st_detected st)
  | Some pg :: pages' =>
      pages_loop pdf_title avg_font_size tables (S page_num) pages'
        (page_loop pdf_title avg_font_size tables page_num pg st)
  end.

Fixpoint all_decoded {A : Type} (l : list (option A)) : option (list A) :=
  match l with
  | [] => Some []
  | None :: _ => None
  | Some a :: l' =>
      match all_decoded l' with
      | Some r => Some (a :: r)
      | None => None
      end
  end.

(** The order of [sorted(outline, key=lambda x: (x["page"], x["text"]))]. *)
Definition record_ltb (a b : HeadingRecord) : bool :=
  (hr_page a <? hr_page b) || ((hr_page a =? hr_page b) && ltb (hr_text a) (hr_text b)).

Definition same_key (a b : HeadingRecord) : bool :=
  level_eqb (hr_level a) (hr_level b) && eqb (hr_text a) (hr_text b).

(** The loop that keeps the first record of every [(level, text)]. *)
Fixpoint unique_by_key (seen : list HeadingRecord) (l : list HeadingRecord)
  : list HeadingRecord :=
  match l with
  | [] => []
  | item :: l' =>
      if existsb (same_key item) seen then unique_by_key seen l'
      else item :: unique_by_key (item :: seen) l'
  end.

Definition unique_outline_of (outline : list HeadingRecord) : list HeadingRecord :=
  unique_by_key [] (sort_by record_ltb outline).

Definition title_text_of (pdf_title : str) : str :=
  match pdf_title with
  | [] => []
  | _ =>
      if eqb pdf_title (utf8 "Untitled Document") then []
      else clean_extracted_text pdf_title true
  end.

Definition empty_result : OutlineResult := {| res_title := []; res_outline := [] |}.

(** The state of the loops at the end of the walk over the document, with
    the title; [None] when an exception reaches the handler of
    [extract_outline]. *)
Definition walk (pdf : Pdf) (detected_lists : list DetectedList)
  : option (str * LoopState) * list DetectedList :=
  match pdf_pages pdf with
  | None => (None, detected_lists)
  | Some pages =>
      match all_decoded (firstn 5 pages) with
      | None => (None, detected_lists)
      | Some doc =>
          let pdf_title := extract_title_from_text pdf doc in
          let avg_font_size := calculate_average_font_size doc in
          let tables := detect_tables_with_pdfplumber pdf in
          match pages_loop pdf_title avg_font_size tables 0 pages
                  {| st_outline := []; st_processed := [];
                     st_detected := detected_lists; st_raised := false |} with
          | (Some st, detected) => (Some (pdf_title, st), detected)
          | (None, detected) => (None, detected)
          end
      end
  end.

(** [extract_outline], with [self.detected_lists] before and after. *)
Definition extract_outline (pdf : Pdf) (detected_lists : list DetectedList)
  : OutlineResult * list DetectedList :=
  match walk pdf detected_lists with
  | (Some (pdf_title, st), detected) =>
      ({| res_title := title_text_of pdf_title;
          res_outline := unique_outline_of (st_outline st) |}, detected)
  | (None, detected) => (empty_result, detected)
  end.

(** *** [process_directory] *)

(** A PDF file of the listing: the stem of its name and what it holds. *)
Record PdfFile := { pf_stem : str; pf_pdf : Pdf }.

(** The output path: a file when its suffix is [.json], else a directory. *)
Inductive OutputPath := JsonFile (path : str) | Directory (path : str).

Definition output_file_of (output_path : OutputPath) (pdf_file : PdfFile) : str :=
  match output_path with
  | JsonFile path => path
  | Directory path => path ++ utf8 "/" ++ pf_stem pdf_file ++ utf8 ".json"
  end.

(** The loop over the files.  [write_ok] tells whether writing a file
    succeeds; a failure is logged and the loop goes on.  The result lists
    the files written with their content, the last one first. *)
Fixpoint process_files (write_ok : str -> bool) (output_path : OutputPath)
  (pdf_files : list PdfFile) (written : list (str * OutlineResult))
  (detected_lists : list DetectedList)
  : list (str * OutlineResult) * list DetectedList :=
  match pdf_files with
  | [] => (written, detected_lists)
  | pdf_file :: pdf_files' =>
      let '(result, detected) := extract_outline (pf_pdf pdf_file) detected_lists in
      let output_file := output_file_of output_path pdf_file in
      process_files write_ok output_path pdf_files'
        (if write_ok output_file then (output_file, result) :: written else written)
        detected
  end.

Definition process_directory (write_ok : str -> bool) (output_path : OutputPath)
  (pdf_files : list PdfFile) (detected_lists : list DetectedList)
  : list (str * OutlineResult) * list DetectedList :=
  process_files write_ok output_path pdf_files [] detected_lists.

End Extractor.

(** ** The patterns of the source are patterns of the syntax *)

Definition parses (pat : str) : bool :=
  match Re.parse pat with Some _ => true | None => false end.

Definition all_patterns : list str :=
  toc_patterns ++ universal_patterns ++ address_patterns ++ form_patterns
  ++ web_patterns ++ h3_patterns ++ restrictive_single_word_patterns
  ++ [numbered_heading_pattern; letter_pattern; subsection_pattern]
  ++ strs ["\b([A-Z])\s+([a-z]{2,})\b"; "\b([A-Z])\s+([A-Z]{2,})\b";
           "\b([a-z])\s+([a-z]{2})\b"; "\s+"; "\s+([!?.,;:])";
           "([!?.,;:])\s*([!?.,;:])"; "^[0-9\-]+$"; "^[0-9\s]*$"; "^[a-z]\s*$";
           "^\d+\.\d+\s+"; "^\d+\."; "\.{3,}"]
  ++ flat_map (fun l =>
       warning_patterns [l] ++ build_multilingual_date_patterns l
       ++ h1_patterns l ++ h2_patterns l
       ++ [toc_exception_pattern (languages_to_check l)]) languages.

Lemma patterns_parse : forallb parses all_patterns = true.
Proof. vm_compute. reflexivity. Qed.

(** ** Documents for the examples *)

Definition span_of {N : Numbers} (t : string) (size : Q) (flags : Z) : Span :=
  {| sp_text := utf8 t; sp_size := lit size; sp_flags := flags; sp_rotation := lit 0 |}.

(** A line of one span, at the left margin, with its top at [y]. *)
Definition line_of {N : Numbers} (t : string) (size : Q) (flags : Z) (y : Q) : Line :=
  {| ln_spans := [span_of t size flags];
     ln_bbox := (lit 50, lit y, lit 300, fadd (lit y) (lit size)) |}.

(** A page of one block, 600 by 800, without drawings. *)
Definition page_of {N : Numbers} (lines : list Line) (t : string) : Page :=
  {| pg_blocks := [{| bk_lines := Some lines |}]; pg_width := lit 600; pg_height := lit 800;
     pg_text := utf8 t; pg_drawings := Some [] |}.

Definition pdf_of {N : Numbers} (pages : list Page) : Pdf :=
  {| pdf_pages := Some (map Some pages);
     pdf_tables := Some (map (fun _ => Some []) pages) |}.

(** A report whose second page repeats the title in capitals. *)
Definition annual_report {N : Numbers} : Pdf :=
  pdf_of [page_of [line_of "Annual Report" 24 16 40] "Annual Report";
          page_of [line_of "ANNUAL REPORT" 12 16 100] "ANNUAL REPORT"].

Definition annual_report_heading : HeadingRecord :=
  {| hr_level := H1; hr_text := utf8 "ANNUAL REPORT "; hr_page := 2 |}.

(** Three numbered lines of one block, and one numbered line alone. *)
Definition numbered_lines {N : Numbers} : list Line :=
  [line_of "9.1 Alpha" 12 0 200; line_of "9.2 Beta" 12 0 300; line_of "9.3 Gamma" 12 0 400].

Definition numbered_list_doc {N : Numbers} : Pdf :=
  pdf_of [page_of (line_of "Sample Document" 24 16 40 :: numbered_lines) "Sample Document"].

Definition isolated_item_doc {N : Numbers} : Pdf :=
  pdf_of [page_of [line_of "Sample Document" 24 16 40; line_of "9.1 Alpha" 12 0 200]
            "Sample Document"].

(** A file that cannot be opened. *)
Definition broken_pdf {N : Numbers} : Pdf := {| pdf_pages := None; pdf_tables := None |}.

(** ** Properties *)

(** *** The order on strings and on records *)

Lemma eqb_eq (a b : str) : eqb a b = true <-> a = b.
Proof. unfold eqb. destruct (list_eq_dec Z.eq_dec a b); split; congruence. Qed.

Lemma eqb_neq (a b : str) : eqb a b = false <-> a <> b.
Proof. unfold eqb. destruct (list_eq_dec Z.eq_dec a b); split; congruence. Qed.

Lemma ltb_irrefl (a : str) : ltb a a = false.
Proof.
  induction a as [|x a IH]; simpl; [reflexivity|].
  rewrite Z.ltb_irrefl, Z.eqb_refl, IH. reflexivity.
Qed.

Lemma ltb_trans (a b c : str) : ltb a b = true -> ltb b c = true -> ltb a c = true.
Proof.
  revert b c. induction a as [|x a IH]; intros [|y b] [|z c]; simpl; try congruence.
  intros Hab Hbc.
  apply orb_true_iff in Hab. apply orb_true_iff in Hbc. apply orb_true_iff.
  destruct Hab as [Hab|Hab]; destruct Hbc as [Hbc|Hbc].
  - left. apply Z.ltb_lt in Hab, Hbc. apply Z.ltb_lt. lia.
  - apply andb_true_iff in Hbc as [Hyz _]. apply Z.eqb_eq in Hyz. subst. now left.
  - apply andb_true_iff in Hab as [Hxy _]. apply Z.eqb_eq in Hxy. subst. now left.
  - apply andb_true_iff in Hab as [Hxy Hab]. apply andb_true_iff in Hbc as [Hyz Hbc].
    apply Z.eqb_eq in Hxy, Hyz. subst. right.
    rewrite Z.eqb_refl. simpl. eapply IH; eassumption.
Qed.

Lemma ltb_total (a b : str) : ltb a b = false -> ltb b a = false -> a = b.
Proof.
  revert b. induction a as [|x a IH]; intros [|y b]; simpl; try congruence.
  intros Hab Hba.
  apply orb_false_iff in Hab as [Hxy Hab]. apply orb_false_iff in Hba as [Hyx Hba].
  apply Z.ltb_ge in Hxy, Hyx. assert (x = y) by lia. subst.
  rewrite Z.eqb_refl in Hab, Hba. simpl in Hab, Hba.
  f_equal. now apply IH.
Qed.

Lemma ltb_asym (a b : str) : ltb a b = true -> ltb b a = false.
Proof.
  intros Hab. destruct (ltb b a) eqn:Hba; [|reflexivity].
  pose proof (ltb_trans _ _ _ Hab Hba) as H. rewrite ltb_irrefl in H. discriminate.
Qed.

Lemma leb_iff (a b : str) : leb a b = true <-> ltb a b = true \/ a = b.
Proof.
  unfold leb. split.
  - intros H. apply negb_true_iff in H.
    destruct (ltb a b) eqn:Hab; [now left|]. right. now apply ltb_total.
  - intros [H| ->]; apply negb_true_iff; [now apply ltb_asym | apply ltb_irrefl].
Qed.

Lemma leb_trans (a b c : str) : leb a b = true -> leb b c = true -> leb a c = true.
Proof.
  rewrite !leb_iff. intros [Hab| ->] [Hbc| ->]; auto.
  left. eapply ltb_trans; eassumption.
Qed.

(** A record is not after another: an earlier page, or the same page and
    a text that is not greater. *)
Definition record_le (a b : HeadingRecord) : Prop :=
  hr_page a < hr_page b \/ (hr_page a = hr_page b /\ leb (hr_text a) (hr_text b) = true).

Lemma record_le_trans (a b c : HeadingRecord) :
  record_le a b -> record_le b c -> record_le a c.
Proof.
  unfold record_le. intros [Hab|[Hab Tab]] [Hbc|[Hbc Tbc]]; try (left; lia).
  right. split; [lia|]. eapply leb_trans; eassumption.
Qed.

Lemma record_ltb_le (a b : HeadingRecord) : record_ltb a b = true -> record_le a b.
Proof.
  unfold record_ltb, record_le. intros H. apply orb_true_iff in H as [H|H].
  - left. now apply Z.ltb_lt.
  - apply andb_true_iff in H as [Hp Ht]. apply Z.eqb_eq in Hp.
    right. split; [assumption|]. apply leb_iff. now left.
Qed.

Lemma record_not_ltb_le (a b : HeadingRecord) : record_ltb b a = false -> record_le a b.
Proof.
  unfold record_ltb, record_le. intros H. apply orb_false_iff in H as [Hp Ht].
  apply Z.ltb_ge in Hp.
  destruct (Z.eq_dec (hr_page a) (hr_page b)) as [E|E]; [|left; lia].
  right. split; [assumption|].
  rewrite E, Z.eqb_refl in Ht. simpl in Ht. unfold leb. now rewrite Ht.
Qed.

(** *** Sorting and the removal of duplicates *)

Lemma insert_sorted_In {A : Type} (lt : A -> A -> bool) (a x : A) (l : list A) :
  In x (insert_sorted lt a l) <-> x = a \/ In x l.
Proof.
  induction l as [|b l IH]; simpl.
  - intuition.
  - destruct (lt b a); simpl; rewrite ?IH; intuition.
Qed.

Lemma sort_by_In {A : Type} (lt : A -> A -> bool) (x : A) (l : list A) :
  In x (sort_by lt l) <-> In x l.
Proof.
  induction l as [|a l IH]; simpl; [reflexivity|].
  rewrite insert_sorted_In, IH. intuition.
Qed.

Lemma insert_sorted_sorted (a : HeadingRecord) (l : list HeadingRecord) :
  StronglySorted record_le l -> StronglySorted record_le (insert_sorted record_ltb a l).
Proof.
  induction 1 as [|b l Hs IH Hb]; simpl.
  - constructor; constructor.
  - destruct (record_ltb b a) eqn:E.
    + constructor; [assumption|].
      apply Forall_forall. intros x Hx. apply insert_sorted_In in Hx as [->|Hx].
      * now apply record_ltb_le.
      * rewrite Forall_forall in Hb. now apply Hb.
    + apply record_not_ltb_le in E.
      constructor; [now constructor|].
      constructor; [assumption|].
      eapply Forall_impl; [|exact Hb]. intros x Hx. eapply record_le_trans; eassumption.
Qed.

Lemma sort_by_sorted (l : list HeadingRecord) :
  StronglySorted record_le (sort_by record_ltb l).
Proof.
  induction l as [|a l IH]; simpl; [constructor|]. now apply insert_sorted_sorted.
Qed.

Definition key_of (r : HeadingRecord) : Level * str := (hr_level r, hr_text r).

Lemma same_key_iff (a b : HeadingRecord) : same_key a b = true <-> key_of a = key_of b.
Proof.
  unfold same_key, key_of. rewrite andb_true_iff, eqb_eq. split.
  - intros [Hl ->]. f_equal. destruct (hr_level a), (hr_level b); simpl in Hl; congruence.
  - intros H. injection H as -> ->. split; [now destruct (hr_level b)|reflexivity].
Qed.

Lemma unique_by_key_In (seen l : list HeadingRecord) (x : HeadingRecord) :
  In x (unique_by_key seen l) -> In x l.
Proof.
  revert seen. induction l as [|a l IH]; simpl; intros seen; [tauto|].
  destruct (existsb (same_key a) seen); simpl; intros H.
  - right. eapply IH; eassumption.
  - destruct H as [H|H]; [now left|right; eapply IH; eassumption].
Qed.

Lemma unique_by_key_fresh (seen l : list HeadingRecord) (x s : HeadingRecord) :
  In x (unique_by_key seen l) -> In s seen -> key_of x <> key_of s.
Proof.
  revert seen. induction l as [|a l IH]; simpl; intros seen; [tauto|].
  destruct (existsb (same_key a) seen) eqn:E; simpl; intros Hx Hs.
  - eapply IH; eassumption.
  - destruct Hx as [->|Hx].
    + intros K. apply same_key_iff in K.
      assert (existsb (same_key x) seen = true) by (apply existsb_exists; eauto).
      congruence.
    + eapply IH; [eassumption|now right].
Qed.

Lemma unique_by_key_NoDup (seen l : list HeadingRecord) :
  NoDup (map key_of (unique_by_key seen l)).
Proof.
  revert seen. induction l as [|a l IH]; simpl; intros seen; [constructor|].
  destruct (existsb (same_key a) seen); simpl; [apply IH|].
  constructor; [|apply IH].
  intros Hin. apply in_map_iff in Hin as [x [Hk Hx]].
  eapply unique_by_key_fresh; [exact Hx|left; reflexivity|exact Hk].
Qed.

Lemma unique_by_key_sorted (seen l : list HeadingRecord) :
  StronglySorted record_le l -> StronglySorted record_le (unique_by_key seen l).
Proof.
  intros Hs. revert seen. induction Hs as [|a l Hs IH Ha]; simpl; intros seen;
    [constructor|].
  destruct (existsb (same_key a) seen); [apply IH|].
  constructor; [apply IH|].
  apply Forall_forall. intros x Hx. apply unique_by_key_In in Hx.
  rewrite Forall_forall in Ha. now apply Ha.
Qed.

Lemma unique_outline_of_In (outline : list HeadingRecord) (x : HeadingRecord) :
  In x (unique_outline_of outline) -> In x outline.
Proof.
  unfold unique_outline_of. intros H. apply unique_by_key_In in H.
  now apply sort_by_In in H.
Qed.

Section Properties.

Context {U : Unicode} {N : Numbers}.



(** *** Where a record of the outline comes from *)

(** The lists of lines of the text blocks of a page. *)
Definition page_line_lists (pg : Page) : list (list Line) :=
  flat_map (fun b => match bk_lines b with Some ls => [ls] | None => [] end) (pg_blocks pg).

(** A line as the loops of [extract_outline] reach it: the page and its
    number from 0, the lines of the block, the index of the line in the
    block, and what the turn of the loop computes of it, the text, the
    spans and the index the loop goes on with. *)
Record Origin := {
  og_page_num : nat;
  og_page : Page;
  og_lines : list Line;
  og_index : nat;
  og_line : Line;
  og_text : str;
  og_spans : list Span;
  og_next : nat
}.

(** The line is a line of a block of the page, with the text and the
    spans that the loop computes there. *)
Definition in_block (o : Origin) : Prop :=
  In (og_lines o) (page_line_lists (og_page o))
  /\ nth_error (og_lines o) (og_index o) = Some (og_line o)
  /\ merged_line (og_lines o) (og_index o) (og_line o) = (og_text o, og_spans o, og_next o).

(** The record is the one the loop appends for the line. *)
Definition made_from (r : HeadingRecord) (o : Origin) : Prop :=
  hr_text r = clean_extracted_text (og_text o) true
  /\ hr_page r = Z.of_nat (og_page_num o) + 1.

(** The line passed every test of the loop and has the level [lv]:
    [processed] holds the texts accepted before it, [detected] the
    diagnostics at that time. *)
Definition passed (pdf_title : str) (avg_font_size : num) (page_tables : list Rect)
  (lv : Level) (o : Origin) : Prop :=
  exists (processed : list str) (detected detected' : list DetectedList),
    passes_filters pdf_title (og_page_num o) (og_page o) page_tables (og_line o)
      (og_text o) (og_spans o) processed = true
    /\ (is_on_toc_page (str_lower (pg_text (og_page o))) = true ->
        allowed_on_toc_page (str_lower (pg_text (og_page o))) (og_text o) (og_spans o)
        = true)
    /\ heading_level_of (og_text o) (og_spans o) avg_font_size = Some lv
    /\ is_likely_list_item (og_text o) (og_lines o) (og_next o) detected
       = Some (false, detected')
    /\ (og_page_num o = 0%nat ->
        existsb is_bold (og_spans o) = true
        \/ fleb (lit 16) (max_font_size (og_spans o)) = false).

(** The record was appended for a line of [lines] on the page [pg] of
    number [page_num]. *)
Definition line_origin (pdf_title : str) (avg_font_size : num) (page_num : nat) (pg : Page)
  (page_tables : list Rect) (lines : list Line) (r : HeadingRecord) : Prop :=
  exists o : Origin,
    og_page_num o = page_num /\ og_page o = pg /\ og_lines o = lines
    /\ nth_error lines (og_index o) = Some (og_line o)
    /\ merged_line lines (og_index o) (og_line o) = (og_text o, og_spans o, og_next o)
    /\ made_from r o
    /\ passed pdf_title avg_font_size page_tables (hr_level r) o.

Lemma process_line_origin pdf_title avg page_num pg page_tables lines i line line_text
  line_spans next st r :
  nth_error lines i = Some line ->
  merged_line lines i line = (line_text, line_spans, next) ->
  In r (st_outline
          (process_line pdf_title avg page_num pg page_tables lines next line
             line_text line_spans st)) ->
  In r (st_outline st) \/ line_origin pdf_title avg page_num pg page_tables lines r.
Proof.
  intros Hnth Em Hin.
  unfold process_line in Hin.
  destruct (st_raised st); [now left|].
  destruct (passes_filters _ _ _ _ _ _ _ _) eqn:Hp; simpl in Hin; [|now left].
  destruct (is_on_toc_page _ && _) eqn:Htoc; [now left|].
  destruct (heading_level_of _ _ _) as [lv|] eqn:Hlv; [|now left].
  destruct (is_likely_list_item _ _ _ _) as [[[|] detected]|] eqn:Hl;
    simpl in Hin; try (now left).
  destruct (_ && _ && _) eqn:Hone; simpl in Hin; [now left|].
  apply in_app_or in Hin as [Hin|[<-|[]]]; [now left|]. right.
  exists {| og_page_num := page_num; og_page := pg; og_lines := lines; og_index := i;
            og_line := line; og_text := line_text; og_spans := line_spans;
            og_next := next |}.
  cbn [og_page_num og_page og_lines og_index og_line og_text og_spans og_next].
  repeat split; try assumption; try reflexivity.
  exists (st_processed st), (st_detected st), detected.
  cbn [og_page_num og_page og_lines og_index og_line og_text og_spans og_next hr_level].
  repeat split; try assumption.
  - intros Ht. rewrite Ht in Htoc. simpl in Htoc. now apply negb_false_iff in Htoc.
  - intros ->. simpl in Hone.
    destruct (existsb is_bold line_spans); [now left|]. right. exact Hone.
Qed.

Lemma lines_loop_origin fuel pdf_title avg page_num pg page_tables lines i st r :
  In r (st_outline (lines_loop fuel pdf_title avg page_num pg page_tables lines i st)) ->
  In r (st_outline st) \/ line_origin pdf_title avg page_num pg page_tables lines r.
Proof.
  revert i st. induction fuel as [|fuel IH]; cbn [lines_loop]; intros i st Hin;
    [now left|].
  destruct (nth_error lines i) as [line|] eqn:Hnth; [|now left].
  destruct (merged_line lines i line) as [[line_text line_spans] next] eqn:Em.
  apply IH in Hin as [Hin|Hin]; [|now right].
  eapply process_line_origin; eassumption.
Qed.

Lemma page_loop_origin pdf_title avg tables page_num pg st r :
  In r (st_outline (page_loop pdf_title avg tables page_num pg st)) ->
  In r (st_outline st)
  \/ exists lines,
       In lines (page_line_lists pg)
       /\ line_origin pdf_title avg page_num pg
            (tables_of_page tables (Z.of_nat page_num + 1)) lines r.
Proof.
  unfold page_loop, page_line_lists. generalize (pg_blocks pg). intros blocks. revert st.
  induction blocks as [|b blocks IH]; simpl; intros st Hin; [now left|].
  apply IH in Hin as [Hin|[lines [Hl Ho]]].
  - destruct (bk_lines b) as [lines|]; [|now left].
    apply lines_loop_origin in Hin as [Hin|Hin]; [now left|].
    right. exists lines. split; [now left|assumption].
  - right. exists lines. split; [|assumption].
    apply in_or_app. now right.
Qed.

(** The record comes from a line of a page of the document. *)
Definition page_origin (pdf_title : str) (avg_font_size : num) (tables : list (Z * Rect))
  (pages : list (option Page)) (r : HeadingRecord) : Prop :=
  exists o : Origin,
    nth_error pages (og_page_num o) = Some (Some (og_page o))
    /\ in_block o
    /\ made_from r o
    /\ passed pdf_title avg_font_size (tables_of_page tables (hr_page r)) (hr_level r) o.

Lemma pages_loop_origin pdf_title avg tables done pages st st' detected r :
  pages_loop pdf_title avg tables (List.length done) pages st = (Some st', detected) ->
  In r (st_outline st') ->
  In r (st_outline st) \/ page_origin pdf_title avg tables (done ++ pages) r.
Proof.
  revert done st. induction pages as [|[pg|] pages IH]; simpl; intros done st H Hin.
  - destruct (st_raised st); [discriminate|]. injection H as <- _. now left.
  - replace (S (List.length done)) with (List.length (done ++ [Some pg])) in H
      by (rewrite length_app; simpl; lia).
    apply IH in H; [|assumption].
    replace ((done ++ [Some pg]) ++ pages) with (done ++ Some pg :: pages) in H
      by (rewrite <- app_assoc; reflexivity).
    destruct H as [H|H]; [|now right].
    apply page_loop_origin in H as [H|[lines [Hl Ho]]]; [now left|].
    right. destruct Ho as [o [Hn [Hg [Hls [Hnth [Hm [Hmade Hpass]]]]]]].
    exists o. repeat split; try apply Hmade.
    + rewrite Hn, Hg, nth_error_app2 by lia. now rewrite Nat.sub_diag.
    + now rewrite Hls, Hg.
    + now rewrite Hls.
    + now rewrite Hls.
    + destruct Hmade as [_ ->]. now rewrite Hn.
  - discriminate.
Qed.

(** What [extract_outline] reads of a document that decodes: the pages,
    and the first five of them for the title and the average font size. *)
Definition decoded (pdf : Pdf) (pages : list (option Page)) (doc : list Page) : Prop :=
  pdf_pages pdf = Some pages /\ all_decoded (firstn 5 pages) = Some doc.

(** The record [r] of the outline of [pdf] is the one the loop appends
    for the line [o] of a page of [pdf]. *)
Definition comes_from (pdf : Pdf) (r : HeadingRecord) (o : Origin) : Prop :=
  exists pages : list (option Page),
    pdf_pages pdf = Some pages
    /\ nth_error pages (og_page_num o) = Some (Some (og_page o))
    /\ in_block o
    /\ made_from r o.

(** Every record of the outline comes from a line of the document that
    passed the tests of the loop. *)
Lemma outline_origin pdf detected_lists r :
  In r (res_outline (fst (extract_outline pdf detected_lists))) ->
  exists (pages : list (option Page)) (doc : list Page) (o : Origin),
    decoded pdf pages doc
    /\ comes_from pdf r o
    /\ passed (extract_title_from_text pdf doc) (calculate_average_font_size doc)
         (tables_of_page (detect_tables_with_pdfplumber pdf) (hr_page r)) (hr_level r) o.
Proof.
  unfold extract_outline, walk, decoded.
  destruct (pdf_pages pdf) as [pages|] eqn:Ep; [|intros []].
  destruct (all_decoded (firstn 5 pages)) as [doc|] eqn:Ed; [|intros []].
  destruct (pages_loop _ _ _ _ _ _) as [[st|] d] eqn:E; [|intros []].
  cbn [fst res_outline]. intros Hin. apply unique_outline_of_In in Hin.
  apply (@pages_loop_origin _ _ _ [] pages _ _ _ r E) in Hin as [Hin|Hin];
    [contradiction|].
  destruct Hin as [o [Hnth [Hb [Hm Hp]]]].
  exists pages, doc, o. split; [now split|]. split; [|assumption].
  exists pages. repeat split; try assumption; try apply Hb; apply Hm.
Qed.

(** *** The diagnostics of the instance do not reach the result *)

Definition same_outline (a b : LoopState) : Prop :=
  st_outline a = st_outline b /\ st_processed a = st_processed b
  /\ st_raised a = st_raised b.

Lemma is_likely_list_item_fst line_text lines i d1 d2 :
  option_map fst (is_likely_list_item line_text lines i d1)
  = option_map fst (is_likely_list_item line_text lines i d2).
Proof.
  unfold is_likely_list_item.
  destruct (negb _); [reflexivity|].
  destruct (Re.re_match _ _ _); [|reflexivity].
  destruct (int_of _); [|reflexivity].
  destruct (int_of _); [|reflexivity].
  destruct (found_patterns _ _ _); [|reflexivity].
  destruct (2 <=? _); reflexivity.
Qed.

Lemma process_line_same pdf_title avg page_num pg page_tables lines i line line_text
  line_spans a b :
  same_outline a b ->
  same_outline
    (process_line pdf_title avg page_num pg page_tables lines i line line_text line_spans a)
    (process_line pdf_title avg page_num pg page_tables lines i line line_text line_spans b).
Proof.
  intros [Ho [Hp Hr]]. unfold process_line. rewrite Hp, Hr.
  assert (Hab : same_outline a b) by (repeat split; assumption).
  destruct (st_raised b); [exact Hab|].
  destruct (passes_filters _ _ _ _ _ _ _ _); simpl; [|exact Hab].
  destruct (is_on_toc_page _ && _); [exact Hab|].
  destruct (heading_level_of _ _ _) as [lv|]; [|exact Hab].
  pose proof (is_likely_list_item_fst line_text lines i (st_detected a) (st_detected b)) as Hf.
  destruct (is_likely_list_item _ _ _ (st_detected a)) as [[la da]|];
    destruct (is_likely_list_item _ _ _ (st_detected b)) as [[lb db]|];
    simpl in Hf; try discriminate; [|repeat split; simpl; congruence].
  injection Hf as ->.
  destruct lb; [repeat split; simpl; congruence|].
  destruct (_ && _ && _); repeat split; simpl; congruence.
Qed.

Lemma lines_loop_same fuel pdf_title avg page_num pg page_tables lines i a b :
  same_outline a b ->
  same_outline (lines_loop fuel pdf_title avg page_num pg page_tables lines i a)
               (lines_loop fuel pdf_title avg page_num pg page_tables lines i b).
Proof.
  revert i a b. induction fuel as [|fuel IH]; simpl; intros i a b Hab; [assumption|].
  destruct (nth_error lines i) as [line|]; [|assumption].
  destruct (merged_line lines i line) as [[line_text line_spans] next].
  apply IH. now apply process_line_same.
Qed.

Lemma page_loop_same pdf_title avg tables page_num pg a b :
  same_outline a b ->
  same_outline (page_loop pdf_title avg tables page_num pg a)
               (page_loop pdf_title avg tables page_num pg b).
Proof.
  unfold page_loop. generalize (pg_blocks pg). intros blocks. revert a b.
  induction blocks as [|bk blocks IH]; simpl; intros a b Hab; [assumption|].
  apply IH. destruct (bk_lines bk); [now apply lines_loop_same|assumption].
Qed.

Lemma pages_loop_same pdf_title avg tables page_num pages a b :
  same_outline a b ->
  match fst (pages_loop pdf_title avg tables page_num pages a),
        fst (pages_loop pdf_title avg tables page_num pages b) with
  | Some a', Some b' => same_outline a' b'
  | None, None => True
  | _, _ => False
  end.
Proof.
  revert page_num a b. induction pages as [|[pg|] pages IH]; simpl; intros page_num a b Hab.
  - pose proof Hab as [Ho [Hp Hr]]. rewrite Hr.
    destruct (st_raised b); simpl; [exact I|exact Hab].
  - apply IH. now apply page_loop_same.
  - exact I.
Qed.

Lemma extract_outline_result pdf d1 d2 :
  fst (extract_outline pdf d1) = fst (extract_outline pdf d2).
Proof.
  unfold extract_outline, walk.
  destruct (pdf_pages pdf) as [pages|]; [|reflexivity].
  destruct (all_decoded (firstn 5 pages)) as [doc|]; [|reflexivity].
  match goal with
  | |- context [pages_loop ?t ?a ?tb 0%nat pages ?s1] =>
      match goal with
      | |- context [pages_loop t a tb 0%nat pages ?s2] =>
          lazymatch s1 with
          | s2 => fail
          | _ => pose proof (@pages_loop_same t a tb 0%nat pages s1 s2) as H
          end
      end
  end.
  destruct (pages_loop _ _ _ _ _ _) as [[s1|] e1];
    destruct (pages_loop _ _ _ _ _ _) as [[s2|] e2]; simpl in *.
  - destruct H as [Ho _]; [now repeat split|]. now rewrite Ho.
  - destruct H; now repeat split.
  - destruct H; now repeat split.
  - reflexivity.
Qed.

(** The loop goes on behind the line. *)
Lemma merged_line_next (lines : list Line) (i : nat) (line : Line) :
  (i < snd (merged_line lines i line))%nat.
Proof.
  unfold merged_line. destruct (line_start line) as [t0 s0].
  destruct (merge_following _ _ _ _) as [[t1 s1] merged]. simpl. lia.
Qed.

(** The loop over the lines has fuel enough: beyond the number of lines
    left, more fuel changes nothing. *)
Lemma lines_loop_fuel fuel pdf_title avg page_num pg page_tables lines i st :
  (List.length lines - i <= fuel)%nat ->
  lines_loop (S fuel) pdf_title avg page_num pg page_tables lines i st
  = lines_loop fuel pdf_title avg page_num pg page_tables lines i st.
Proof.
  revert i st. induction fuel as [|fuel IH]; intros i st Hf.
  - simpl. destruct (nth_error lines i) eqn:E; [|reflexivity].
    assert (i < List.length lines)%nat by (apply nth_error_Some; congruence). lia.
  - change (lines_loop (S (S fuel)) pdf_title avg page_num pg page_tables lines i st)
      with (match nth_error lines i with
            | None => st
            | Some line =>
                let '(line_text, line_spans, i') := merged_line lines i line in
                lines_loop (S fuel) pdf_title avg page_num pg page_tables lines i'
                  (process_line pdf_title avg page_num pg page_tables lines i' line
                     line_text line_spans st)
            end).
    cbn [lines_loop]. destruct (nth_error lines i) as [line|]; [|reflexivity].
    pose proof (merged_line_next lines i line) as Hn.
    destruct (merged_line lines i line) as [[line_text line_spans] next].
    apply IH. simpl in Hn. lia.
Qed.

(** *** The claims on the outline *)

(** C1.  In the outline of every document no two records have the same
    level and text, and the records are in non-decreasing order of page
    and, on the same page, of text. *)
Theorem outline_unique_and_sorted (pdf : Pdf) (detected_lists : list DetectedList) :
  let outline := res_outline (fst (extract_outline pdf detected_lists)) in
  NoDup (map key_of outline) /\ StronglySorted record_le outline.
Proof.
  unfold extract_outline.
  destruct (walk pdf detected_lists) as [[[pdf_title st]|] detected]; simpl.
  - split.
    + apply unique_by_key_NoDup.
    + apply unique_by_key_sorted, sort_by_sorted.
  - split; constructor.
Qed.



(** What the test that admits a line says of its text. *)
Lemma passes_filters_text pdf_title page_num pg page_tables line line_text line_spans
  processed :
  passes_filters pdf_title page_num pg page_tables line line_text line_spans processed = true ->
  3 < len line_text < 200
  /\ line_text <> pdf_title
  /\ (page_num = 0%nat -> pdf_title <> [] -> is_title_related line_text pdf_title = false).
Proof.
  unfold passes_filters. destruct (ln_bbox line) as [[[line_x ?] ?] ?].
  intros H. repeat (apply andb_true_iff in H as [H ?]).
  repeat split.
  - now apply Z.ltb_lt.
  - now apply Z.ltb_lt.
  - apply eqb_neq. now apply negb_true_iff.
  - intros -> Ht. destruct pdf_title; [congruence|]. now apply negb_true_iff.
Qed.




(** C3.  Every record of the outline comes from a line of the document
    whose text, as the loop has it before it cleans it as a heading and
    gives it its trailing space, has more than 3 and fewer than 200
    characters. *)
Theorem heading_text_length_bounded (pdf : Pdf) (detected_lists : list DetectedList)
  (r : HeadingRecord) :
  In r (res_outline (fst (extract_outline pdf detected_lists))) ->
  exists o : Origin, comes_from pdf r o /\ 3 < len (og_text o) < 200.
Proof.
  intros Hin. apply outline_origin in Hin as [pages [doc [o [Hd [Hfrom Hpass]]]]].
  exists o. split; [assumption|].
  destruct Hpass as [processed [detected [detected' [Hp _]]]].
  now apply passes_filters_text in Hp as [Hlen _].
Qed.

(** C9.  The result of [extract_outline] is a function of the document
    alone: whatever the instance has gathered in [detected_lists], the
    result is the same, so a second run on the same document gives the
    result of the first. *)
Theorem extract_outline_deterministic (pdf : Pdf) (detected_lists : list DetectedList) :
  (forall other : list DetectedList,
     fst (extract_outline pdf other) = fst (extract_outline pdf detected_lists))
  /\ fst (extract_outline pdf (snd (extract_outline pdf detected_lists)))
     = fst (extract_outline pdf detected_lists).
Proof.
  split; [intros other|]; apply extract_outline_result.
Qed.


(** *** Decoding failures *)

(** Opening the document raises, or decoding one of its pages does. *)
Definition decode_fails (pdf : Pdf) : Prop :=
  pdf_pages pdf = None \/ exists pages, pdf_pages pdf = Some pages /\ In None pages.

Lemma pages_loop_fails pdf_title avg tables page_num pages st :
  In None pages -> fst (pages_loop pdf_title avg tables page_num pages st) = None.
Proof.
  revert page_num st. induction pages as [|[pg|] pages IH]; simpl; intros page_num st H.
  - contradiction.
  - destruct H as [H|H]; [discriminate|]. now apply IH.
  - reflexivity.
Qed.

Lemma extract_outline_fails pdf detected_lists :
  decode_fails pdf -> fst (extract_outline pdf detected_lists) = empty_result.
Proof.
  unfold extract_outline, walk. intros [H|[pages [H Hin]]]; rewrite H; [reflexivity|].
  destruct (all_decoded (firstn 5 pages)) as [doc|]; [|reflexivity].
  match goal with
  | |- context [pages_loop ?t ?a ?tb 0%nat pages ?s] =>
      pose proof (@pages_loop_fails t a tb 0%nat pages s Hin) as Hf
  end.
  destruct (pages_loop _ _ _ _ _ _) as [[st|] d]; simpl in Hf; [discriminate|reflexivity].
Qed.

Lemma process_files_app write_ok output_path l1 l2 written detected_lists :
  process_files write_ok output_path (l1 ++ l2) written detected_lists
  = let '(written1, detected1) :=
        process_files write_ok output_path l1 written detected_lists in
    process_files write_ok output_path l2 written1 detected1.
Proof.
  revert written detected_lists. induction l1 as [|f l1 IH]; simpl; intros written d.
  - reflexivity.
  - destruct (extract_outline (pf_pdf f) d) as [result detected]. apply IH.
Qed.

Lemma process_files_written write_ok output_path l written detected_lists :
  fst (process_files write_ok output_path l written detected_lists)
  = fst (process_files write_ok output_path l [] detected_lists) ++ written.
Proof.
  revert written detected_lists. induction l as [|f l IH]; simpl; intros written d.
  - reflexivity.
  - destruct (extract_outline (pf_pdf f) d) as [result detected].
    rewrite IH. rewrite (IH (if write_ok _ then _ else [])).
    destruct (write_ok _); simpl; rewrite <- ?app_assoc; reflexivity.
Qed.

Lemma process_files_result write_ok output_path l written d1 d2 :
  fst (process_files write_ok output_path l written d1)
  = fst (process_files write_ok output_path l written d2).
Proof.
  revert written d1 d2. induction l as [|f l IH]; simpl; intros written d1 d2.
  - reflexivity.
  - pose proof (extract_outline_result (pf_pdf f) d1 d2) as Hr.
    destruct (extract_outline (pf_pdf f) d1) as [r1 e1].
    destruct (extract_outline (pf_pdf f) d2) as [r2 e2].
    simpl in Hr. subst r2. apply IH.
Qed.

(** C8.  When decoding a document fails, [extract_outline] returns the
    result with the empty title and the empty outline, and
    [process_directory] goes on: the files before and after the failing
    one get the results they get in a batch without it. *)
Theorem decode_failure_is_local (write_ok : str -> bool) (output_path : OutputPath)
  (before after : list PdfFile) (bad : PdfFile) (detected_lists : list DetectedList) :
  decode_fails (pf_pdf bad) ->
  fst (extract_outline (pf_pdf bad) detected_lists)
  = {| res_title := []; res_outline := [] |}
  /\ fst (process_directory write_ok output_path (before ++ bad :: after) detected_lists)
     = fst (process_directory write_ok output_path after detected_lists)
       ++ (if write_ok (output_file_of output_path bad)
           then [(output_file_of output_path bad, {| res_title := []; res_outline := [] |})]
           else [])
       ++ fst (process_directory write_ok output_path before detected_lists).
Proof.
  intros Hbad. split; [now apply extract_outline_fails|].
  unfold process_directory. rewrite process_files_app.
  destruct (process_files write_ok output_path before [] detected_lists)
    as [written1 detected1] eqn:E1.
  simpl.
  pose proof (extract_outline_fails detected1 Hbad) as Hr.
  destruct (extract_outline (pf_pdf bad) detected1) as [result detected2].
  simpl in Hr. subst result.
  rewrite process_files_written.
  rewrite (process_files_result write_ok output_path after [] detected2 detected_lists).
  destruct (write_ok _); reflexivity.
Qed.

(** *** The levels by formatting *)

Lemma Qleb_iff (a b : Q) : Qleb a b = true <-> (a <= b)%Q.
Proof. apply Qle_bool_iff. Qed.

Lemma Qltb_iff (a b : Q) : Qltb a b = true <-> (a < b)%Q.
Proof.
  unfold Qltb. rewrite negb_true_iff. split.
  - intros H. apply Qnot_le_lt. intros Hle. apply Qle_bool_iff in Hle. congruence.
  - intros H. destruct (Qle_bool b a) eqn:E; [|reflexivity].
    apply Qle_bool_iff in E. exfalso. eapply Qlt_not_le; eassumption.
Qed.

(** The ratio of the claim: the size of the span over the average, and 1
    when the average is not positive. *)
Definition size_ratio (span : Span) (avg_font_size : num) : num :=
  if fltb (lit 0) avg_font_size then fdiv (sp_size span) avg_font_size else lit 1.

(** C6.  The level by formatting is H1 when the ratio is at least 1.4, or
    at least 1.2 for a bold span; otherwise H2 when the ratio is at least
    1.2, or at least 1 for a bold span; otherwise H3 for a bold span with
    a ratio of at least 0.8; otherwise none.  The ratio is the quotient
    that the arithmetic of the interpreter gives, and it is at least [q]
    when the comparison [ratio >= q] of the interpreter holds. *)
Theorem formatting_levels (span : Span) (avg_font_size : num) :
  let ratio := size_ratio span avg_font_size in
  let at_least (q : Q) := fleb (lit q) ratio = true in
  let bold := is_bold span = true in
  let h1 := at_least (14 # 10) \/ (bold /\ at_least (12 # 10)) in
  let h2 := at_least (120 # 100) \/ (bold /\ at_least 1%Q) in
  let h3 := bold /\ at_least (8 # 10) in
  (is_heading_by_formatting span avg_font_size = Some H1 <-> h1)
  /\ (is_heading_by_formatting span avg_font_size = Some H2 <-> ~ h1 /\ h2)
  /\ (is_heading_by_formatting span avg_font_size = Some H3 <-> ~ h1 /\ ~ h2 /\ h3)
  /\ (is_heading_by_formatting span avg_font_size = None <-> ~ h1 /\ ~ h2 /\ ~ h3).
Proof.
  intros ratio at_least bold h1 h2 h3. unfold is_heading_by_formatting.
  fold (size_ratio span avg_font_size). fold ratio.
  assert (R1 : fleb (lit (14 # 10)) ratio || is_bold span && fleb (lit (12 # 10)) ratio
               = true <-> h1).
  { unfold h1, bold, at_least. rewrite orb_true_iff, andb_true_iff. tauto. }
  assert (R2 : fleb (lit (120 # 100)) ratio || is_bold span && fleb (lit 1) ratio = true
               <-> h2).
  { unfold h2, bold, at_least. rewrite orb_true_iff, andb_true_iff. tauto. }
  assert (R3 : is_bold span && fleb (lit (8 # 10)) ratio = true <-> h3).
  { unfold h3, bold, at_least. rewrite andb_true_iff. tauto. }
  destruct (fleb (lit (14 # 10)) ratio || is_bold span && fleb (lit (12 # 10)) ratio).
  { assert (h1) by now apply R1. intuition congruence. }
  assert (~ h1) by (intros K; apply R1 in K; discriminate).
  destruct (fleb (lit (120 # 100)) ratio || is_bold span && fleb (lit 1) ratio).
  { assert (h2) by now apply R2. intuition congruence. }
  assert (~ h2) by (intros K; apply R2 in K; discriminate).
  destruct (is_bold span && fleb (lit (8 # 10)) ratio).
  { assert (h3) by now apply R3. intuition congruence. }
  assert (~ h3) by (intros K; apply R3 in K; discriminate).
  intuition congruence.
Qed.


(** *** The average font size *)








(** *** The language of a text *)

Lemma in_range_spec (lo hi c : Z) : reflect (lo <= c <= hi) (in_range lo hi c).
Proof.
  unfold in_range. destruct (lo <=? c) eqn:E1; destruct (c <=? hi) eqn:E2; simpl;
    constructor; rewrite ?Z.leb_le, ?Z.leb_gt in *; lia.
Qed.

Ltac ranges :=
  unfold script_of, is_kana, is_hangul in *;
  repeat (match goal with
          | |- context [in_range ?a ?b ?c] => destruct (in_range_spec a b c)
          | H : context [in_range ?a ?b ?c] |- _ => destruct (in_range_spec a b c)
          end; simpl in *; try lia; try congruence).

Lemma kana_is_cjk (c : Z) : is_kana c = true -> script_of c = Some cjk.
Proof. intros H. ranges. Qed.

Lemma arabic_is_arabic (c : Z) : in_range 0x0600 0x06FF c = true -> script_of c = Some arabic.
Proof. intros H. ranges. Qed.

Lemma hangul_no_script (c : Z) : is_hangul c = true -> script_of c = None.
Proof. intros H. ranges. Qed.

Lemma ascii_script (c : Z) : 0 <= c < 128 -> script_of c = Some latin \/ script_of c = None.
Proof. intros H. ranges; auto. Qed.

Lemma script_count_nonneg (text : str) (sc : script) : 0 <= script_count text sc.
Proof. unfold script_count. lia. Qed.

Lemma script_count_none (text : str) (sc : script) :
  Forall (fun c => script_of c <> Some sc) text -> script_count text sc = 0.
Proof.
  unfold script_count. induction 1 as [|c text Hc _ IH]; simpl; [reflexivity|].
  destruct (script_of c) as [sc'|]; [|exact IH].
  destruct (script_eqb sc sc') eqn:E; [|exact IH].
  exfalso. apply Hc. f_equal. destruct sc, sc'; simpl in E; congruence.
Qed.

Lemma script_count_all (text : str) (sc : script) :
  Forall (fun c => script_of c = Some sc) text -> script_count text sc = len text.
Proof.
  unfold script_count, len. induction 1 as [|c text Hc _ IH]; simpl; [reflexivity|].
  rewrite Hc. assert (script_eqb sc sc = true) as -> by now destruct sc.
  simpl List.length. lia.
Qed.

(** The script with the most characters wins, and of two with as many the
    one that the dictionary lists first. *)
Lemma max_script_cjk (text : str) :
  script_count text latin < script_count text cjk ->
  script_count text arabic <= script_count text cjk ->
  script_count text cyrillic <= script_count text cjk ->
  max_script text = cjk.
Proof.
  intros Hl Ha Hc. unfold max_script, max_by. simpl.
  destruct (Z.ltb_spec (script_count text latin) (script_count text cjk)); [|lia].
  destruct (Z.ltb_spec (script_count text cjk) (script_count text arabic)); [lia|].
  destruct (Z.ltb_spec (script_count text cjk) (script_count text cyrillic)); [lia|].
  reflexivity.
Qed.

Lemma max_script_arabic (text : str) :
  script_count text latin < script_count text arabic ->
  script_count text cjk < script_count text arabic ->
  script_count text cyrillic <= script_count text arabic ->
  max_script text = arabic.
Proof.
  intros Hl Hc Hy. unfold max_script, max_by. simpl.
  destruct (Z.ltb_spec (script_count text latin) (script_count text cjk));
    destruct (Z.ltb_spec (script_count text cjk) (script_count text arabic));
    destruct (Z.ltb_spec (script_count text latin) (script_count text arabic));
    destruct (Z.ltb_spec (script_count text arabic) (script_count text cyrillic));
    try lia; reflexivity.
Qed.

Lemma max_script_latin_most (text : str) :
  script_count text cjk <= script_count text latin ->
  script_count text arabic <= script_count text latin ->
  script_count text cyrillic <= script_count text latin ->
  max_script text = latin.
Proof.
  intros Hc Ha Hy. unfold max_script, max_by. simpl.
  destruct (Z.ltb_spec (script_count text latin) (script_count text cjk)); [lia|].
  destruct (Z.ltb_spec (script_count text latin) (script_count text arabic)); [lia|].
  destruct (Z.ltb_spec (script_count text latin) (script_count text cyrillic)); [lia|].
  reflexivity.
Qed.

Lemma max_script_latin (text : str) :
  script_count text cjk = 0 -> script_count text arabic = 0 ->
  script_count text cyrillic = 0 -> max_script text = latin.
Proof.
  intros Hc Ha Hy. pose proof (script_count_nonneg text latin).
  apply max_script_latin_most; lia.
Qed.

Lemma len_pos (text : str) : text <> [] -> 0 < len text.
Proof. destruct text; [congruence|]. unfold len. simpl List.length. lia. Qed.

Lemma Forall_forallb {A : Type} (f : A -> bool) (l : list A) :
  forallb f l = true -> Forall (fun x => f x = true) l.
Proof. intros H. apply Forall_forall. now apply forallb_forall. Qed.

Lemma detect_language_ja (text : str) :
  existsb is_kana text = true ->
  script_count text latin < script_count text cjk ->
  script_count text arabic <= script_count text cjk ->
  script_count text cyrillic <= script_count text cjk ->
  detect_language text = ja.
Proof.
  intros Hk Hl Ha Hc. unfold detect_language.
  destruct text as [|c text]; [discriminate|].
  rewrite (max_script_cjk _ Hl Ha Hc). now rewrite Hk.
Qed.

Lemma detect_language_kana_only (text : str) :
  text <> [] -> forallb is_kana text = true -> detect_language text = ja.
Proof.
  intros Hne Hall. apply Forall_forallb in Hall.
  assert (Hcjk : script_count text cjk = len text).
  { apply script_count_all. eapply Forall_impl; [|exact Hall]. apply kana_is_cjk. }
  assert (Hother : forall sc, sc <> cjk -> script_count text sc = 0).
  { intros sc Hsc. apply script_count_none. eapply Forall_impl; [|exact Hall].
    intros c Hc. rewrite (kana_is_cjk _ Hc). congruence. }
  pose proof (len_pos Hne).
  apply detect_language_ja.
  - destruct text as [|c text]; [congruence|]. simpl.
    inversion Hall as [|? ? Hc _]; subst. now rewrite Hc.
  - rewrite Hcjk, Hother; [lia|discriminate].
  - rewrite Hcjk, Hother; [lia|discriminate].
  - rewrite Hcjk, Hother; [lia|discriminate].
Qed.

Lemma detect_language_arabic_only (text : str) :
  text <> [] -> forallb (in_range 0x0600 0x06FF) text = true -> detect_language text = ar.
Proof.
  intros Hne Hall. apply Forall_forallb in Hall.
  assert (Har : script_count text arabic = len text).
  { apply script_count_all. eapply Forall_impl; [|exact Hall]. apply arabic_is_arabic. }
  assert (Hother : forall sc, sc <> arabic -> script_count text sc = 0).
  { intros sc Hsc. apply script_count_none. eapply Forall_impl; [|exact Hall].
    intros c Hc. rewrite (arabic_is_arabic _ Hc). congruence. }
  pose proof (len_pos Hne).
  unfold detect_language. destruct text as [|c text]; [congruence|].
  rewrite max_script_arabic; [reflexivity| | |];
    rewrite Har, Hother; try lia; discriminate.
Qed.

Lemma filter_length_pos {A : Type} (f : A -> bool) (x : A) (l : list A) :
  In x l -> f x = true -> (0 < List.length (filter f l))%nat.
Proof.
  intros Hin Hf. assert (H : In x (filter f l)) by (apply filter_In; now split).
  destruct (filter f l); [contradiction|simpl; lia].
Qed.

Lemma detect_language_latin_keyword (text : str) :
  script_count text cjk <= script_count text latin ->
  script_count text arabic <= script_count text latin ->
  script_count text cyrillic <= script_count text latin ->
  contains (utf8 "introduction") (str_lower text) = true ->
  detect_language text = en.
Proof.
  intros Hc Ha Hy Hin. unfold detect_language.
  destruct text as [|c text]; [reflexivity|].
  rewrite (max_script_latin_most _ Hc Ha Hy).
  assert (Hm : (0 <? keyword_matches en (str_lower (c :: text))) = true).
  { apply Z.ltb_lt. unfold keyword_matches.
    assert (0 < List.length (filter (fun keyword =>
              contains keyword (str_lower (c :: text)))
              (concat (keyword_values (heading_keywords en)))))%nat; [|lia].
    apply filter_length_pos with (x := utf8 "introduction"); [|exact Hin].
    vm_compute. tauto. }
  unfold languages, find. simpl is_latin_lang. now rewrite Hm.
Qed.

Lemma detect_language_introduction (L : UnicodeLaws U) (text : str) :
  is_ascii text ->
  contains (utf8 "introduction") (map Basic.ascii_lower text) = true ->
  detect_language text = en.
Proof.
  intros Hascii Hin.
  assert (Hnone : forall sc, sc <> latin -> script_count text sc = 0).
  { intros sc Hsc. apply script_count_none. eapply Forall_impl; [|exact Hascii].
    intros x Hx. destruct (ascii_script Hx) as [E|E]; rewrite E; congruence. }
  pose proof (script_count_nonneg text latin).
  apply detect_language_latin_keyword;
    try (rewrite Hnone; [assumption|discriminate]).
  now rewrite (lower_ascii Hascii).
Qed.

(** The branch that answers [ko] is not taken on Hangul alone: the counting
    loop leaves Hangul out of every script. *)
Lemma detect_language_hangul_only (text : str) :
  forallb is_hangul text = true -> detect_language text <> ko.
Proof.
  intros Hall. apply Forall_forallb in Hall.
  assert (Hnone : forall sc, script_count text sc = 0).
  { intros sc. apply script_count_none. eapply Forall_impl; [|exact Hall].
    intros c Hc. rewrite (hangul_no_script _ Hc). congruence. }
  unfold detect_language. destruct text as [|c text]; [discriminate|].
  rewrite max_script_latin by apply Hnone.
  destruct (find _ languages) as [l|] eqn:E; [|discriminate].
  apply find_some in E as [_ E]. apply andb_true_iff in E as [E _].
  destruct l; simpl in E; congruence.
Qed.

(** C4, amended.  [detect_language] answers [ja] for a text with a
    Hiragana or Katakana character in which the CJK and kana characters
    outnumber the Basic Latin letters and are no fewer than the Arabic and
    than the Cyrillic ones, so for every text of kana alone; [ar] for every
    text of Arabic characters alone; and [en] for a text in which no script
    has more characters than Basic Latin and whose lower-case form holds
    the word introduction, so for a text of Basic Latin that holds the
    word in any case of its letters. *)
Theorem detect_language_by_majority (L : UnicodeLaws U) :
  (forall text : str,
     existsb is_kana text = true ->
     script_count text latin < script_count text cjk ->
     script_count text arabic <= script_count text cjk ->
     script_count text cyrillic <= script_count text cjk ->
     detect_language text = ja)
  /\ (forall text : str,
        text <> [] -> forallb is_kana text = true -> detect_language text = ja)
  /\ (forall text : str,
        text <> [] -> forallb (in_range 0x0600 0x06FF) text = true ->
        detect_language text = ar)
  /\ (forall text : str,
        script_count text cjk <= script_count text latin ->
        script_count text arabic <= script_count text latin ->
        script_count text cyrillic <= script_count text latin ->
        contains (utf8 "introduction") (str_lower text) = true ->
        detect_language text = en)
  /\ (forall text : str,
        is_ascii text ->
        contains (utf8 "introduction") (map Basic.ascii_lower text) = true ->
        detect_language text = en).
Proof.
  split; [|split; [|split; [|split]]].
  - apply detect_language_ja.
  - apply detect_language_kana_only.
  - apply detect_language_arabic_only.
  - apply detect_language_latin_keyword.
  - apply detect_language_introduction. exact L.
Qed.


(** *** Groups do not change whether a pattern matches *)

Fixpoint erase (r : Re.regex) : Re.regex :=
  match r with
  | Re.RSeq a b => Re.RSeq (erase a) (erase b)
  | Re.RAlt a b => Re.RAlt (erase a) (erase b)
  | Re.RRep a lo hi => Re.RRep (erase a) lo hi
  | Re.RGroup _ a => erase a
  | _ => r
  end.

Definition succeeds (x : Re.mres) : bool :=
  match x with Some _ => true | None => false end.

Lemma m_erase (ic : bool) (r : Re.regex) :
  forall (st : Re.mstate) (cs cs' : Re.caps) (k k' : Re.mstate -> Re.caps -> Re.mres),
    (forall st cs cs', succeeds (k st cs) = succeeds (k' st cs')) ->
    succeeds (Re.m ic r st cs k) = succeeds (Re.m ic (erase r) st cs' k').
Proof.
  induction r as [|neg items| |a IHa b IHb|a IHa b IHb|a IHa lo hi|n a IHa| | |];
    intros st cs cs' k k' Hk; simpl.
  - apply Hk.
  - destruct (Re.m_rest st) as [|c t]; [reflexivity|].
    destruct (Re.set_ok ic neg items c); [apply Hk|reflexivity].
  - destruct (Re.m_rest st) as [|c t]; [reflexivity|].
    destruct (c =? 10); [reflexivity|apply Hk].
  - apply IHa. intros st1 cs1 cs1'. now apply IHb.
  - pose proof (IHa st cs cs' k k' Hk) as Ha. pose proof (IHb st cs cs' k k' Hk) as Hb.
    destruct (Re.m ic a st cs k); destruct (Re.m ic (erase a) st cs' k');
      simpl in Ha; try discriminate; [reflexivity|exact Hb].
  - generalize (lo + List.length (Re.m_rest st) + 1)%nat as fuel.
    generalize 0%nat as i. intros i fuel. revert i st cs cs'.
    induction fuel as [|fuel IHf]; intros i st cs cs'; [reflexivity|].
    destruct (i <? lo)%nat.
    + apply IHa. intros st1 cs1 cs1'. apply IHf.
    + destruct (Re.at_most hi i); [apply Hk|].
      match goal with
      | |- succeeds (match ?x with _ => _ end) = succeeds (match ?y with _ => _ end) =>
          assert (Hxy : succeeds x = succeeds y)
      end.
      { apply IHa. intros st1 cs1 cs1'.
        destruct (Re.m_pos st <? Re.m_pos st1)%nat; [apply IHf|reflexivity]. }
      match goal with
      | |- succeeds (match ?x with _ => _ end) = succeeds (match ?y with _ => _ end) =>
          destruct x; destruct y; simpl in Hxy; try discriminate;
            [reflexivity|apply Hk]
      end.
  - apply IHa. intros st1 cs1 cs1'. apply Hk.
  - destruct (Re.m_pos st =? 0)%nat; [apply Hk|reflexivity].
  - destruct (Re.m_rest st) as [|c [|d t]]; [apply Hk| |reflexivity].
    destruct (c =? 10); [apply Hk|reflexivity].
  - destruct (xorb _ _); [apply Hk|reflexivity].
Qed.

(** A text matches the pattern with the two groups when it matches the
    pattern without them. *)
Lemma subsection_match (text : str) :
  Re.matches false (utf8 "^\d+\.\d+\s+") text = true ->
  exists mo, Re.re_match false subsection_pattern text = Some mo.
Proof.
  unfold Re.matches, Re.re_match, Re.match_at. intros H.
  assert (E : erase (Re.compile subsection_pattern) = Re.compile (utf8 "^\d+\.\d+\s+"))
    by (vm_compute; reflexivity).
  pose proof (m_erase false (Re.compile subsection_pattern)
                {| Re.m_prev := None; Re.m_pos := 0; Re.m_rest := text |} [] []
                (fun st' cs => Some (Re.m_pos st', cs))
                (fun st' cs => Some (Re.m_pos st', cs))
                (fun _ _ _ => eq_refl)) as He.
  rewrite E in He.
  destruct (Re.m false (Re.compile (utf8 "^\d+\.\d+\s+")) _ _ _) as [[e' cs']|];
    [|discriminate].
  destruct (Re.m false (Re.compile subsection_pattern) _ _ _) as [[e cs]|];
    [|discriminate].
  eexists. reflexivity.
Qed.


(** *** The list items *)

(** A neighbouring line counts when its text is not empty and starts with
    [<major'>.<minor'>] and white space, [major'] being the number
    [major_num]. *)
Definition same_major (major_num : Z) (check_line : Line) : bool :=
  let check_text := check_text_of check_line in
  match check_text with
  | [] => false
  | _ =>
      match Re.re_match false subsection_pattern check_text with
      | Some check_match =>
          match int_of (Re.group check_text check_match 1) with
          | Some check_major => check_major =? major_num
          | None => false
          end
      | None => false
      end
  end.

(** [int] converts the number of a neighbouring line that has one. *)
Definition number_fits (check_line : Line) : bool :=
  let check_text := check_text_of check_line in
  match check_text with
  | [] => true
  | _ =>
      match Re.re_match false subsection_pattern check_text with
      | Some check_match =>
          match int_of (Re.group check_text check_match 1) with
          | Some _ => true
          | None => false
          end
      | None => true
      end
  end.

(** The ten lines, or fewer, before the index and after it. *)
Definition lines_before (lines : list Line) (current_index : nat) : list Line :=
  skipn (current_index - 10) (firstn current_index lines).

Definition lines_after (lines : list Line) (current_index : nat) : list Line :=
  firstn 10 (skipn (S current_index) lines).

(** The two numbers of a line [<major>.<minor> <text>], when [int]
    converts them. *)
Definition numbers_of (line_text : str) : option (Z * Z) :=
  match Re.re_match false subsection_pattern (strip line_text) with
  | Some mo =>
      match int_of (Re.group (strip line_text) mo 1),
            int_of (Re.group (strip line_text) mo 2) with
      | Some major_num, Some minor_num => Some (major_num, minor_num)
      | _, _ => None
      end
  | None => None
  end.

Lemma gather_fits (major_num : Z) (ls : list Line) :
  forallb number_fits ls = true ->
  exists found,
    gather (check_neighbor major_num) ls = Some found
    /\ List.length found = List.length (filter (same_major major_num) ls).
Proof.
  induction ls as [|l ls IH]; simpl; intros H; [now exists []|].
  apply andb_true_iff in H as [Hl Hls]. destruct (IH Hls) as [rest [Hr Hlen]].
  rewrite Hr. revert Hl. unfold check_neighbor, same_major, number_fits.
  destruct (check_text_of l) as [|c t]; [intros _; exists rest; now split|].
  destruct (Re.re_match false subsection_pattern (c :: t)) as [mo|];
    [|intros _; exists rest; now split].
  destruct (int_of _) as [n|]; [|discriminate]. intros _.
  destruct (n =? major_num); eexists; (split; [reflexivity|]); simpl; now rewrite Hlen.
Qed.

Lemma gather_raises (major_num : Z) (ls : list Line) :
  forallb number_fits ls = false -> gather (check_neighbor major_num) ls = None.
Proof.
  induction ls as [|l ls IH]; simpl; intros H; [discriminate|].
  apply andb_false_iff in H as [Hl|Hls].
  - revert Hl. unfold check_neighbor, number_fits.
    destruct (check_text_of l) as [|c t]; [discriminate|].
    destruct (Re.re_match false subsection_pattern (c :: t)) as [mo|]; [|discriminate].
    destruct (int_of _) as [n|]; [discriminate|reflexivity].
  - rewrite (IH Hls). destruct (check_neighbor major_num l); reflexivity.
Qed.

Lemma skipn_nth_error {A : Type} (l : list A) (n : nat) (x : A) :
  nth_error l n = Some x -> skipn n l = x :: skipn (S n) l.
Proof.
  revert n. induction l as [|a l IH]; intros [|n]; simpl; try discriminate.
  - intros H. now injection H as ->.
  - intros H. now apply IH.
Qed.

Lemma lines_in_range_firstn (lines : list Line) (lo n : nat) :
  flat_map (fun check_i =>
              match nth_error lines check_i with Some l => [l] | None => [] end)
           (seq lo n)
  = firstn n (skipn lo lines).
Proof.
  revert lo. induction n as [|n IH]; intros lo; [reflexivity|].
  cbn [seq flat_map]. rewrite IH. destruct (nth_error lines lo) as [l|] eqn:E.
  - rewrite (skipn_nth_error _ _ E). reflexivity.
  - apply nth_error_None in E.
    rewrite (skipn_all2 lines) by lia. rewrite (skipn_all2 lines) by lia.
    now rewrite firstn_nil.
Qed.

Lemma lines_in_range_before (lines : list Line) (current_index : nat) :
  lines_in_range lines (current_index - 10) current_index
  = lines_before lines current_index.
Proof.
  unfold lines_in_range, lines_before. rewrite lines_in_range_firstn.
  rewrite firstn_skipn_comm. f_equal. f_equal. lia.
Qed.

Lemma lines_in_range_after (lines : list Line) (current_index : nat) :
  lines_in_range lines (current_index + 1)
    (Nat.min (List.length lines) (current_index + 10 + 1))
  = lines_after lines current_index.
Proof.
  unfold lines_in_range, lines_after. rewrite lines_in_range_firstn.
  replace (current_index + 1)%nat with (S current_index) by lia.
  destruct (Nat.le_gt_cases (current_index + 10 + 1) (List.length lines)) as [H|H].
  - f_equal. lia.
  - rewrite Nat.min_l by lia.
    rewrite firstn_all2 by (rewrite length_skipn; lia).
    rewrite firstn_all2 by (rewrite length_skipn; lia).
    reflexivity.
Qed.

(** When [int] converts every number it is given, the function returns,
    and it returns true exactly when two or more of the lines in the
    ranges before and after [current_index] have the major number of the
    text. *)
Lemma is_likely_list_item_spec (line_text : str) (lines : list Line) (current_index : nat)
  (detected_lists : list DetectedList) (major_num minor_num : Z) :
  Re.matches false (utf8 "^\d+\.\d+\s+") (strip line_text) = true ->
  numbers_of line_text = Some (major_num, minor_num) ->
  forallb number_fits (lines_before lines current_index ++ lines_after lines current_index)
  = true ->
  option_map fst (is_likely_list_item line_text lines current_index detected_lists)
  = Some (2 <=? List.length
                  (filter (same_major major_num)
                          (lines_before lines current_index
                           ++ lines_after lines current_index)))%nat.
Proof.
  intros Hm Hn Hfit. unfold is_likely_list_item. unfold numbers_of in Hn.
  rewrite Hm. simpl negb. cbv iota.
  destruct (Re.re_match false subsection_pattern (strip line_text)) as [mo|];
    [|discriminate].
  destruct (int_of (Re.group (strip line_text) mo 1)) as [major|]; [|discriminate].
  destruct (int_of (Re.group (strip line_text) mo 2)) as [minor|]; [|discriminate].
  injection Hn as -> ->.
  unfold found_patterns. rewrite lines_in_range_before, lines_in_range_after.
  rewrite forallb_app in Hfit. apply andb_true_iff in Hfit as [Hb Ha].
  destruct (gather_fits major_num _ Hb) as [before [-> Lb]].
  destruct (gather_fits major_num _ Ha) as [after [-> La]].
  rewrite length_app, Lb, La, filter_app, length_app.
  set (n := (List.length _ + List.length _)%nat).
  destruct (Z.leb_spec 2 (Z.of_nat n)); destruct (Nat.leb_spec 2 n); simpl; try lia;
    reflexivity.
Qed.


(** *** The numbered headings in [should_skip_text] *)

(** The pattern [\.{3,}] is found where three dots in a row are. *)
Lemma dot_set (c : Z) : Re.set_ok false false [Re.CLit 46] c = (c =? 46).
Proof. unfold Re.set_ok. cbn [existsb Re.item_ok xorb]. now rewrite !orb_false_r. Qed.

Lemma startswith_cons (x y : Z) (p s : str) :
  startswith (x :: p) (y :: s) = (y =? x) && startswith p s.
Proof. cbn [startswith]. now rewrite (Z.eqb_sym x y). Qed.

Lemma dot_run_at (prev : option Z) (pos : nat) (rest : str) :
  succeeds (Re.match_at false (Re.RRep (Re.RSet false [Re.CLit 46]) 3 None)
              {| Re.m_prev := prev; Re.m_pos := pos; Re.m_rest := rest |})
  = startswith [46; 46; 46] rest.
Proof.
  unfold Re.match_at.
  destruct rest as [|a rest]; [reflexivity|].
  rewrite startswith_cons. cbn [Re.m Re.m_rest Nat.add Nat.ltb Nat.leb].
  rewrite dot_set. destruct (a =? 46); [|reflexivity].
  destruct rest as [|b rest]; [reflexivity|].
  rewrite startswith_cons.
  cbn [Re.m Re.m_rest Re.advance Nat.add Nat.ltb Nat.leb List.length andb].
  rewrite dot_set. destruct (b =? 46); [|reflexivity].
  destruct rest as [|c rest]; [reflexivity|].
  rewrite startswith_cons.
  cbn [Re.m Re.m_rest Re.advance Nat.add Nat.ltb Nat.leb List.length andb startswith].
  rewrite dot_set. destruct (c =? 46); [|reflexivity].
  cbn [Re.at_most Nat.ltb Nat.leb andb].
  match goal with
  | |- succeeds (match ?x with _ => _ end) = true => destruct x; reflexivity
  end.
Qed.

Lemma dot_run_search_from (prev : option Z) (pos : nat) (text : str) :
  match Re.search_from false (Re.RRep (Re.RSet false [Re.CLit 46]) 3 None) prev pos text
  with Some _ => true | None => false end
  = contains [46; 46; 46] text.
Proof.
  revert prev pos. induction text as [|c text IH]; intros prev pos.
  - reflexivity.
  - cbn [Re.search_from contains].
    rewrite <- (dot_run_at prev pos (c :: text)).
    destruct (Re.match_at _ _ _) as [[e cs]|]; [reflexivity|].
    cbn [succeeds orb]. apply IH.
Qed.

Lemma dot_run_search (text : str) :
  Re.searches false (utf8 "\.{3,}") text = contains (utf8 "...") text.
Proof.
  unfold Re.searches, Re.re_search.
  replace (Re.compile (utf8 "\.{3,}")) with (Re.RRep (Re.RSet false [Re.CLit 46]) 3 None)
    by (vm_compute; reflexivity).
  apply dot_run_search_from.
Qed.

(** The characters of the class of the source for a letter of the main
    text: Latin, CJK, kana, Hangul, Arabic and Cyrillic. *)
Definition is_letter (c : Z) : bool :=
  in_range 65 90 c || in_range 97 122 c
  || in_range 0x4e00 0x9fff c || in_range 0x3040 0x309f c || in_range 0x30a0 0x30ff c
  || in_range 0xac00 0xd7af c || in_range 0x0600 0x06ff c || in_range 0x0400 0x04ff c.

Definition letter_set : list Re.citem :=
  [Re.CRange 65 90; Re.CRange 97 122; Re.CRange 0x4e00 0x9fff;
   Re.CRange 0x3040 0x309f; Re.CRange 0x30a0 0x30ff;
   Re.CRange 0xac00 0xd7af; Re.CRange 0x0600 0x06ff;
   Re.CRange 0x0400 0x04ff].

Lemma letter_set_ok (c : Z) : Re.set_ok false false letter_set c = is_letter c.
Proof.
  unfold Re.set_ok, is_letter, letter_set. cbn [existsb Re.item_ok xorb].
  rewrite !orb_false_r, !orb_assoc. reflexivity.
Qed.

Lemma letter_search_from (prev : option Z) (pos : nat) (text : str) :
  match Re.search_from false (Re.RSet false letter_set) prev pos text
  with Some _ => true | None => false end
  = existsb is_letter text.
Proof.
  revert prev pos. induction text as [|c text IH]; intros prev pos.
  - reflexivity.
  - cbn [Re.search_from existsb]. unfold Re.match_at. cbn [Re.m Re.m_rest].
    rewrite letter_set_ok. destruct (is_letter c); [reflexivity|apply IH].
Qed.

Lemma letter_search (text : str) :
  Re.searches false letter_pattern text = existsb is_letter text.
Proof.
  unfold Re.searches, Re.re_search.
  replace (Re.compile letter_pattern) with (Re.RSet false letter_set)
    by (vm_compute; reflexivity).
  apply letter_search_from.
Qed.

(** The span has text with a letter in it, and it is bold. *)
Definition bold_letter_span (span : Span) : bool :=
  negb (eqb (strip (sp_text span)) [])
  && existsb is_letter (strip (sp_text span)) && is_bold span.

Lemma main_text_bold_spec (spans : list Span) :
  main_text_bold spans = existsb bold_letter_span spans.
Proof.
  unfold main_text_bold. induction spans as [|sp spans IH]; simpl; [reflexivity|].
  rewrite IH. f_equal. unfold bold_letter_span.
  destruct (strip (sp_text sp)) as [|c t] eqn:E; [reflexivity|].
  rewrite letter_search. reflexivity.
Qed.

(** C7, amended.  For a text that starts with a number, a dot, white space
    and a capital Latin letter or a CJK, kana or Hangul character, and that
    the rules on contents rows and on warnings let through: with three dots
    in a row the text is excluded;
    otherwise, with spans given and a bold span with a letter among them
    it is not excluded, with spans given and no such span the address,
    form, web and date patterns decide, and with no spans given it is not
    excluded. *)
Theorem numbered_heading_rule (text : str) (spans : option (list Span)) :
  strip text <> [] ->
  is_toc_row text = false ->
  is_warning_text text = false ->
  Re.matches false numbered_heading_pattern (strip text) = true ->
  (contains (utf8 "...") text = true -> should_skip_text text spans = true)
  /\ (contains (utf8 "...") text = false ->
      (forall line_spans,
         spans = Some line_spans -> line_spans <> [] ->
         existsb bold_letter_span line_spans = true ->
         should_skip_text text spans = false)
      /\ (forall line_spans,
            spans = Some line_spans -> line_spans <> [] ->
            existsb bold_letter_span line_spans = false ->
            should_skip_text text spans = matches_noise_pattern text)
      /\ (spans = None \/ spans = Some [] -> should_skip_text text spans = false)).
Proof.
  intros Hne Htoc Hwarn Hnum. unfold should_skip_text.
  destruct (strip text) as [|c t] eqn:E; [congruence|].
  rewrite Htoc, Hwarn, Hnum, dot_run_search.
  split; [now intros ->|]. intros ->. repeat split.
  - intros line_spans -> Hs Hb. destruct line_spans as [|sp line_spans]; [congruence|].
    cbv beta iota. now rewrite main_text_bold_spec, Hb.
  - intros line_spans -> Hs Hb. destruct line_spans as [|sp line_spans]; [congruence|].
    cbv beta iota. now rewrite main_text_bold_spec, Hb.
  - intros [->| ->]; reflexivity.
Qed.

End Properties.

(** ** The claims at concrete documents *)

Lemma unicode_basic_laws : UnicodeLaws unicode_basic.
Proof.
  constructor. intros s Hs. simpl. apply map_ext_in. intros c Hc.
  unfold is_ascii in Hs. rewrite Forall_forall in Hs. specialize (Hs c Hc).
  unfold Basic.lower1, Basic.ascii_lower.
  repeat (match goal with
          | |- context [in_range ?a ?b ?c] => destruct (in_range_spec a b c)
          end; simpl; try lia; try reflexivity).
Qed.

Lemma is_ascii_forallb (s : str) :
  forallb (fun c => (0 <=? c) && (c <? 128)) s = true -> is_ascii s.
Proof.
  intros H. apply Forall_forall. intros c Hc.
  rewrite forallb_forall in H. specialize (H c Hc).
  apply andb_true_iff in H as [H1 H2]. apply Z.leb_le in H1. apply Z.ltb_lt in H2. lia.
Qed.



Lemma heading_text_length_bounded_witness :
  In annual_report_heading (res_outline (fst (extract_outline annual_report [])))
  /\ exists o : Origin,
       comes_from annual_report annual_report_heading o /\ 3 < len (og_text o) < 200.
Proof.
  assert (H : In annual_report_heading
                (res_outline (fst (extract_outline annual_report []))))
    by (vm_compute; left; reflexivity).
  split; [exact H|].
  exact (@heading_text_length_bounded unicode_basic numbers_exact annual_report []
           annual_report_heading H).
Defined.

(** C4 as stated fails: one Hiragana character among Latin letters does
    not make the text Japanese. *)
Lemma kana_in_latin_text :
  existsb is_kana (utf8 "abあ") = true /\ detect_language (utf8 "abあ") = en.
Proof. vm_compute. split; reflexivity. Qed.

(** A text of Hangul alone is answered [en]. *)
Lemma hangul_text_language : detect_language (utf8 "한국어") = en.
Proof. vm_compute. reflexivity. Qed.

Lemma detect_language_by_majority_witness :
  detect_language (utf8 "漢字かな交じり ok") = ja
  /\ detect_language (utf8 "カタカナ") = ja
  /\ detect_language (utf8 "مرحبا") = ar
  /\ detect_language (utf8 "Une introduction brève") = en
  /\ detect_language (utf8 "An Introduction to PDF") = en.
Proof.
  destruct (@detect_language_by_majority unicode_basic unicode_basic_laws)
    as [Hja [Hkana [Har [Hlatin Hen]]]].
  split; [|split; [|split; [|split]]].
  - apply Hja; vm_compute; congruence.
  - apply Hkana; [discriminate|vm_compute; reflexivity].
  - apply Har; [discriminate|vm_compute; reflexivity].
  - apply Hlatin; vm_compute; congruence.
  - apply Hen.
    + apply is_ascii_forallb. vm_compute. reflexivity.
    + vm_compute. reflexivity.
Defined.

Lemma numbered_heading_rule_witness :
  (contains (utf8 "...") (utf8 "1. Apple") = true ->
   should_skip_text (utf8 "1. Apple") None = true)
  /\ (contains (utf8 "...") (utf8 "1. Apple") = false ->
      (forall line_spans,
         @None (list Span) = Some line_spans -> line_spans <> [] ->
         existsb bold_letter_span line_spans = true ->
         should_skip_text (utf8 "1. Apple") None = false)
      /\ (forall line_spans,
            @None (list Span) = Some line_spans -> line_spans <> [] ->
            existsb bold_letter_span line_spans = false ->
            should_skip_text (utf8 "1. Apple") None
            = matches_noise_pattern (utf8 "1. Apple"))
      /\ (@None (list Span) = None \/ @None (list Span) = Some [] -> should_skip_text (utf8 "1. Apple") None = false)).
Proof.
  apply (@numbered_heading_rule unicode_basic numbers_exact (utf8 "1. Apple") None).
  - vm_compute. discriminate.
  - vm_compute. reflexivity.
  - vm_compute. reflexivity.
  - vm_compute. reflexivity.
Defined.

(** C7 as stated fails for a small letter after the number: the line is
    let through by the rules on contents rows and on warnings, it has no
    run of dots and no spans are given, and it is excluded, as an item of
    a numbered list. *)
Lemma lowercase_numbered_line :
  is_toc_row (utf8 "1. apple") = false
  /\ is_warning_text (utf8 "1. apple") = false
  /\ contains (utf8 "...") (utf8 "1. apple") = false
  /\ should_skip_text (utf8 "1. apple") None = true.
Proof. vm_compute. repeat split; reflexivity. Qed.

Lemma decode_failure_is_local_witness :
  let write_ok := fun _ : str => true in
  let output_path := Directory (utf8 "out") in
  let before := [{| pf_stem := utf8 "report"; pf_pdf := annual_report |}] in
  let after := [{| pf_stem := utf8 "item"; pf_pdf := isolated_item_doc |}] in
  let bad := {| pf_stem := utf8 "broken"; pf_pdf := broken_pdf |} in
  decode_fails (pf_pdf bad)
  /\ (fst (extract_outline (pf_pdf bad) []) = {| res_title := []; res_outline := [] |}
      /\ fst (process_directory write_ok output_path (before ++ bad :: after) [])
         = fst (process_directory write_ok output_path after [])
           ++ (if write_ok (output_file_of output_path bad)
               then [(output_file_of output_path bad,
                      {| res_title := []; res_outline := [] |})]
               else [])
           ++ fst (process_directory write_ok output_path before [])).
Proof.
  intros write_ok output_path before after bad.
  assert (H : decode_fails (pf_pdf bad)) by (left; reflexivity).
  split; [exact H|].
  exact (@decode_failure_is_local unicode_basic numbers_exact write_ok output_path before
           after bad [] H).
Defined.

(** The levels by formatting in double precision: a span of size 11.2 in
    a document of average 8.0 has the ratio 1.4 of the first level. *)
Lemma formatting_level_in_doubles :
  @is_heading_by_formatting binary64 (span_of "Summary" (112 # 10) 0) (lit 8) = Some H1.
Proof. vm_compute. reflexivity. Qed.



Section Averages.

Context {U : Unicode}.


End Averages.


(** *** The list items at the call *)

(** A block of a title and two numbered lines. *)
Definition two_item_lines {N : Numbers} : list Line :=
  [line_of "Sample Document" 24 16 40; line_of "9.1 Alpha" 12 0 200;
   line_of "9.2 Beta" 12 0 300].

Definition two_item_doc {N : Numbers} : Pdf :=
  pdf_of [page_of two_item_lines "Sample Document"].

(** C5, where the code departs from it.  In a block of the two numbered
    lines 9.1 Alpha and 9.2 Beta each line has one neighbour of its major
    number, and [is_likely_list_item] says of neither that it is a list
    item at the index of the line, 1 and 2.  The loop of [extract_outline]
    calls it with the index it has moved on to, 2 and 3: the line itself
    is then among the lines before the index, 9.2 Beta is taken as an item
    of a list and 9.1 Alpha alone is a heading of the outline.  In
    [numbered_list_doc] the three lines of the list are kept out of the
    outline, and in [isolated_item_doc] the line alone is a heading. *)
Theorem list_item_at_call :
  option_map fst (is_likely_list_item (utf8 "9.1 Alpha") two_item_lines 1 []) = Some false
  /\ option_map fst (is_likely_list_item (utf8 "9.2 Beta") two_item_lines 2 []) = Some false
  /\ option_map fst (is_likely_list_item (utf8 "9.1 Alpha") two_item_lines 2 []) = Some false
  /\ option_map fst (is_likely_list_item (utf8 "9.2 Beta") two_item_lines 3 []) = Some true
  /\ res_outline (fst (extract_outline two_item_doc []))
     = [{| hr_level := H2; hr_text := utf8 "9.1 Alpha "; hr_page := 1 |}]
  /\ res_outline (fst (extract_outline (@two_item_doc binary64) []))
     = [{| hr_level := H2; hr_text := utf8 "9.1 Alpha "; hr_page := 1 |}]
  /\ res_outline (fst (extract_outline numbered_list_doc [])) = []
  /\ res_outline (fst (extract_outline isolated_item_doc []))
     = [{| hr_level := H2; hr_text := utf8 "9.1 Alpha "; hr_page := 1 |}].
Proof. vm_compute. repeat split; reflexivity. Qed.


(** ** Further properties of the extractor *)

Section OutlineFacts.

Context {U : Unicode} {N : Numbers}.

(** What the test that admits a line says of the line and its page. *)
Lemma passes_filters_zones pdf_title page_num pg page_tables line line_text line_spans
  processed :
  passes_filters pdf_title page_num pg page_tables line line_text line_spans processed = true ->
  line_spans <> []
  /\ should_skip_text line_text (Some line_spans) = false
  /\ is_text_in_box pg (ln_bbox line) = false
  /\ existsb (center_in (ln_bbox line)) page_tables = false
  /\ is_text_direction_compatible line_text (fst (fst (fst (ln_bbox line)))) (pg_width pg)
     = true.
Proof.
  unfold passes_filters. destruct (ln_bbox line) as [[[line_x y0] x1] y1].
  intros H. repeat (apply andb_true_iff in H as [H ?]).
  destruct line_spans as [|sp line_spans]; [discriminate|].
  repeat split; try discriminate; try (now apply negb_true_iff); assumption.
Qed.


(** The page of every record is a page of the document, counted from 1. *)
Theorem outline_pages_in_range (pdf : Pdf) (detected_lists : list DetectedList)
  (r : HeadingRecord) :
  In r (res_outline (fst (extract_outline pdf detected_lists))) ->
  exists pages,
    pdf_pages pdf = Some pages /\ 1 <= hr_page r <= Z.of_nat (List.length pages).
Proof.
  intros Hin. apply outline_origin in Hin as [pages [doc [o [[Hp _] [Hfrom _]]]]].
  destruct Hfrom as [pages' [Hp' [Hnth [_ [_ Hpage]]]]].
  exists pages. split; [assumption|].
  assert (pages' = pages) as -> by congruence.
  assert (og_page_num o < List.length pages)%nat by (apply nth_error_Some; congruence).
  lia.
Qed.


Lemma heading_level_of_source (line_text : str) (line_spans : list Span) (avg : num)
  (lv : Level) :
  heading_level_of line_text line_spans avg = Some lv ->
  (exists span,
     In span line_spans /\ is_heading_by_formatting span avg = Some lv
     /\ (forallb is_bold line_spans = true \/ existsb is_bold line_spans = false))
  \/ is_heading_by_pattern line_text = Some lv.
Proof.
  unfold heading_level_of.
  destruct (existsb is_bold line_spans && negb (forallb is_bold line_spans)) eqn:Eb;
    [now right|].
  assert (Hb : forallb is_bold line_spans = true \/ existsb is_bold line_spans = false).
  { destruct (existsb is_bold line_spans); [|now right].
    left. simpl in Eb. now apply negb_false_iff in Eb. }
  induction line_spans as [|sp line_spans IH]; simpl; [now right|].
  destruct (is_heading_by_formatting sp avg) as [lv'|] eqn:Ef; simpl.
  - intros H. injection H as <-. left. exists sp. repeat split; auto.
  - intros H.
    assert (Hstep : match flat_map (fun span =>
                      match is_heading_by_formatting span avg with
                      | Some lv0 => [lv0]
                      | None => []
                      end) line_spans with
                    | [] => is_heading_by_pattern line_text
                    | lv0 :: _ => Some lv0
                    end = Some lv).
    { destruct (flat_map _ line_spans); assumption. }
    clear H IH.
    destruct (flat_map _ line_spans) as [|lv0 rest] eqn:Eflat; [now right|].
    injection Hstep as ->. left.
    assert (Hin : In lv (flat_map (fun span =>
                      match is_heading_by_formatting span avg with
                      | Some lv0 => [lv0]
                      | None => []
                      end) line_spans)) by (rewrite Eflat; now left).
    apply in_flat_map in Hin as [span [Hs Hlv]].
    exists span. repeat split; auto.
    destruct (is_heading_by_formatting span avg) as [l|]; [|contradiction].
    destruct Hlv as [->|[]]. reflexivity.
Qed.

(** The level of every record is the level that one of the two classifiers
    gives the line it comes from: the formatting of one of the spans of
    the line, and then the spans are all bold or none is, or the pattern
    of the text of the line. *)
Theorem outline_levels_come_from_classifiers (pdf : Pdf)
  (detected_lists : list DetectedList) (r : HeadingRecord) :
  In r (res_outline (fst (extract_outline pdf detected_lists))) ->
  exists (pages : list (option Page)) (doc : list Page) (o : Origin),
    decoded pdf pages doc
    /\ comes_from pdf r o
    /\ ((exists span,
           In span (og_spans o)
           /\ is_heading_by_formatting span (calculate_average_font_size doc)
              = Some (hr_level r)
           /\ (forallb is_bold (og_spans o) = true
               \/ existsb is_bold (og_spans o) = false))
        \/ is_heading_by_pattern (og_text o) = Some (hr_level r)).
Proof.
  intros Hin. apply outline_origin in Hin as [pages [doc [o [Hd [Hfrom Hpass]]]]].
  destruct Hpass as [processed [detected [detected' [_ [_ [Hlv _]]]]]].
  exists pages, doc, o. repeat split; try apply Hd; try assumption.
  now apply heading_level_of_source.
Qed.

(** A record of page 1 comes from a line that has a bold span, or whose
    largest span size is not 16 or more. *)
Theorem first_page_headings_bold_or_small (pdf : Pdf) (detected_lists : list DetectedList)
  (r : HeadingRecord) :
  In r (res_outline (fst (extract_outline pdf detected_lists))) ->
  hr_page r = 1 ->
  exists o : Origin,
    comes_from pdf r o
    /\ og_spans o <> []
    /\ (existsb is_bold (og_spans o) = true
        \/ fleb (lit 16) (max_font_size (og_spans o)) = false).
Proof.
  intros Hin Hone. apply outline_origin in Hin as [pages [doc [o [Hd [Hfrom Hpass]]]]].
  destruct Hpass as [processed [detected [detected' [Hpass [_ [_ [_ Hfirst]]]]]]].
  apply passes_filters_zones in Hpass as [Hne _].
  exists o. repeat split; try assumption.
  apply Hfirst. destruct Hfrom as [pages' [_ [_ [_ [_ Hpage]]]]]. lia.
Qed.

End OutlineFacts.

Section Repetition.

Context {U : Unicode}.

(** *** A repetition of one-character atoms matches a run of them *)

(** [a] reads one character that [f] accepts. *)
Definition reads_one (ic : bool) (a : Re.regex) (f : Z -> bool) : Prop :=
  forall (st : Re.mstate) (cs : Re.caps) (k : Re.mstate -> Re.caps -> Re.mres)
         (c : Z) (t : str),
    Re.m_rest st = c :: t -> f c = true ->
    Re.m ic a st cs k = k (Re.advance c st t) cs.

Lemma set_reads_one (ic neg : bool) (items : list Re.citem) :
  reads_one ic (Re.RSet neg items) (Re.set_ok ic neg items).
Proof. intros st cs k c t Hr Hf. cbn [Re.m]. now rewrite Hr, Hf. Qed.

Lemma any_reads_one (ic : bool) : reads_one ic Re.RAny (fun c => negb (c =? 10)).
Proof.
  intros st cs k c t Hr Hf. cbn [Re.m]. rewrite Hr.
  apply negb_true_iff in Hf. now rewrite Hf.
Qed.

(** [n] turns are allowed by the bound [hi]. *)
Definition fits (hi : option nat) (n : nat) : Prop :=
  match hi with Some h => (n <= h)%nat | None => True end.

(** If the subject starts with [pre], all of whose characters the atom
    reads, and the rest of the pattern matches whatever state has [post]
    left, then the greedy repetition followed by the rest matches. *)
Lemma rep_complete_upto (ic : bool) (a : Re.regex) (f : Z -> bool) (lo : nat)
  (hi : option nat) (pre post : str) (st : Re.mstate) (cs : Re.caps)
  (k : Re.mstate -> Re.caps -> Re.mres) :
  reads_one ic a f ->
  Re.m_rest st = pre ++ post ->
  forallb f pre = true ->
  (lo <= List.length pre)%nat ->
  fits hi (List.length pre) ->
  (forall st' cs', Re.m_rest st' = post -> succeeds (k st' cs') = true) ->
  succeeds (Re.m ic (Re.RRep a lo hi) st cs k) = true.
Proof.
  intros Ha Hrest Hpre Hlo Hhi Hk. cbn [Re.m].
  match goal with
  | |- succeeds (?L ?fuel0 0%nat st cs) = true =>
      assert (G : forall (pre : str) (i fuel : nat) (st : Re.mstate) (cs : Re.caps),
                Re.m_rest st = pre ++ post -> forallb f pre = true ->
                (List.length pre < fuel)%nat -> (lo <= i + List.length pre)%nat ->
                fits hi (i + List.length pre) ->
                succeeds (L fuel i st cs) = true)
  end.
  { clear - Ha Hk. intros pre. induction pre as [|c pre IH];
      intros i fuel st cs Hrest Hpre Hfuel Hi Hhi.
    - destruct fuel as [|fuel]; [simpl in Hfuel; lia|].
      simpl in Hi. assert (E : (i <? lo)%nat = false) by (apply Nat.ltb_ge; lia).
      rewrite E. destruct (Re.at_most hi i); [now apply Hk|].
      match goal with
      | |- succeeds (match ?x with _ => _ end) = true => destruct x; [reflexivity|]
      end.
      now apply Hk.
    - destruct fuel as [|fuel]; [simpl in Hfuel; lia|].
      simpl in Hpre. apply andb_true_iff in Hpre as [Hc Hpre].
      simpl in Hrest, Hfuel, Hi, Hhi.
      destruct (i <? lo)%nat eqn:E.
      + rewrite (Ha st cs _ c (pre ++ post) Hrest Hc).
        apply IH; try assumption; try reflexivity; try lia.
        destruct hi; simpl in *; [lia|exact I].
      + assert (Em : Re.at_most hi i = false).
        { destruct hi as [h|]; [|reflexivity]. simpl in *. apply Nat.leb_gt. lia. }
        rewrite Em.
        rewrite (Ha st cs _ c (pre ++ post) Hrest Hc).
        assert (Hp : (Re.m_pos st <? Re.m_pos (Re.advance c st (pre ++ post)))%nat = true)
          by (apply Nat.ltb_lt; simpl; lia).
        rewrite Hp.
        match goal with
        | |- succeeds (match ?x with _ => _ end) = true =>
            assert (Hx : succeeds x = true);
              [|destruct x; [reflexivity|discriminate Hx]]
        end.
        apply IH; try assumption; try reflexivity; try lia.
        destruct hi; simpl in *; [lia|exact I]. }
  apply (G pre); try assumption; try lia.
  rewrite Hrest, length_app. lia.
Qed.

Lemma rep_complete (ic : bool) (a : Re.regex) (f : Z -> bool) (lo : nat)
  (pre post : str) (st : Re.mstate) (cs : Re.caps)
  (k : Re.mstate -> Re.caps -> Re.mres) :
  reads_one ic a f ->
  Re.m_rest st = pre ++ post ->
  forallb f pre = true ->
  (lo <= List.length pre)%nat ->
  (forall st' cs', Re.m_rest st' = post -> succeeds (k st' cs') = true) ->
  succeeds (Re.m ic (Re.RRep a lo None) st cs k) = true.
Proof.
  intros Ha Hrest Hpre Hlo Hk.
  eapply rep_complete_upto; try eassumption. exact I.
Qed.

(** [a] reads one character that [f] accepts, and nothing else. *)
Definition reads (ic : bool) (a : Re.regex) (f : Z -> bool) : Prop :=
  forall (st : Re.mstate) (cs : Re.caps) (k : Re.mstate -> Re.caps -> Re.mres),
    Re.m ic a st cs k
    = match Re.m_rest st with
      | c :: t => if f c then k (Re.advance c st t) cs else None
      | [] => None
      end.

Lemma set_reads (ic neg : bool) (items : list Re.citem) :
  reads ic (Re.RSet neg items) (Re.set_ok ic neg items).
Proof. intros st cs k. reflexivity. Qed.

(** If the rest of the pattern fails wherever a run of characters that
    the atom reads may end, the repetition followed by the rest fails. *)
Lemma rep_fails (ic : bool) (a : Re.regex) (f : Z -> bool) (lo : nat) (hi : option nat)
  (st : Re.mstate) (cs : Re.caps) (k : Re.mstate -> Re.caps -> Re.mres) :
  reads ic a f ->
  (forall pre post st',
     Re.m_rest st = pre ++ post -> forallb f pre = true -> Re.m_rest st' = post ->
     k st' cs = None) ->
  Re.m ic (Re.RRep a lo hi) st cs k = None.
Proof.
  intros Ha Hk. cbn [Re.m].
  match goal with
  | |- ?L ?fuel0 0%nat st cs = None =>
      assert (G : forall (fuel i : nat) (st0 : Re.mstate),
                (forall pre post st',
                   Re.m_rest st0 = pre ++ post -> forallb f pre = true ->
                   Re.m_rest st' = post -> k st' cs = None) ->
                L fuel i st0 cs = None)
  end.
  { clear - Ha. induction fuel as [|fuel IH]; intros i st0 Hk; [reflexivity|].
    assert (Hstep : forall c t, Re.m_rest st0 = c :: t -> f c = true ->
              forall pre post st',
                Re.m_rest (Re.advance c st0 t) = pre ++ post -> forallb f pre = true ->
                Re.m_rest st' = post -> k st' cs = None).
    { intros c t Hr Hc pre post st' Hrest Hpre Hst'. simpl in Hrest.
      apply (Hk (c :: pre) post st'); [now rewrite Hr, Hrest| |assumption].
      simpl. now rewrite Hc. }
    destruct (i <? lo)%nat eqn:E.
    - rewrite Ha. destruct (Re.m_rest st0) as [|c t] eqn:Hr; [reflexivity|].
      destruct (f c) eqn:Hc; [|reflexivity]. apply IH. now apply Hstep.
    - destruct (Re.at_most hi i); [now apply (Hk [] (Re.m_rest st0) st0)|].
      rewrite Ha. destruct (Re.m_rest st0) as [|c t] eqn:Hr.
      + apply (Hk [] [] st0); [try rewrite Hr; reflexivity|reflexivity|assumption].
      + destruct (f c) eqn:Hc.
        * destruct (Re.m_pos st0 <? _)%nat.
          -- rewrite IH by now apply Hstep.
             apply (Hk [] (c :: t) st0); [try rewrite Hr; reflexivity|reflexivity|assumption].
          -- apply (Hk [] (c :: t) st0); [try rewrite Hr; reflexivity|reflexivity|assumption].
        * apply (Hk [] (c :: t) st0); [try rewrite Hr; reflexivity|reflexivity|assumption]. }
  now apply G.
Qed.

End Repetition.

Section NoiseFilter.

Context {U : Unicode} {N : Numbers}.

(** *** Dot leaders and trailing numbers in [should_skip_text] *)

Lemma startswith_split (p s : str) : startswith p s = true -> exists b, s = p ++ b.
Proof.
  revert s. induction p as [|x p IH]; intros s H; [now exists s|].
  destruct s as [|y s]; [discriminate|]. simpl in H.
  apply andb_true_iff in H as [Hxy H]. apply Z.eqb_eq in Hxy. subst y.
  destruct (IH s H) as [b ->]. now exists b.
Qed.

Lemma contains_split (p s : str) : contains p s = true -> exists a b, s = a ++ p ++ b.
Proof.
  induction s as [|c s IH]; simpl; intros H.
  - apply orb_true_iff in H as [H|H]; [|discriminate].
    apply startswith_split in H as [b Hb]. now exists [], b.
  - apply orb_true_iff in H as [H|H].
    + apply startswith_split in H as [b Hb]. now exists [], b.
    + destruct (IH H) as [a [b ->]]. now exists (c :: a), b.
Qed.

(** A pattern that matches at every state with [rest] left is found in
    every text that ends with [rest]. *)
Lemma search_from_suffix (ic : bool) (r : Re.regex) (pre rest : str) (prev : option Z)
  (pos : nat) :
  (forall st, Re.m_rest st = rest -> succeeds (Re.match_at ic r st) = true) ->
  match Re.search_from ic r prev pos (pre ++ rest) with Some _ => true | None => false end
  = true.
Proof.
  intros Hm. revert prev pos. induction pre as [|c pre IH]; intros prev pos.
  - cbn [app].
    pose proof (Hm {| Re.m_prev := prev; Re.m_pos := pos; Re.m_rest := rest |} eq_refl) as H.
    destruct rest as [|c rest]; cbn [Re.search_from];
      destruct (Re.match_at _ _ _) as [[e cs]|]; try reflexivity; discriminate H.
  - cbn [app Re.search_from].
    destruct (Re.match_at _ _ _) as [[e cs]|]; [reflexivity|]. apply IH.
Qed.

Lemma m_seq (ic : bool) (a b : Re.regex) (st : Re.mstate) (cs : Re.caps)
  (k : Re.mstate -> Re.caps -> Re.mres) :
  Re.m ic (Re.RSeq a b) st cs k = Re.m ic a st cs (fun st' cs' => Re.m ic b st' cs' k).
Proof. reflexivity. Qed.

Lemma dot_leader_search (text : str) :
  contains (utf8 "...") text = true ->
  Re.searches true (utf8 ".*\.{3,}.*") text = true.
Proof.
  intros H. apply contains_split in H as [a [b ->]].
  unfold Re.searches, Re.re_search.
  replace (Re.compile (utf8 ".*\.{3,}.*"))
    with (Re.RSeq (Re.RRep Re.RAny 0 None)
            (Re.RSeq (Re.RRep (Re.RSet false [Re.CLit 46]) 3 None)
               (Re.RRep Re.RAny 0 None)))
    by (vm_compute; reflexivity).
  apply search_from_suffix. intros st Hst. unfold Re.match_at. rewrite m_seq.
  apply rep_complete with (f := fun c => negb (c =? 10)) (pre := []) (post := utf8 "..." ++ b);
    [apply any_reads_one|assumption|reflexivity|simpl; lia|].
  intros st1 cs1 Hst1. cbv beta. rewrite m_seq.
  apply rep_complete with (f := Re.set_ok true false [Re.CLit 46]) (pre := utf8 "...")
                          (post := b);
    [apply set_reads_one|assumption|reflexivity|simpl; lia|].
  intros st2 cs2 Hst2. cbv beta.
  apply rep_complete with (f := fun c => negb (c =? 10)) (pre := []) (post := b);
    [apply any_reads_one|assumption|reflexivity|simpl; lia|].
  reflexivity.
Qed.

(** A text with three dots in a row is excluded, whatever its spans. *)
Theorem dot_leader_excluded (text : str) (spans : option (list Span)) :
  contains (utf8 "...") text = true -> should_skip_text text spans = true.
Proof.
  intros Hdots. unfold should_skip_text.
  destruct (strip text) as [|c t]; [reflexivity|].
  destruct (is_toc_row text); [reflexivity|].
  destruct (is_warning_text text); [reflexivity|].
  assert (Hnoise : matches_noise_pattern text = true).
  { unfold matches_noise_pattern. apply existsb_exists.
    exists (utf8 ".*\.{3,}.*"). split; [|now apply dot_leader_search].
    apply in_or_app. right. apply in_or_app. left.
    unfold form_patterns, strs. apply in_map. simpl. tauto. }
  destruct (Re.matches false numbered_heading_pattern (c :: t)); [|assumption].
  now rewrite dot_run_search, Hdots.
Qed.

Definition is_digit (c : Z) : bool :=
  match digit_value c with Some _ => true | None => false end.

Lemma forallb_ext_eq {A : Type} (f g : A -> bool) (l : list A) :
  (forall x, f x = g x) -> forallb f l = forallb g l.
Proof. intros H. induction l as [|a l IH]; simpl; [reflexivity|]. now rewrite H, IH. Qed.

Lemma single_item_ok (it : Re.citem) (c : Z) :
  Re.set_ok false false [it] c = Re.item_ok it c.
Proof. unfold Re.set_ok. cbn [existsb xorb]. now rewrite !orb_false_r. Qed.

Lemma trailing_number_match (body ws digits : str) :
  forallb (fun c => negb (c =? 10)) body = true ->
  ws <> [] -> forallb is_space ws = true ->
  digits <> [] -> forallb is_digit digits = true ->
  Re.matches false (utf8 ".*\s+\d+\s*$") (body ++ ws ++ digits) = true.
Proof.
  intros Hbody Hws Hspace Hdg Hdigit. unfold Re.matches, Re.re_match.
  replace (Re.compile (utf8 ".*\s+\d+\s*$"))
    with (Re.RSeq (Re.RRep Re.RAny 0 None)
            (Re.RSeq (Re.RRep (Re.RSet false [Re.CSpace]) 1 None)
               (Re.RSeq (Re.RRep (Re.RSet false [Re.CDigit]) 1 None)
                  (Re.RSeq (Re.RRep (Re.RSet false [Re.CSpace]) 0 None) Re.REol))))
    by (vm_compute; reflexivity).
  match goal with
  | |- match (match ?x with _ => _ end) with _ => _ end = true =>
      assert (Hx : succeeds x = true); [|destruct x as [[e cs]|]; [reflexivity|discriminate Hx]]
  end.
  unfold Re.match_at. rewrite m_seq.
  apply rep_complete with (f := fun c => negb (c =? 10)) (pre := body) (post := ws ++ digits);
    [apply any_reads_one|reflexivity|assumption|simpl; lia|].
  intros st1 cs1 Hst1. cbv beta. rewrite m_seq.
  apply rep_complete with (f := Re.set_ok false false [Re.CSpace]) (pre := ws)
                          (post := digits);
    [apply set_reads_one|assumption| | |].
  { rewrite (forallb_ext_eq _ is_space); [assumption|]. intros x. apply single_item_ok. }
  { destruct ws; [congruence|simpl; lia]. }
  intros st2 cs2 Hst2. cbv beta. rewrite m_seq.
  apply rep_complete with (f := Re.set_ok false false [Re.CDigit]) (pre := digits)
                          (post := []);
    [apply set_reads_one|now rewrite app_nil_r| | |].
  { rewrite (forallb_ext_eq _ is_digit); [assumption|]. intros x. apply single_item_ok. }
  { destruct digits; [congruence|simpl; lia]. }
  intros st3 cs3 Hst3. cbv beta. rewrite m_seq.
  apply rep_complete with (f := Re.set_ok false false [Re.CSpace]) (pre := []) (post := []);
    [apply set_reads_one|assumption|reflexivity|simpl; lia|].
  intros st4 cs4 Hst4. cbn [Re.m]. now rewrite Hst4.
Qed.

(** A text that ends with white space and a number, as a row of a table of
    contents does, is excluded and gets no level from the patterns, unless
    it starts with a contents keyword or an appendix heading: so are
    [Chapter 3] and [Part 2]. *)
Theorem trailing_number_excluded (body ws digits : str) (spans : option (list Span)) :
  let text := body ++ ws ++ digits in
  strip text = text ->
  forallb (fun c => negb (c =? 10)) body = true ->
  ws <> [] -> forallb is_space ws = true ->
  digits <> [] -> forallb is_digit digits = true ->
  Re.matches true (toc_exception_pattern (languages_to_check (detect_language text))) text
  = false ->
  should_skip_text text spans = true /\ is_heading_by_pattern text = None.
Proof.
  intros text Hstrip Hbody Hws Hspace Hdg Hdigit Hexc.
  assert (Hne : text <> []).
  { unfold text. destruct digits; [congruence|]. destruct body, ws; discriminate. }
  assert (Htoc : is_toc_row text = true).
  { unfold is_toc_row. rewrite Hstrip, Hexc. simpl negb. rewrite andb_true_r.
    apply existsb_exists. exists (utf8 ".*\s+\d+\s*$").
    split; [unfold toc_patterns, strs; apply in_map; simpl; tauto|].
    now apply trailing_number_match. }
  assert (Hskip : forall sp, should_skip_text text sp = true).
  { intros sp. unfold should_skip_text. rewrite Hstrip.
    destruct text; [congruence|]. now rewrite Htoc. }
  split; [apply Hskip|].
  unfold is_heading_by_pattern. rewrite Hstrip. now rewrite Hskip.
Qed.

End NoiseFilter.

Section ResultTexts.

Context {U : Unicode} {N : Numbers}.

(** *** The texts of the result *)

Lemma startswith_app (p s : str) : startswith p (p ++ s) = true.
Proof.
  induction p as [|x p IH]; simpl; [reflexivity|]. now rewrite Z.eqb_refl, IH.
Qed.

Lemma endswith_app (p s : str) : endswith p (s ++ p) = true.
Proof. unfold endswith. rewrite rev_app_distr. apply startswith_app. Qed.

Lemma clean_heading_text (text : str) :
  clean_extracted_text text true = []
  \/ endswith (utf8 " ") (clean_extracted_text text true) = true.
Proof.
  unfold clean_extracted_text. destruct text as [|c text]; [now left|].
  cbv zeta. destruct (strip _) as [|x cleaned] eqn:E; [now left|]. right.
  destruct (endswith (utf8 " ") (x :: cleaned)) eqn:Ee; cbn [andb negb];
    [assumption|apply endswith_app].
Qed.

(** The title and the text of every record end with one more space than
    the cleaned text has, unless they are empty. *)
Theorem result_texts_end_with_space (pdf : Pdf) (detected_lists : list DetectedList) :
  let result := fst (extract_outline pdf detected_lists) in
  (res_title result = [] \/ endswith (utf8 " ") (res_title result) = true)
  /\ Forall (fun r => hr_text r = [] \/ endswith (utf8 " ") (hr_text r) = true)
       (res_outline result).
Proof.
  intros result. split.
  - unfold result, extract_outline.
    destruct (walk pdf detected_lists) as [[[pdf_title st]|] detected]; [|now left].
    cbn [fst res_title]. unfold title_text_of.
    destruct pdf_title as [|c t]; [now left|].
    destruct (eqb _ _); [now left|apply clean_heading_text].
  - apply Forall_forall. intros r Hin.
    apply outline_origin in Hin as [pages [doc [o [_ [Hfrom _]]]]].
    destruct Hfrom as [pages' [_ [_ [_ [Ht _]]]]].
    rewrite Ht. apply clean_heading_text.
Qed.

End ResultTexts.

Section Languages.

Context {U : Unicode}.

(** *** What an answer of [detect_language] says of the text *)

Definition is_ideograph (code : Z) : bool := in_range 0x4E00 0x9FFF code.

Lemma max_script_counted (text : str) :
  max_script text <> latin -> 0 < script_count text (max_script text).
Proof.
  pose proof (script_count_nonneg text latin) as Hl.
  unfold max_script, max_by. simpl.
  destruct (Z.ltb_spec (script_count text latin) (script_count text cjk)) as [H1|H1].
  - destruct (Z.ltb_spec (script_count text cjk) (script_count text arabic)) as [H2|H2].
    + destruct (Z.ltb_spec (script_count text arabic) (script_count text cyrillic));
        intros _; lia.
    + destruct (Z.ltb_spec (script_count text cjk) (script_count text cyrillic));
        intros _; lia.
  - destruct (Z.ltb_spec (script_count text latin) (script_count text arabic)) as [H2|H2].
    + destruct (Z.ltb_spec (script_count text arabic) (script_count text cyrillic));
        intros _; lia.
    + destruct (Z.ltb_spec (script_count text latin) (script_count text cyrillic));
        intros K; [lia|congruence].
Qed.

Lemma script_counted (text : str) (sc : script) :
  0 < script_count text sc -> exists c, In c text /\ script_of c = Some sc.
Proof.
  unfold script_count. intros H.
  destruct (filter _ text) as [|c rest] eqn:E; [simpl in H; lia|].
  assert (Hin : In c (filter (fun code =>
                  match script_of code with
                  | Some sc' => script_eqb sc sc'
                  | None => false
                  end) text)) by (rewrite E; now left).
  apply filter_In in Hin as [Hin Hc]. exists c. split; [assumption|].
  destruct (script_of c) as [sc'|]; [|discriminate].
  destruct sc, sc'; simpl in Hc; congruence.
Qed.

Lemma max_script_char (text : str) (sc : script) :
  max_script text = sc -> sc <> latin -> exists c, In c text /\ script_of c = Some sc.
Proof.
  intros E Hsc. apply script_counted. rewrite <- E. apply max_script_counted. congruence.
Qed.

Ltac by_ranges :=
  unfold script_of, is_kana, is_hangul in *;
  repeat (match goal with
          | |- context [in_range ?a ?b ?c] => destruct (in_range_spec a b c)
          | H : context [in_range ?a ?b ?c] |- _ => destruct (in_range_spec a b c)
          end; simpl in *; try lia; try congruence).

Lemma cjk_char (c : Z) :
  script_of c = Some cjk -> is_kana c = false -> is_ideograph c = true.
Proof. unfold is_ideograph. intros H K. by_ranges. Qed.

Lemma arabic_char (c : Z) : script_of c = Some arabic -> in_range 0x0600 0x06FF c = true.
Proof. intros H. by_ranges. Qed.

Lemma cyrillic_char (c : Z) : script_of c = Some cyrillic -> in_range 0x0400 0x04FF c = true.
Proof. intros H. by_ranges. Qed.

Lemma existsb_false_In {A : Type} (f : A -> bool) (l : list A) (x : A) :
  existsb f l = false -> In x l -> f x = false.
Proof.
  intros H Hin. destruct (f x) eqn:E; [|reflexivity].
  assert (existsb f l = true) by (apply existsb_exists; eauto). congruence.
Qed.

(** Every answer but [en] names something the text holds: a kana for
    [ja]; an ideograph, and a Hangul character or none, without kana, for
    [ko] and [zh]; an Arabic or a Cyrillic character for [ar] and [ru]; a
    keyword of the language, in the lower-case text, for [es], [fr] and
    [de]. *)
Theorem detect_language_names_what_it_found (text : str) :
  match detect_language text with
  | ja => existsb is_kana text = true
  | ko => existsb is_hangul text = true /\ existsb is_ideograph text = true
          /\ existsb is_kana text = false
  | zh => existsb is_ideograph text = true /\ existsb is_kana text = false
          /\ existsb is_hangul text = false
  | ar => existsb (in_range 0x0600 0x06FF) text = true
  | ru => existsb (in_range 0x0400 0x04FF) text = true
  | es => 0 < keyword_matches es (str_lower text)
  | fr => 0 < keyword_matches fr (str_lower text)
  | de => 0 < keyword_matches de (str_lower text)
  | en => True
  end.
Proof.
  unfold detect_language. destruct text as [|c0 text0]; [exact I|].
  set (text := c0 :: text0).
  destruct (max_script text) eqn:Em.
  - destruct (find _ languages) as [l|] eqn:E; [|exact I].
    apply find_some in E as [_ E]. apply andb_true_iff in E as [El Ek].
    apply Z.ltb_lt in Ek. destruct l; simpl in El; try discriminate; try exact I; exact Ek.
  - destruct (max_script_char text Em) as [c [Hin Hc]]; [discriminate|].
    destruct (existsb is_kana text) eqn:Ek; [reflexivity|].
    assert (Hi : existsb is_ideograph text = true).
    { apply existsb_exists. exists c. split; [assumption|].
      apply cjk_char; [assumption|]. eapply existsb_false_In; eassumption. }
    destruct (existsb is_hangul text) eqn:Eh; repeat split; assumption.
  - destruct (max_script_char text Em) as [c [Hin Hc]]; [discriminate|].
    apply existsb_exists. exists c. split; [assumption|now apply arabic_char].
  - destruct (max_script_char text Em) as [c [Hin Hc]]; [discriminate|].
    apply existsb_exists. exists c. split; [assumption|now apply cyrillic_char].
Qed.

End Languages.

Section Formatting.

Context {U : Unicode}.

(** *** The level by formatting grows with the size and the weight *)

(** The rank of an answer: [H1] is the highest, no level the lowest. *)
Definition level_rank (l : option Level) : Z :=
  match l with
  | Some H1 => 3
  | Some H2 => 2
  | Some H3 => 1
  | None => 0
  end.

Lemma ratio_le (x y avg : Q) :
  (x <= y)%Q ->
  ((if Qltb 0 avg then x / avg else 1) <= (if Qltb 0 avg then y / avg else 1))%Q.
Proof.
  intros H. destruct (Qltb 0 avg) eqn:E; [|apply Qle_refl].
  apply Qltb_iff in E. unfold Qdiv. apply Qmult_le_compat_r; [assumption|].
  apply Qlt_le_weak. now apply Qinv_lt_0_compat.
Qed.

(** A span that is no smaller than another, and bold if the other is, gets
    a level that is no lower. *)
Theorem formatting_level_monotone (a b : Span) (avg_font_size : Q) :
  (sp_size a <= sp_size b)%Q ->
  (is_bold a = true -> is_bold b = true) ->
  level_rank (is_heading_by_formatting a avg_font_size)
  <= level_rank (is_heading_by_formatting b avg_font_size).
Proof.
  intros Hsize Hbold. unfold is_heading_by_formatting. cbv zeta.
  exact_numbers.
  pose proof (ratio_le avg_font_size Hsize) as Hr.
  set (ra := if Qltb 0 avg_font_size then (sp_size a / avg_font_size)%Q else 1%Q) in *.
  set (rb := if Qltb 0 avg_font_size then (sp_size b / avg_font_size)%Q else 1%Q) in *.
  assert (Hmono : forall t, Qleb t ra = true -> Qleb t rb = true).
  { intros t Ht. apply Qleb_iff. apply Qleb_iff in Ht. eapply Qle_trans; eassumption. }
  pose proof (Hmono (14 # 10)) as M1. pose proof (Hmono (12 # 10)) as M2.
  pose proof (Hmono (120 # 100)) as M3. pose proof (Hmono 1%Q) as M4.
  pose proof (Hmono (8 # 10)) as M5. clear Hmono Hr.
  destruct (is_bold a); [rewrite (Hbold eq_refl)|clear Hbold; destruct (is_bold b)];
    destruct (Qleb (14 # 10) ra); try rewrite (M1 eq_refl); clear M1;
    try destruct (Qleb (14 # 10) rb);
    destruct (Qleb (12 # 10) ra); try rewrite (M2 eq_refl); clear M2;
    try destruct (Qleb (12 # 10) rb);
    destruct (Qleb (120 # 100) ra); try rewrite (M3 eq_refl); clear M3;
    try destruct (Qleb (120 # 100) rb);
    destruct (Qleb 1 ra); try rewrite (M4 eq_refl); clear M4;
    try destruct (Qleb 1 rb);
    destruct (Qleb (8 # 10) ra); try rewrite (M5 eq_refl); clear M5;
    try destruct (Qleb (8 # 10) rb);
    simpl; lia.
Qed.

End Formatting.

Section Duplicates.

Context {U : Unicode} {N : Numbers}.

(** *** The record that stands for its duplicates *)






End Duplicates.

Section Diagnostics.

Context {U : Unicode} {N : Numbers}.

(** *** The list of detected lists *)

(** An entry as [is_likely_list_item] writes it: two patterns or more. *)
Definition list_entry_ok (d : DetectedList) : Prop :=
  2 <= dl_pattern_count d /\ dl_pattern_count d = Z.of_nat (List.length (dl_patterns d)).

(** [b] is [a] with more entries after it. *)
Definition grows (a b : list DetectedList) : Prop :=
  exists added, b = a ++ added /\ Forall list_entry_ok added.

Lemma grows_refl (a : list DetectedList) : grows a a.
Proof. exists []. split; [now rewrite app_nil_r|constructor]. Qed.

Lemma grows_trans (a b c : list DetectedList) : grows a b -> grows b c -> grows a c.
Proof.
  intros [x [-> Hx]] [y [-> Hy]]. exists (x ++ y). split; [now rewrite app_assoc|].
  apply Forall_app. now split.
Qed.

Lemma is_likely_list_item_grows line_text lines i detected is_list detected' :
  is_likely_list_item line_text lines i detected = Some (is_list, detected') ->
  grows detected detected'.
Proof.
  unfold is_likely_list_item.
  destruct (negb _); [intros H; injection H as _ <-; apply grows_refl|].
  destruct (Re.re_match _ _ _) as [mo|]; [|intros H; injection H as _ <-; apply grows_refl].
  destruct (int_of _); [|discriminate].
  destruct (int_of _); [|discriminate].
  destruct (found_patterns _ _ _) as [found|]; [|discriminate]. cbv zeta.
  destruct (2 <=? _) eqn:E; intros H; injection H as _ <-; [|apply grows_refl].
  eexists. split; [reflexivity|]. constructor; [|constructor].
  split; cbn [dl_pattern_count dl_patterns]; [now apply Z.leb_le|reflexivity].
Qed.

Lemma process_line_grows pdf_title avg page_num pg page_tables lines i line line_text
  line_spans st :
  grows (st_detected st)
    (st_detected (process_line pdf_title avg page_num pg page_tables lines i line line_text
                    line_spans st)).
Proof.
  unfold process_line.
  destruct (st_raised st); [apply grows_refl|].
  destruct (negb _); [apply grows_refl|].
  destruct (_ && _); [apply grows_refl|].
  destruct (heading_level_of _ _ _) as [lv|]; [|apply grows_refl].
  pose proof (is_likely_list_item_grows line_text lines i (st_detected st)) as Hg.
  destruct (is_likely_list_item _ _ _ _) as [[is_list detected]|]; [|apply grows_refl].
  specialize (Hg _ _ eq_refl).
  destruct is_list; [exact Hg|]. cbv zeta.
  destruct (_ && _); exact Hg.
Qed.

Lemma lines_loop_grows fuel pdf_title avg page_num pg page_tables lines i st :
  grows (st_detected st)
    (st_detected (lines_loop fuel pdf_title avg page_num pg page_tables lines i st)).
Proof.
  revert i st. induction fuel as [|fuel IH]; intros i st; cbn [lines_loop];
    [apply grows_refl|].
  destruct (nth_error lines i) as [line|]; [|apply grows_refl].
  destruct (merged_line lines i line) as [[line_text line_spans] next].
  eapply grows_trans; [|apply IH]. apply process_line_grows.
Qed.

Lemma page_loop_grows pdf_title avg tables page_num pg st :
  grows (st_detected st) (st_detected (page_loop pdf_title avg tables page_num pg st)).
Proof.
  unfold page_loop. generalize (pg_blocks pg). intros blocks. revert st.
  induction blocks as [|b blocks IH]; intros st; cbn [fold_left]; [apply grows_refl|].
  eapply grows_trans; [|apply IH].
  destruct (bk_lines b) as [lines|]; [apply lines_loop_grows|apply grows_refl].
Qed.

Lemma pages_loop_grows pdf_title avg tables page_num pages st :
  grows (st_detected st) (snd (pages_loop pdf_title avg tables page_num pages st)).
Proof.
  revert page_num st. induction pages as [|[pg|] pages IH]; intros page_num st;
    cbn [pages_loop snd]; try apply grows_refl.
  eapply grows_trans; [|apply IH]. apply page_loop_grows.
Qed.

Lemma extract_outline_grows pdf detected_lists :
  grows detected_lists (snd (extract_outline pdf detected_lists)).
Proof.
  unfold extract_outline, walk.
  destruct (pdf_pages pdf) as [pages|]; [|apply grows_refl].
  destruct (all_decoded (firstn 5 pages)) as [doc|]; [|apply grows_refl].
  match goal with
  | |- context [pages_loop ?t ?a ?tb 0%nat pages ?s] =>
      pose proof (pages_loop_grows t a tb 0%nat pages s) as Hg
  end.
  destruct (pages_loop _ _ _ _ _ _) as [[st|] d]; exact Hg.
Qed.

Lemma process_files_grows write_ok output_path pdf_files written detected_lists :
  grows detected_lists
    (snd (process_files write_ok output_path pdf_files written detected_lists)).
Proof.
  revert written detected_lists.
  induction pdf_files as [|f pdf_files IH]; intros written d; cbn [process_files snd];
    [apply grows_refl|].
  pose proof (extract_outline_grows (pf_pdf f) d) as Hg.
  destruct (extract_outline (pf_pdf f) d) as [result detected]. cbn [snd] in Hg.
  eapply grows_trans; [exact Hg|apply IH].
Qed.

(** The instance never forgets a detected list: a document, decoded or
    not, and a batch of files leave the list with the entries it had, in
    their order, and after them entries of two patterns or more. *)
Theorem detected_lists_only_grow (write_ok : str -> bool) (output_path : OutputPath)
  (pdf_files : list PdfFile) (pdf : Pdf) (detected_lists : list DetectedList) :
  grows detected_lists (snd (extract_outline pdf detected_lists))
  /\ grows detected_lists
       (snd (process_directory write_ok output_path pdf_files detected_lists)).
Proof.
  split; [apply extract_outline_grows|apply process_files_grows].
Qed.

End Diagnostics.

Section Batches.

Context {U : Unicode} {N : Numbers}.

(** *** What a batch writes *)

(** What [process_directory] writes for one file: its result when it is
    processed alone by a new instance. *)
Definition output_of (write_ok : str -> bool) (output_path : OutputPath) (pdf_file : PdfFile)
  : list (str * OutlineResult) :=
  let output_file := output_file_of output_path pdf_file in
  if write_ok output_file
  then [(output_file, fst (extract_outline (pf_pdf pdf_file) []))]
  else [].

Lemma process_files_each write_ok output_path pdf_files detected_lists :
  fst (process_files write_ok output_path pdf_files [] detected_lists)
  = rev (flat_map (output_of write_ok output_path) pdf_files).
Proof.
  revert detected_lists.
  induction pdf_files as [|f pdf_files IH]; intros d; [reflexivity|].
  cbn [process_files flat_map].
  pose proof (extract_outline_result (pf_pdf f) d []) as Hr.
  destruct (extract_outline (pf_pdf f) d) as [result detected]. cbn [fst] in Hr.
  rewrite process_files_written, IH, rev_app_distr. f_equal.
  unfold output_of. rewrite <- Hr. destruct (write_ok _); reflexivity.
Qed.

(** A batch writes, file by file in the order of the listing, what each
    file gives alone; the result lists the last file first. *)
Theorem batch_is_file_by_file (write_ok : str -> bool) (output_path : OutputPath)
  (pdf_files : list PdfFile) (detected_lists : list DetectedList) :
  fst (process_directory write_ok output_path pdf_files detected_lists)
  = rev (flat_map (output_of write_ok output_path) pdf_files).
Proof. apply process_files_each. Qed.

(** When the output path is one JSON file that can be written, every
    document of the batch is written to it, and the last one written is
    the last of the listing. *)
Theorem json_file_holds_last_result (write_ok : str -> bool) (path : str)
  (before : list PdfFile) (last : PdfFile) (detected_lists : list DetectedList) :
  write_ok path = true ->
  fst (process_directory write_ok (JsonFile path) (before ++ [last]) detected_lists)
  = (path, fst (extract_outline (pf_pdf last) []))
    :: map (fun f => (path, fst (extract_outline (pf_pdf f) []))) (rev before).
Proof.
  intros Hw. unfold process_directory. rewrite process_files_each.
  assert (Hall : forall l,
            flat_map (output_of write_ok (JsonFile path)) l
            = map (fun f => (path, fst (extract_outline (pf_pdf f) []))) l).
  { induction l as [|f l IH]; [reflexivity|]. cbn [flat_map map]. rewrite IH.
    unfold output_of. cbn [output_file_of]. now rewrite Hw. }
  rewrite Hall, map_app, rev_app_distr, map_rev. reflexivity.
Qed.

End Batches.

Section Documents.

Context {U : Unicode} {N : Numbers}.

(** *** Documents without text *)

Lemma all_decoded_In {A : Type} (l : list (option A)) (doc : list A) (x : A) :
  all_decoded l = Some doc -> In x doc -> In (Some x) l.
Proof.
  revert doc. induction l as [|[a|] l IH]; simpl; intros doc H Hin.
  - injection H as <-. contradiction.
  - destruct (all_decoded l) as [r|]; [|discriminate]. injection H as <-.
    destruct Hin as [->|Hin]; [now left|right; now apply (IH r)].
  - discriminate.
Qed.

Lemma firstn_incl {A : Type} (n : nat) (l : list A) (x : A) : In x (firstn n l) -> In x l.
Proof.
  revert l. induction n as [|n IH]; intros [|a l]; simpl; try tauto.
  intros [H|H]; [now left|right; now apply IH].
Qed.

(** The lines of the text blocks of a page. *)
Definition page_lines (pg : Page) : list Line := flat_map block_lines (pg_blocks pg).

Lemma page_line_lists_lines (pg : Page) (lines : list Line) (line : Line) :
  In lines (page_line_lists pg) -> In line lines -> In line (page_lines pg).
Proof.
  unfold page_line_lists, page_lines. intros Hl Hin.
  apply in_flat_map in Hl as [b [Hb Hl]]. apply in_flat_map. exists b. split; [assumption|].
  unfold block_lines. destruct (bk_lines b) as [ls|]; [|contradiction].
  destruct Hl as [<-|[]]. assumption.
Qed.

(** A document none of whose pages has a line of text, as a scan has
    none, gets the empty title and the empty outline. *)
Theorem document_without_lines (pdf : Pdf) (detected_lists : list DetectedList) :
  (forall pages pg, pdf_pages pdf = Some pages -> In (Some pg) pages -> page_lines pg = []) ->
  fst (extract_outline pdf detected_lists) = empty_result.
Proof.
  intros Hno.
  assert (Ho : res_outline (fst (extract_outline pdf detected_lists)) = []).
  { destruct (res_outline _) as [|r rest] eqn:E; [reflexivity|]. exfalso.
    assert (Hin : In r (res_outline (fst (extract_outline pdf detected_lists))))
      by (rewrite E; now left).
    apply outline_origin in Hin as [pages [doc [o [_ [Hfrom _]]]]].
    destruct Hfrom as [pages' [Hp [Hnth [[Hl [Hline _]] _]]]].
    assert (Hpl : In (og_line o) (page_lines (og_page o))).
    { eapply page_line_lists_lines; [eassumption|]. eapply nth_error_In; eassumption. }
    rewrite (Hno pages' (og_page o) Hp) in Hpl; [contradiction|].
    eapply nth_error_In; eassumption. }
  assert (Ht : res_title (fst (extract_outline pdf detected_lists)) = []).
  { unfold extract_outline, walk.
    destruct (pdf_pages pdf) as [pages|] eqn:Hp; [|reflexivity].
    destruct (all_decoded (firstn 5 pages)) as [doc|] eqn:Ed; [|reflexivity].
    destruct (pages_loop _ _ _ _ _ _) as [[st|] d]; [|reflexivity].
    cbn [fst res_title]. unfold extract_title_from_text.
    destruct doc as [|pg doc]; [vm_compute; reflexivity|].
    assert (Hpg : page_lines pg = []).
    { apply (Hno pages pg eq_refl). eapply firstn_incl.
      eapply all_decoded_In; [eassumption|now left]. }
    unfold page_lines in Hpg. rewrite Hpg. reflexivity. }
  destruct (fst (extract_outline pdf detected_lists)) as [title outline].
  simpl in Ho, Ht. now subst.
Qed.

(** *** The tables that count *)

(** The table is found but is none: its rows can be extracted, and it has
    no cells or fewer than three rows. *)
Definition is_small_table (table : Table) : bool :=
  match tb_rows table with
  | None => false
  | Some n => negb (tb_cells table) || (n <? 3)%nat
  end.

Definition without_small_tables (tables : list (option (list Table)))
  : list (option (list Table)) :=
  map (option_map (filter (fun table => negb (is_small_table table)))) tables.

Lemma flat_map_filter_nil {A B : Type} (f : A -> list B) (p : A -> bool) (l : list A) :
  (forall x, p x = false -> f x = []) -> flat_map f (filter p l) = flat_map f l.
Proof.
  intros H. induction l as [|a l IH]; simpl; [reflexivity|].
  destruct (p a) eqn:E; simpl; [now rewrite IH|]. now rewrite (H a E), IH.
Qed.

Lemma tables_from_without_small page_num tables :
  tables_from page_num (without_small_tables tables) = tables_from page_num tables.
Proof.
  revert page_num. induction tables as [|[found|] tables IH]; intros page_num;
    [reflexivity| |reflexivity].
  cbn [without_small_tables map option_map tables_from].
  fold (without_small_tables tables). rewrite IH. f_equal.
  apply flat_map_filter_nil. intros table Hs. apply negb_false_iff in Hs.
  unfold is_small_table in Hs. destruct (tb_rows table) as [n|]; [|reflexivity].
  now rewrite Hs.
Qed.

Lemma tables_from_failure page_num before rest :
  tables_from page_num (before ++ None :: rest) = tables_from page_num before.
Proof.
  revert page_num. induction before as [|[found|] before IH]; intros page_num;
    [reflexivity| |reflexivity].
  cbn [app tables_from]. now rewrite IH.
Qed.

Lemma title_tables_without_small pages tables :
  title_page_tables
    {| pdf_pages := pages; pdf_tables := Some (without_small_tables tables) |}
  = title_page_tables {| pdf_pages := pages; pdf_tables := Some tables |}.
Proof.
  unfold title_page_tables, without_small_tables. cbn [pdf_tables].
  destruct tables as [|[found|] tables]; [reflexivity| |reflexivity]. cbn [map option_map].
  apply flat_map_filter_nil. intros table Hs. apply negb_false_iff in Hs.
  unfold is_small_table in Hs. destruct (tb_rows table) as [n|]; [|discriminate].
  apply orb_true_iff in Hs as [Hs|Hs].
  - apply negb_true_iff in Hs. now rewrite Hs.
  - apply Nat.ltb_lt in Hs. destruct (3 <=? n)%nat eqn:E; [apply Nat.leb_le in E; lia|].
    now rewrite andb_false_r.
Qed.

(** The document is read through its pages, the tables of the outline
    and the tables of the title alone. *)
Lemma extract_outline_tables (pdf pdf' : Pdf) (detected_lists : list DetectedList) :
  pdf_pages pdf = pdf_pages pdf' ->
  detect_tables_with_pdfplumber pdf = detect_tables_with_pdfplumber pdf' ->
  title_page_tables pdf = title_page_tables pdf' ->
  extract_outline pdf detected_lists = extract_outline pdf' detected_lists.
Proof.
  intros Hp Hd Ht. unfold extract_outline, walk. rewrite Hp, Hd.
  assert (Htitle : forall doc, extract_title_from_text pdf doc
                               = extract_title_from_text pdf' doc).
  { intros [|pg doc]; [reflexivity|]. unfold extract_title_from_text.
    assert (Hc : forall line, title_candidate pdf pg line = title_candidate pdf' pg line).
    { intros line. unfold title_candidate. now rewrite Ht. }
    assert (Hf : forall lines, flat_map (title_candidate pdf pg) lines
                               = flat_map (title_candidate pdf' pg) lines).
    { induction lines as [|line lines IH]; simpl; [reflexivity|]. now rewrite Hc, IH. }
    now rewrite Hf. }
  destruct (pdf_pages pdf') as [pages|]; [|reflexivity].
  destruct (all_decoded (firstn 5 pages)) as [doc|]; [|reflexivity].
  now rewrite Htitle.
Qed.

(** A table that is found with no cells or with fewer than three rows
    changes nothing.  When [find_tables] raises on a page, the result is
    that of a document which [pdfplumber] reads up to the page before it;
    when opening the document raises, it is that of a document in which
    [pdfplumber] reads no page. *)
Theorem small_tables_are_ignored (pages : option (list (option Page)))
  (tables before rest : list (option (list Table))) (detected_lists : list DetectedList) :
  extract_outline {| pdf_pages := pages; pdf_tables := Some (without_small_tables tables) |}
    detected_lists
  = extract_outline {| pdf_pages := pages; pdf_tables := Some tables |} detected_lists
  /\ extract_outline {| pdf_pages := pages; pdf_tables := Some (before ++ None :: rest) |}
       detected_lists
     = extract_outline {| pdf_pages := pages; pdf_tables := Some before |} detected_lists
  /\ extract_outline {| pdf_pages := pages; pdf_tables := None |} detected_lists
     = extract_outline {| pdf_pages := pages; pdf_tables := Some [] |} detected_lists.
Proof.
  split; [|split].
  - apply extract_outline_tables;
      [reflexivity|apply tables_from_without_small|apply title_tables_without_small].
  - apply extract_outline_tables; [reflexivity|apply tables_from_failure|].
    unfold title_page_tables. cbn [pdf_tables]. destruct before as [|[found|] before];
      reflexivity.
  - apply extract_outline_tables; reflexivity.
Qed.

End Documents.

Section Patterns.

Context {U : Unicode} {N : Numbers}.

(** *** A line of capitals is a first-level heading *)

(** A character of the set of the pattern for lines in capitals. *)
Definition is_capital_or_space (c : Z) : bool :=
  in_range 65 90 c || in_range 0x4E00 0x9FFF c || in_range 0x3040 0x309F c
  || in_range 0x30A0 0x30FF c || in_range 0xAC00 0xD7AF c || is_space c.

Definition capitals_pattern : str :=
  utf8 "^[A-Z\u4e00-\u9fff\u3040-\u309f\u30a0-\u30ff\uac00-\ud7af\s]{10,}$".

Lemma m_bol (ic : bool) (st : Re.mstate) (cs : Re.caps)
  (k : Re.mstate -> Re.caps -> Re.mres) :
  Re.m ic Re.RBol st cs k = if (Re.m_pos st =? 0)%nat then k st cs else None.
Proof. reflexivity. Qed.

Lemma capitals_set_ok (ic : bool) (c : Z) :
  is_capital_or_space c = true ->
  Re.set_ok ic false
    [Re.CRange 65 90; Re.CRange 19968 40959; Re.CRange 12352 12447; Re.CRange 12448 12543;
     Re.CRange 44032 55215; Re.CSpace] c = true.
Proof.
  unfold is_capital_or_space, Re.set_ok. intros H. cbn [xorb].
  apply existsb_exists.
  repeat (apply orb_true_iff in H as [H|H]).
  - exists (Re.CRange 65 90). split; [simpl; tauto|].
    destruct ic; cbn [existsb Re.item_ok]; now rewrite H.
  - exists (Re.CRange 19968 40959). split; [simpl; tauto|].
    destruct ic; cbn [existsb Re.item_ok]; now rewrite H.
  - exists (Re.CRange 12352 12447). split; [simpl; tauto|].
    destruct ic; cbn [existsb Re.item_ok]; now rewrite H.
  - exists (Re.CRange 12448 12543). split; [simpl; tauto|].
    destruct ic; cbn [existsb Re.item_ok]; now rewrite H.
  - exists (Re.CRange 44032 55215). split; [simpl; tauto|].
    destruct ic; cbn [existsb Re.item_ok]; now rewrite H.
  - exists Re.CSpace. split; [simpl; tauto|].
    destruct ic; cbn [existsb Re.item_ok]; now rewrite H.
Qed.

Lemma capitals_match (ic : bool) (text : str) :
  10 <= len text -> forallb is_capital_or_space text = true ->
  Re.matches ic capitals_pattern text = true.
Proof.
  intros Hlen Hall. unfold Re.matches, Re.re_match, capitals_pattern.
  replace (Re.compile
             (utf8 "^[A-Z\u4e00-\u9fff\u3040-\u309f\u30a0-\u30ff\uac00-\ud7af\s]{10,}$"))
    with (Re.RSeq Re.RBol
            (Re.RSeq
               (Re.RRep
                  (Re.RSet false
                     [Re.CRange 65 90; Re.CRange 19968 40959; Re.CRange 12352 12447;
                      Re.CRange 12448 12543; Re.CRange 44032 55215; Re.CSpace])
                  10 None)
               Re.REol))
    by (vm_compute; reflexivity).
  match goal with
  | |- match (match ?x with _ => _ end) with _ => _ end = true =>
      assert (Hx : succeeds x = true); [|destruct x as [[e cs]|]; [reflexivity|discriminate Hx]]
  end.
  unfold Re.match_at. rewrite m_seq, m_bol. cbn [Re.m_pos Nat.eqb]. rewrite m_seq.
  apply rep_complete with
    (f := Re.set_ok ic false
            [Re.CRange 65 90; Re.CRange 19968 40959; Re.CRange 12352 12447;
             Re.CRange 12448 12543; Re.CRange 44032 55215; Re.CSpace])
    (pre := text) (post := []);
    [apply set_reads_one|cbn [Re.m_rest]; now rewrite app_nil_r| | |].
  - apply forallb_forall. intros c Hc. apply capitals_set_ok.
    rewrite forallb_forall in Hall. now apply Hall.
  - unfold len in Hlen. lia.
  - intros st cs Hst. cbn [Re.m]. now rewrite Hst.
Qed.

Lemma languages_to_check_first (l : lang) :
  exists first rest, languages_to_check l = first :: rest.
Proof. unfold languages_to_check. destruct (lang_eqb l en); eauto. Qed.

Lemma capitals_pattern_h1 (l : lang) : In capitals_pattern (h1_patterns l).
Proof.
  unfold h1_patterns. cbv zeta. apply in_or_app. right.
  unfold capitals_pattern, strs. apply in_map. simpl. tauto.
Qed.

(** A text of ten characters or more, all capital Latin letters,
    ideographs, kana, Hangul or white space, that the filter does not
    exclude is a heading of the first level. *)
Theorem capitals_are_first_level (text : str) :
  strip text = text ->
  should_skip_text text None = false ->
  10 <= len text ->
  forallb is_capital_or_space text = true ->
  is_heading_by_pattern text = Some H1.
Proof.
  intros Hstrip Hskip Hlen Hall. unfold is_heading_by_pattern. rewrite Hstrip, Hskip.
  assert (H : existsb (fun pattern => Re.matches true pattern text)
                (flat_map h1_patterns (languages_to_check (detect_language text))) = true).
  { apply existsb_exists. exists capitals_pattern. split; [|now apply capitals_match].
    destruct (languages_to_check_first (detect_language text)) as [first [rest ->]].
    apply in_flat_map. exists first. split; [now left|apply capitals_pattern_h1]. }
  now rewrite H.
Qed.

End Patterns.

Section Titles.

Context {U : Unicode} {N : Numbers}.

(** *** The words of a deduplicated title *)

Lemma enumerate_In {A : Type} (l : list A) (i : nat) (x : A) :
  In (i, x) (enumerate l) -> In x l.
Proof. unfold enumerate. apply in_combine_r. Qed.

(** [a] is [l] without some of its elements, the others in their order. *)
Inductive subsequence {A : Type} : list A -> list A -> Prop :=
| sub_nil : subsequence [] []
| sub_skip (x : A) (a l : list A) : subsequence a l -> subsequence a (x :: l)
| sub_keep (x : A) (a l : list A) : subsequence a l -> subsequence (x :: a) (x :: l).

Lemma subsequence_refl {A : Type} (l : list A) : subsequence l l.
Proof. induction l; [apply sub_nil|now apply sub_keep]. Qed.

Lemma subsequence_nil {A : Type} (l : list A) : subsequence [] l.
Proof. induction l; [apply sub_nil|now apply sub_skip]. Qed.

Lemma subsequence_app {A : Type} (a l b m : list A) :
  subsequence a l -> subsequence b m -> subsequence (a ++ b) (l ++ m).
Proof.
  intros H Hb. induction H; cbn [app];
    [assumption|now apply sub_skip|now apply sub_keep].
Qed.

Lemma subsequence_trans {A : Type} (a b c : list A) :
  subsequence a b -> subsequence b c -> subsequence a c.
Proof.
  intros Hab Hbc. revert a Hab. induction Hbc; intros a' Hab.
  - assumption.
  - apply sub_skip. now apply IHHbc.
  - inversion Hab; subst.
    + apply sub_skip. now apply IHHbc.
    + apply sub_keep. now apply IHHbc.
Qed.

Lemma subsequence_filter {A : Type} (p : A -> bool) (l : list A) :
  subsequence (filter p l) l.
Proof.
  induction l as [|x l IH]; cbn [filter]; [apply sub_nil|].
  destruct (p x); [now apply sub_keep|now apply sub_skip].
Qed.

Lemma map_snd_combine {A B : Type} (l : list A) (m : list B) :
  List.length l = List.length m -> map snd (combine l m) = m.
Proof.
  revert m. induction l as [|x l IH]; intros [|y m]; simpl; try discriminate;
    [reflexivity|].
  intros H. f_equal. apply IH. lia.
Qed.

(** [smart_deduplicate_title] only drops words: its result is made of
    words of the title in the order they have there, without some of
    them, and each word that stays is longer than one character once the
    punctuation around it is taken off, or is the word [a]. *)
Theorem smart_deduplicate_title_keeps_words (title : str) :
  exists kept,
    smart_deduplicate_title title = join (utf8 " ") kept
    /\ subsequence kept (split title)
    /\ Forall (fun word =>
         1 < len (strip_punct word) \/ strip_punct (str_lower word) = utf8 "a") kept.
Proof.
  unfold smart_deduplicate_title. cbv zeta.
  set (words := filter _ (split title)).
  match goal with
  | |- exists kept, join _ (fold_left ?step _ _) = _ /\ _ =>
      assert (G : forall l acc,
                (forall iw, In iw l -> In (snd iw) words) ->
                Forall (fun word => In word words) acc ->
                Forall (fun word => In word words) (fold_left step l acc));
      [|assert (S : forall l done acc,
                  subsequence acc done ->
                  subsequence (fold_left step l acc) (done ++ map snd l))]
  end.
  { induction l as [|[i word] l IH]; intros acc Hl Hacc; cbn [fold_left]; [assumption|].
    apply IH; [intros iw Hiw; apply Hl; now right|].
    assert (Hword : In word words) by (apply (Hl (i, word)); now left).
    assert (Hadd : Forall (fun word => In word words) (acc ++ [word])).
    { apply Forall_app. split; [assumption|]. constructor; [assumption|constructor]. }
    destruct (mem _ preserved_words); [assumption|].
    destruct (negb _); [|assumption].
    destruct (existsb _ acc); assumption. }
  { induction l as [|[i word] l IH]; intros done acc Hacc; cbn [fold_left map snd].
    - now rewrite app_nil_r.
    - replace (done ++ word :: map snd l) with ((done ++ [word]) ++ map snd l)
        by (rewrite <- app_assoc; reflexivity).
      apply IH.
      assert (Hadd : subsequence (acc ++ [word]) (done ++ [word]))
        by (apply subsequence_app; [assumption|apply subsequence_refl]).
      assert (Hskip : subsequence acc (done ++ [word])).
      { rewrite <- (app_nil_r acc). apply subsequence_app; [assumption|].
        apply subsequence_nil. }
      destruct (mem _ preserved_words); [assumption|].
      destruct (negb _); [|assumption].
      destruct (existsb _ acc); assumption. }
  eexists. split; [reflexivity|]. split.
  - apply subsequence_trans with (b := words); [|apply subsequence_filter].
    specialize (S (enumerate words) [] [] (@sub_nil str)). cbn [app] in S.
    assert (E : map snd (enumerate words) = words)
      by (unfold enumerate; apply map_snd_combine, length_seq).
    now rewrite E in S.
  - eapply Forall_impl; [|apply G].
    + intros word Hw. unfold words in Hw. apply filter_In in Hw as [Hw Hp].
      apply orb_true_iff in Hp as [Hp|Hp].
      * left. now apply Z.ltb_lt.
      * right. now apply eqb_eq.
    + intros [i word] Hiw. cbn [snd]. eapply enumerate_In; eassumption.
    + constructor.
Qed.

End Titles.

Section Sides.

Context {U : Unicode} {N : Numbers}.

(** *** The side of the page a heading starts on *)

(** Every record comes from a line that passed the test on the side it
    starts on: the comparison of the interpreter puts its left edge before
    the product of the width of its page and 0.7, or, when
    [detect_language] answers Arabic for its text, after the product of
    the width and 0.3. *)
Theorem outline_lines_start_on_reading_side (pdf : Pdf)
  (detected_lists : list DetectedList) (r : HeadingRecord) :
  In r (res_outline (fst (extract_outline pdf detected_lists))) ->
  exists o : Origin,
    comes_from pdf r o
    /\ let line_x := fst (fst (fst (ln_bbox (og_line o)))) in
       let page_width := pg_width (og_page o) in
       if lang_eqb (detect_language (og_text o)) ar
       then fltb (fmul page_width (lit (3 # 10))) line_x = true
       else fltb line_x (fmul page_width (lit (7 # 10))) = true.
Proof.
  intros Hin. apply outline_origin in Hin as [pages [doc [o [_ [Hfrom Hpass]]]]].
  destruct Hpass as [processed [detected [detected' [Hpass _]]]].
  apply passes_filters_zones in Hpass as [_ [_ [_ [_ Hdir]]]].
  exists o. split; [assumption|].
  cbv zeta. unfold is_text_direction_compatible in Hdir.
  destruct (detect_language (og_text o)); cbn [lang_eqb]; exact Hdir.
Qed.

End Sides.

Section Dates.

Context {U : Unicode} {N : Numbers}.

(** *** Dates in figures *)

Lemma dropwhile_In (f : Z -> bool) (s : str) (c : Z) : In c (dropwhile f s) -> In c s.
Proof.
  induction s as [|x s IH]; simpl; [tauto|].
  destruct (f x); [intros H; right; now apply IH|tauto].
Qed.

Lemma strip_with_In (f : Z -> bool) (s : str) (c : Z) : In c (strip_with f s) -> In c s.
Proof.
  unfold strip_with. intros H. apply in_rev in H. apply dropwhile_In in H.
  apply in_rev in H. now apply dropwhile_In in H.
Qed.

(** The pattern of the numbered headings needs a full stop. *)
Lemma numbered_heading_needs_stop (s : str) :
  (forall c, In c s -> c <> 46) -> Re.matches false numbered_heading_pattern s = false.
Proof.
  intros Hno. unfold Re.matches, Re.re_match.
  replace (Re.compile numbered_heading_pattern)
    with (Re.RSeq Re.RBol
            (Re.RSeq (Re.RRep (Re.RSet false [Re.CDigit]) 1 None)
               (Re.RSeq (Re.RSet false [Re.CLit 46])
                  (Re.RSeq (Re.RRep (Re.RSet false [Re.CSpace]) 1 None)
                     (Re.RSet false
                        [Re.CRange 65 90; Re.CRange 19968 40959; Re.CRange 12352 12447;
                         Re.CRange 12448 12543; Re.CRange 44032 55215])))))
    by (vm_compute; reflexivity).
  unfold Re.match_at. rewrite m_seq, m_bol. cbn [Re.m_pos Nat.eqb]. rewrite m_seq.
  rewrite (@rep_fails _ false _ (Re.set_ok false false [Re.CDigit])); [reflexivity| |].
  - apply set_reads.
  - intros pre post st' Hrest _ Hst'. cbn [Re.m_rest] in Hrest.
    rewrite m_seq, set_reads, Hst'. destruct post as [|c post]; [reflexivity|].
    rewrite dot_set. destruct (c =? 46) eqn:E; [|reflexivity].
    apply Z.eqb_eq in E. exfalso. apply (Hno c); [|assumption].
    rewrite Hrest. apply in_or_app. right. now left.
Qed.

Lemma search_from_here (ic : bool) (r : Re.regex) (prev : option Z) (pos : nat)
  (rest : str) :
  succeeds (Re.match_at ic r {| Re.m_prev := prev; Re.m_pos := pos; Re.m_rest := rest |})
  = true ->
  match Re.search_from ic r prev pos rest with Some _ => true | None => false end = true.
Proof.
  intros H. destruct rest as [|c rest]; cbn [Re.search_from];
    destruct (Re.match_at _ _ _) as [[e cs]|]; try reflexivity; discriminate H.
Qed.

Lemma digit_set_ok (ic : bool) (c : Z) :
  is_digit c = true -> Re.set_ok ic false [Re.CDigit] c = true.
Proof.
  unfold is_digit, Re.set_ok. intros H. destruct ic; cbn [existsb Re.item_ok xorb];
    destruct (digit_value c); try discriminate; reflexivity.
Qed.

Lemma separator_set_ok (ic : bool) (c : Z) :
  in_chars (utf8 "-/") c = true -> Re.set_ok ic false [Re.CLit 45; Re.CLit 47] c = true.
Proof.
  unfold in_chars, Re.set_ok. intros H.
  replace (utf8 "-/") with [45; 47] in H by (vm_compute; reflexivity).
  cbn [existsb] in H. cbn [xorb]. apply existsb_exists.
  apply orb_true_iff in H as [H|H].
  - exists (Re.CLit 45). split; [simpl; tauto|].
    destruct ic; cbn [existsb Re.item_ok]; now rewrite H.
  - rewrite orb_false_r in H. exists (Re.CLit 47). split; [simpl; tauto|].
    destruct ic; cbn [existsb Re.item_ok]; now rewrite H.
Qed.

Lemma numeric_date_search (d mth y : str) (s1 s2 : Z) :
  forallb is_digit (d ++ mth ++ y) = true ->
  (1 <= List.length d <= 2)%nat -> (1 <= List.length mth <= 2)%nat ->
  (2 <= List.length y <= 4)%nat ->
  in_chars (utf8 "-/") s1 = true -> in_chars (utf8 "-/") s2 = true ->
  Re.searches true (utf8 "^\d{1,2}[-/]\d{1,2}[-/]\d{2,4}\.?$") (d ++ s1 :: mth ++ s2 :: y)
  = true.
Proof.
  intros Hdig Hd Hm Hy Hs1 Hs2.
  rewrite !forallb_app in Hdig. apply andb_true_iff in Hdig as [Dd Hdig].
  apply andb_true_iff in Hdig as [Dm Dy].
  assert (Hset : forall l, forallb is_digit l = true ->
            forallb (Re.set_ok true false [Re.CDigit]) l = true).
  { intros l Hl. apply forallb_forall. intros c Hc. apply digit_set_ok.
    rewrite forallb_forall in Hl. now apply Hl. }
  unfold Re.searches, Re.re_search.
  replace (Re.compile (utf8 "^\d{1,2}[-/]\d{1,2}[-/]\d{2,4}\.?$"))
    with (Re.RSeq Re.RBol
            (Re.RSeq (Re.RRep (Re.RSet false [Re.CDigit]) 1 (Some 2%nat))
               (Re.RSeq (Re.RSet false [Re.CLit 45; Re.CLit 47])
                  (Re.RSeq (Re.RRep (Re.RSet false [Re.CDigit]) 1 (Some 2%nat))
                     (Re.RSeq (Re.RSet false [Re.CLit 45; Re.CLit 47])
                        (Re.RSeq (Re.RRep (Re.RSet false [Re.CDigit]) 2 (Some 4%nat))
                           (Re.RSeq (Re.RRep (Re.RSet false [Re.CLit 46]) 0 (Some 1%nat))
                              Re.REol)))))))
    by (vm_compute; reflexivity).
  apply search_from_here. unfold Re.match_at.
  rewrite m_seq, m_bol. cbn [Re.m_pos Nat.eqb]. rewrite m_seq.
  apply rep_complete_upto with (f := Re.set_ok true false [Re.CDigit]) (pre := d)
                               (post := s1 :: mth ++ s2 :: y);
    [apply set_reads_one|reflexivity|now apply Hset|lia|simpl; lia|].
  intros st1 cs1 Hst1. rewrite m_seq.
  rewrite (@set_reads_one _ true false [Re.CLit 45; Re.CLit 47] st1 cs1 _ s1
             (mth ++ s2 :: y) Hst1 (separator_set_ok true s1 Hs1)).
  rewrite m_seq.
  apply rep_complete_upto with (f := Re.set_ok true false [Re.CDigit]) (pre := mth)
                               (post := s2 :: y);
    [apply set_reads_one|reflexivity|now apply Hset|lia|simpl; lia|].
  intros st2 cs2 Hst2. rewrite m_seq.
  rewrite (@set_reads_one _ true false [Re.CLit 45; Re.CLit 47] st2 cs2 _ s2 y Hst2
             (separator_set_ok true s2 Hs2)).
  rewrite m_seq.
  apply rep_complete_upto with (f := Re.set_ok true false [Re.CDigit]) (pre := y)
                               (post := []);
    [apply set_reads_one|cbn [Re.advance Re.m_rest]; now rewrite app_nil_r|now apply Hset
    |lia|simpl; lia|].
  intros st3 cs3 Hst3. rewrite m_seq.
  apply rep_complete_upto with (f := Re.set_ok true false [Re.CLit 46]) (pre := [])
                               (post := []);
    [apply set_reads_one|assumption|reflexivity|simpl; lia|simpl; lia|].
  intros st4 cs4 Hst4. cbn [Re.m]. now rewrite Hst4.
Qed.

(** A date in figures, day, month and year in Basic Latin digits with
    hyphens or slashes between them, is excluded, whatever its spans;
    the database is asked only to know the digits 0 to 9. *)
Theorem numeric_date_excluded (d mth y : str) (s1 s2 : Z) (spans : option (list Span)) :
  (forall c, in_range 48 57 c = true -> is_digit c = true) ->
  forallb (in_range 48 57) (d ++ mth ++ y) = true ->
  (1 <= List.length d <= 2)%nat -> (1 <= List.length mth <= 2)%nat ->
  (2 <= List.length y <= 4)%nat ->
  in_chars (utf8 "-/") s1 = true -> in_chars (utf8 "-/") s2 = true ->
  should_skip_text (d ++ s1 :: mth ++ s2 :: y) spans = true.
Proof.
  intros Hdb Hdig Hd Hm Hy Hs1 Hs2. set (text := d ++ s1 :: mth ++ s2 :: y).
  assert (Hno : forall c, In c text -> c <> 46).
  { assert (Hsep : forall s, in_chars (utf8 "-/") s = true -> s <> 46).
    { intros s Hs ->. vm_compute in Hs. discriminate. }
    assert (Hdg : forall c, In c (d ++ mth ++ y) -> c <> 46).
    { intros c Hc ->. rewrite forallb_forall in Hdig. apply Hdig in Hc.
      vm_compute in Hc. discriminate. }
    intros c Hc. unfold text in Hc.
    apply in_app_or in Hc as [Hc|[<-|Hc]];
      [apply Hdg; apply in_or_app; now left|now apply Hsep|].
    apply in_app_or in Hc as [Hc|[<-|Hc]];
      [apply Hdg; apply in_or_app; right; apply in_or_app; now left|now apply Hsep|].
    apply Hdg. apply in_or_app. right. apply in_or_app. now right. }
  assert (Hnoise : matches_noise_pattern text = true).
  { unfold matches_noise_pattern. apply existsb_exists.
    exists (utf8 "^\d{1,2}[-/]\d{1,2}[-/]\d{2,4}\.?$"). split.
    - apply in_or_app. right. apply in_or_app. right. apply in_or_app. right.
      unfold build_multilingual_date_patterns. apply in_or_app. left.
      unfold strs. apply in_map. simpl. tauto.
    - apply numeric_date_search; try assumption.
      apply forallb_forall. intros c Hc. apply Hdb.
      rewrite forallb_forall in Hdig. now apply Hdig. }
  unfold should_skip_text. destruct (strip text) as [|c t] eqn:Es; [reflexivity|].
  destruct (is_toc_row text); [reflexivity|].
  destruct (is_warning_text text); [reflexivity|].
  rewrite numbered_heading_needs_stop; [assumption|].
  intros x Hx. apply Hno. rewrite <- Es in Hx. unfold strip in Hx.
  now apply strip_with_In in Hx.
Qed.

End Dates.

Section Rotation.

(** *** The two tests of the rotation of a span *)

(** [is_text_tilted]: the angle is more than five degrees away, on either
    side, from each of the four upright angles. *)
Definition is_text_tilted {N : Numbers} (span : Span) : bool :=
  let angle := sp_rotation span in
  let tolerance := lit 5 in
  negb (existsb (fun base_angle =>
           fleb (fabs (fsub (fmod (fadd (fsub angle base_angle) (lit 180)) (lit 360))
                            (lit 180)))
                tolerance)
          [lit 0; lit 90; lit 180; lit 270]).

Lemma Qfloor_unique (y : Q) (z : Z) :
  (inject_Z z <= y)%Q -> (y < inject_Z (z + 1))%Q -> Qfloor y = z.
Proof.
  intros H1 H2. pose proof (Qfloor_le y) as F1. pose proof (Qlt_floor y) as F2.
  assert (A : z < Qfloor y + 1).
  { rewrite Zlt_Qlt. eapply Qle_lt_trans; eassumption. }
  assert (B : Qfloor y < z + 1).
  { rewrite Zlt_Qlt. eapply Qle_lt_trans; eassumption. }
  lia.
Qed.

Lemma half_turn (x : Q) :
  Qleb (Qabs' (Qmod x 360)) 5 = true ->
  Qleb (Qabs' (Qmod (x + 180) 360 - 180)) 5 = true.
Proof.
  unfold Qmod.
  assert (E : ((x + 180) / 360 == x / 360 + (1 # 2))%Q) by field.
  rewrite (Qfloor_comp _ _ E).
  assert (Hx : (x == 360 * (x / 360))%Q) by field.
  pose proof (Qfloor_le (x / 360)) as F1. pose proof (Qlt_floor (x / 360)) as F2.
  rewrite inject_Z_plus in F2. change (inject_Z 1) with 1%Q in F2.
  set (y := (x / 360)%Q) in *. set (q := Qfloor y) in *. clearbody q. clearbody y.
  intros H. apply Qleb_iff in H.
  assert (Hr : (x - 360 * inject_Z q <= 5)%Q).
  { unfold Qabs' in H. destruct (Qle_bool 0 (x - 360 * inject_Z q)) eqn:K; [assumption|].
    assert (~ (0 <= x - 360 * inject_Z q)%Q).
    { intros K'. apply Qle_bool_iff in K'. congruence. }
    lra. }
  assert (Hq : Qfloor (y + (1 # 2)) = q).
  { apply Qfloor_unique; rewrite ?inject_Z_plus; change (inject_Z 1) with 1%Q; lra. }
  rewrite Hq. apply Qleb_iff. unfold Qabs'.
  destruct (Qle_bool 0 (x + 180 - 360 * inject_Z q - 180)) eqn:K.
  - lra.
  - assert (~ (0 <= x + 180 - 360 * inject_Z q - 180)%Q).
    { intros K'. apply Qle_bool_iff in K'. congruence. }
    lra.
Qed.

(** The test that [extract_outline] makes on a span is stricter than
    [is_text_tilted]: a span it keeps is not tilted, and a span turned by
    358 degrees is not tilted and is not kept. *)
Theorem kept_spans_are_not_tilted :
  (forall span : Span, upright span = true -> is_text_tilted span = false)
  /\ exists span : Span, is_text_tilted span = false /\ upright span = false.
Proof.
  split.
  - intros span H. unfold upright in H. unfold is_text_tilted. cbv zeta.
    exact_numbers.
    apply negb_false_iff. apply existsb_exists.
    apply existsb_exists in H as [base [Hin H]].
    exists base. split; [assumption|]. now apply half_turn.
  - exists {| sp_text := []; sp_size := lit 12; sp_flags := 0; sp_rotation := lit 358 |}.
    vm_compute. split; reflexivity.
Qed.

End Rotation.

Section Loops.

Context {U : Unicode} {N : Numbers}.

(** *** The loop over the lines of a block *)

(** The loop [while i < len(lines)] ends within as many turns as the block
    has lines: turns beyond that number change nothing. *)
Theorem loop_over_lines_ends (more : nat) (pdf_title : str) (avg_font_size : num)
  (page_num : nat) (pg : Page) (page_tables : list Rect) (lines : list Line)
  (st : LoopState) :
  lines_loop (List.length lines + more) pdf_title avg_font_size page_num pg page_tables
    lines 0 st
  = lines_loop (List.length lines) pdf_title avg_font_size page_num pg page_tables
      lines 0 st.
Proof.
  induction more as [|more IH]; [now rewrite Nat.add_0_r|].
  rewrite Nat.add_succ_r, lines_loop_fuel; [exact IH|lia].
Qed.

(** *** The title is read from the first page *)

(** A title in the result is the title read from the pages that decode. *)
Lemma result_title pdf detected_lists :
  res_title (fst (extract_outline pdf detected_lists)) <> [] ->
  exists pages doc,
    decoded pdf pages doc
    /\ res_title (fst (extract_outline pdf detected_lists))
       = title_text_of (extract_title_from_text pdf doc).
Proof.
  unfold extract_outline, walk, decoded.
  destruct (pdf_pages pdf) as [pages|]; [|intros H; exfalso; apply H; reflexivity].
  destruct (all_decoded (firstn 5 pages)) as [doc|] eqn:Ed;
    [|intros H; exfalso; apply H; reflexivity].
  destruct (pages_loop _ _ _ _ _ _) as [[st|] d];
    [|intros H; exfalso; apply H; reflexivity].
  intros _. exists pages, doc. repeat split; try assumption; reflexivity.
Qed.

Lemma first_decoded pdf pg others doc :
  decoded pdf (Some pg :: others) doc -> exists rest, doc = pg :: rest.
Proof.
  intros [_ Hd]. cbn [firstn all_decoded] in Hd.
  match type of Hd with match ?x with _ => _ end = _ => destruct x as [rest|] end;
    [|discriminate].
  exists rest. congruence.
Qed.

(** The title of a document is read from its first page: two documents
    with the same first page and the same tables that get a title get the
    same title, so a document gets the title of its first page alone. *)
Theorem title_comes_from_first_page (pg : Page) (others others' : list (option Page))
  (tables : option (list (option (list Table)))) (detected_lists : list DetectedList) :
  let pdf := {| pdf_pages := Some (Some pg :: others); pdf_tables := tables |} in
  let pdf' := {| pdf_pages := Some (Some pg :: others'); pdf_tables := tables |} in
  res_title (fst (extract_outline pdf detected_lists)) <> [] ->
  res_title (fst (extract_outline pdf' detected_lists)) <> [] ->
  res_title (fst (extract_outline pdf detected_lists))
  = res_title (fst (extract_outline pdf' detected_lists)).
Proof.
  intros pdf pdf' H H'.
  apply result_title in H as [pages [doc [Hd ->]]].
  apply result_title in H' as [pages' [doc' [Hd' ->]]].
  assert (pages = Some pg :: others) as -> by (destruct Hd as [Hp _]; now injection Hp).
  assert (pages' = Some pg :: others') as -> by (destruct Hd' as [Hp _]; now injection Hp).
  apply first_decoded in Hd as [rest ->]. apply first_decoded in Hd' as [rest' ->].
  assert (Ht : title_page_tables pdf = title_page_tables pdf') by reflexivity.
  apply (f_equal title_text_of). unfold extract_title_from_text.
  assert (Hf : forall lines, flat_map (title_candidate pdf pg) lines
                             = flat_map (title_candidate pdf' pg) lines).
  { induction lines as [|line lines IH]; simpl; [reflexivity|].
    rewrite IH. unfold title_candidate. now rewrite Ht. }
  now rewrite Hf.
Qed.

End Loops.

(** ** The further properties at work *)

(** The heading of the document with one numbered line. *)
Definition isolated_item_heading : HeadingRecord :=
  {| hr_level := H2; hr_text := utf8 "9.1 Alpha "; hr_page := 1 |}.

(** A scan: one page, one image block, no text. *)
Definition scanned_doc {N : Numbers} : Pdf :=
  {| pdf_pages := Some [Some {| pg_blocks := [{| bk_lines := None |}];
                                pg_width := lit 600; pg_height := lit 800;
                                pg_text := []; pg_drawings := Some [] |}];
     pdf_tables := Some [Some []] |}.

Lemma outline_pages_in_range_witness :
  In annual_report_heading (res_outline (fst (extract_outline annual_report [])))
  /\ exists pages,
       pdf_pages annual_report = Some pages
       /\ 1 <= hr_page annual_report_heading <= Z.of_nat (List.length pages).
Proof.
  assert (H : In annual_report_heading
                (res_outline (fst (extract_outline annual_report []))))
    by (vm_compute; left; reflexivity).
  split; [exact H|].
  exact (@outline_pages_in_range unicode_basic numbers_exact annual_report []
           annual_report_heading H).
Defined.


Lemma outline_levels_come_from_classifiers_witness :
  In annual_report_heading (res_outline (fst (extract_outline annual_report [])))
  /\ exists (pages : list (option Page)) (doc : list Page) (o : Origin),
       decoded annual_report pages doc
       /\ comes_from annual_report annual_report_heading o
       /\ ((exists span,
              In span (og_spans o)
              /\ is_heading_by_formatting span (calculate_average_font_size doc)
                 = Some (hr_level annual_report_heading)
              /\ (forallb is_bold (og_spans o) = true
                  \/ existsb is_bold (og_spans o) = false))
           \/ is_heading_by_pattern (og_text o) = Some (hr_level annual_report_heading)).
Proof.
  assert (H : In annual_report_heading
                (res_outline (fst (extract_outline annual_report []))))
    by (vm_compute; left; reflexivity).
  split; [exact H|].
  exact (@outline_levels_come_from_classifiers unicode_basic numbers_exact annual_report []
           annual_report_heading H).
Defined.

Lemma first_page_headings_bold_or_small_witness :
  (In isolated_item_heading (res_outline (fst (extract_outline isolated_item_doc [])))
   /\ hr_page isolated_item_heading = 1)
  /\ exists o : Origin,
       comes_from isolated_item_doc isolated_item_heading o
       /\ og_spans o <> []
       /\ (existsb is_bold (og_spans o) = true
           \/ fleb (lit 16) (max_font_size (og_spans o)) = false).
Proof.
  assert (H : In isolated_item_heading
                (res_outline (fst (extract_outline isolated_item_doc []))))
    by (vm_compute; left; reflexivity).
  split; [split; [exact H|reflexivity]|].
  exact (@first_page_headings_bold_or_small unicode_basic numbers_exact isolated_item_doc []
           isolated_item_heading H eq_refl).
Defined.

Lemma dot_leader_excluded_witness :
  contains (utf8 "...") (utf8 "Introduction ..... 5") = true
  /\ should_skip_text (utf8 "Introduction ..... 5") None = true.
Proof.
  assert (H : contains (utf8 "...") (utf8 "Introduction ..... 5") = true)
    by (vm_compute; reflexivity).
  split; [exact H|].
  exact (@dot_leader_excluded unicode_basic numbers_exact (utf8 "Introduction ..... 5")
           None H).
Defined.

Lemma trailing_number_excluded_witness :
  let body := utf8 "Chapter" in
  let ws := utf8 " " in
  let digits := utf8 "3" in
  let text := body ++ ws ++ digits in
  (strip text = text
   /\ forallb (fun c => negb (c =? 10)) body = true
   /\ ws <> [] /\ forallb is_space ws = true
   /\ digits <> [] /\ forallb is_digit digits = true
   /\ Re.matches true (toc_exception_pattern (languages_to_check (detect_language text)))
        text = false)
  /\ should_skip_text text None = true /\ is_heading_by_pattern text = None.
Proof.
  intros body ws digits text.
  assert (H1 : strip text = text) by (vm_compute; reflexivity).
  assert (H2 : forallb (fun c => negb (c =? 10)) body = true) by (vm_compute; reflexivity).
  assert (H3 : ws <> []) by discriminate.
  assert (H4 : forallb is_space ws = true) by (vm_compute; reflexivity).
  assert (H5 : digits <> []) by discriminate.
  assert (H6 : forallb is_digit digits = true) by (vm_compute; reflexivity).
  assert (H7 : Re.matches true
                 (toc_exception_pattern (languages_to_check (detect_language text)))
                 text = false) by (vm_compute; reflexivity).
  split; [repeat split; assumption|].
  exact (@trailing_number_excluded unicode_basic numbers_exact body ws digits None
           H1 H2 H3 H4 H5 H6 H7).
Defined.

Lemma formatting_level_monotone_witness :
  let a := span_of "Summary" 12 0 in
  let b := span_of "Summary" 18 16 in
  ((sp_size a <= sp_size b)%Q /\ (is_bold a = true -> is_bold b = true))
  /\ level_rank (is_heading_by_formatting a 12%Q)
     <= level_rank (is_heading_by_formatting b 12%Q).
Proof.
  intros a b.
  assert (H1 : (sp_size a <= sp_size b)%Q) by (vm_compute; discriminate).
  assert (H2 : is_bold a = true -> is_bold b = true) by (intros _; reflexivity).
  split; [split; assumption|].
  exact (@formatting_level_monotone a b 12%Q H1 H2).
Defined.


Lemma json_file_holds_last_result_witness :
  let write_ok := fun _ : str => true in
  let path := utf8 "outline.json" in
  let before := [{| pf_stem := utf8 "report"; pf_pdf := annual_report |}] in
  let last := {| pf_stem := utf8 "item"; pf_pdf := isolated_item_doc |} in
  write_ok path = true
  /\ fst (process_directory write_ok (JsonFile path) (before ++ [last]) [])
     = (path, fst (extract_outline (pf_pdf last) []))
       :: map (fun f => (path, fst (extract_outline (pf_pdf f) []))) (rev before).
Proof.
  intros write_ok path before last.
  assert (H : write_ok path = true) by reflexivity.
  split; [exact H|].
  exact (@json_file_holds_last_result unicode_basic numbers_exact write_ok path before last
           [] H).
Defined.

Lemma document_without_lines_witness :
  (forall pages pg,
     pdf_pages scanned_doc = Some pages -> In (Some pg) pages -> page_lines pg = [])
  /\ fst (extract_outline scanned_doc []) = empty_result.
Proof.
  assert (H : forall pages pg,
            pdf_pages (@scanned_doc numbers_exact) = Some pages -> In (Some pg) pages ->
            page_lines pg = []).
  { intros pages pg Hp Hin. injection Hp as <-.
    destruct Hin as [E|[]]. injection E as <-. reflexivity. }
  split; [exact H|].
  exact (@document_without_lines unicode_basic numbers_exact scanned_doc [] H).
Defined.

Lemma capitals_are_first_level_witness :
  let text := utf8 "EXECUTIVE SUMMARY" in
  (strip text = text /\ should_skip_text text None = false /\ 10 <= len text
   /\ forallb is_capital_or_space text = true)
  /\ is_heading_by_pattern text = Some H1.
Proof.
  intros text.
  assert (H1 : strip text = text) by (vm_compute; reflexivity).
  assert (H2 : should_skip_text text None = false) by (vm_compute; reflexivity).
  assert (H3 : 10 <= len text) by (vm_compute; discriminate).
  assert (H4 : forallb is_capital_or_space text = true) by (vm_compute; reflexivity).
  split; [repeat split; assumption|].
  exact (@capitals_are_first_level unicode_basic numbers_exact text H1 H2 H3 H4).
Defined.

Lemma outline_lines_start_on_reading_side_witness :
  In annual_report_heading (res_outline (fst (extract_outline annual_report [])))
  /\ exists o : Origin,
       comes_from annual_report annual_report_heading o
       /\ let line_x := fst (fst (fst (ln_bbox (og_line o)))) in
          let page_width := pg_width (og_page o) in
          if lang_eqb (detect_language (og_text o)) ar
          then fltb (fmul page_width (lit (3 # 10))) line_x = true
          else fltb line_x (fmul page_width (lit (7 # 10))) = true.
Proof.
  assert (H : In annual_report_heading
                (res_outline (fst (extract_outline annual_report []))))
    by (vm_compute; left; reflexivity).
  split; [exact H|].
  exact (@outline_lines_start_on_reading_side unicode_basic numbers_exact annual_report []
           annual_report_heading H).
Defined.

Lemma numeric_date_excluded_witness :
  let d := utf8 "12" in
  let mth := utf8 "05" in
  let y := utf8 "2023" in
  ((forall c, in_range 48 57 c = true -> is_digit c = true)
   /\ forallb (in_range 48 57) (d ++ mth ++ y) = true
   /\ (1 <= List.length d <= 2)%nat /\ (1 <= List.length mth <= 2)%nat
   /\ (2 <= List.length y <= 4)%nat
   /\ in_chars (utf8 "-/") 47 = true)
  /\ should_skip_text (d ++ 47 :: mth ++ 47 :: y) None = true.
Proof.
  intros d mth y.
  assert (H0 : forall c, in_range 48 57 c = true -> is_digit c = true).
  { intros c Hc. unfold is_digit. cbn [digit_value unicode_basic].
    unfold Basic.digit, Basic.digit_blocks. cbn [filter].
    change (48 + 9) with 57. now rewrite Hc. }
  assert (H1 : forallb (in_range 48 57) (d ++ mth ++ y) = true) by (vm_compute; reflexivity).
  assert (H2 : (1 <= List.length d <= 2)%nat) by (vm_compute; lia).
  assert (H3 : (1 <= List.length mth <= 2)%nat) by (vm_compute; lia).
  assert (H4 : (2 <= List.length y <= 4)%nat) by (vm_compute; lia).
  assert (H5 : in_chars (utf8 "-/") 47 = true) by (vm_compute; reflexivity).
  split; [repeat split; try assumption; lia|].
  exact (@numeric_date_excluded unicode_basic numbers_exact d mth y 47 47 None
           H0 H1 H2 H3 H4 H5 H5).
Defined.

Lemma kept_spans_are_not_tilted_witness :
  upright (span_of "Summary" 12 0) = true
  /\ is_text_tilted (span_of "Summary" 12 0) = false.
Proof.
  assert (H : upright (span_of "Summary" 12 0) = true) by (vm_compute; reflexivity).
  split; [exact H|].
  exact (proj1 kept_spans_are_not_tilted (span_of "Summary" 12 0) H).
Defined.

Lemma title_comes_from_first_page_witness :
  let pg := page_of [line_of "Annual Report" 24 16 40] "Annual Report" in
  let others := [Some (page_of [line_of "ANNUAL REPORT" 12 16 100] "ANNUAL REPORT")] in
  let pdf := {| pdf_pages := Some (Some pg :: others); pdf_tables := None |} in
  let pdf' := {| pdf_pages := Some [Some pg]; pdf_tables := None |} in
  (res_title (fst (extract_outline pdf [])) <> []
   /\ res_title (fst (extract_outline pdf' [])) <> [])
  /\ res_title (fst (extract_outline pdf [])) = res_title (fst (extract_outline pdf' [])).
Proof.
  intros pg others pdf pdf'.
  assert (H : res_title (fst (extract_outline pdf [])) <> [])
    by (vm_compute; discriminate).
  assert (H' : res_title (fst (extract_outline pdf' [])) <> [])
    by (vm_compute; discriminate).
  split; [split; assumption|].
  exact (@title_comes_from_first_page unicode_basic numbers_exact pg others [] None []
           H H').
Defined.

(** ** The title, contents pages and addresses *)

Section TitleLines.

Context {U : Unicode} {N : Numbers}.

(** *** The line a title needs *)

(** A line that may give words to the title: it starts in the upper six
    tenths of the page and in its left six tenths, as the comparisons of
    the interpreter have it, its center lies in no box and in no table of
    the title, and one of its spans passes the filter on span texts. *)
Definition is_title_line (pdf : Pdf) (pg : Page) (line : Line) : Prop :=
  let line_x := fst (fst (fst (ln_bbox line))) in
  let line_y := snd (fst (fst (ln_bbox line))) in
  fltb line_y (fmul (pg_height pg) (lit (60 # 100))) = true
  /\ fltb (fmul (pg_width pg) (lit (6 # 10))) line_x = false
  /\ is_text_in_box pg (ln_bbox line) = false
  /\ existsb (center_in (ln_bbox line)) (title_page_tables pdf) = false
  /\ exists span, In span (ln_spans line) /\ title_span_ok (strip (sp_text span)) = true.

Lemma title_candidate_line (pdf : Pdf) (pg : Page) (line : Line) :
  title_candidate pdf pg line <> [] -> is_title_line pdf pg line.
Proof.
  unfold title_candidate, is_title_line.
  destruct (ln_bbox line) as [[[line_x line_y] x1] y1] eqn:Eb. cbn [fst snd].
  destruct (map _ (filter _ (ln_spans line))) as [|part parts] eqn:Ep; [congruence|].
  rewrite <- Eb.
  destruct (negb (fltb (fmul (pg_width pg) (lit (6 # 10))) line_x)) eqn:Er;
    [|cbn [andb]; congruence].
  destruct (negb (existsb (center_in (ln_bbox line)) (title_page_tables pdf))) eqn:Et;
    [|cbn [andb]; congruence].
  destruct (negb (is_text_in_box pg (ln_bbox line))) eqn:Ei; [|cbn [andb]; congruence].
  destruct (fltb line_y (fmul (pg_height pg) (lit (60 # 100)))) eqn:Ey;
    [|cbn [andb]; congruence].
  intros _. apply negb_true_iff in Er, Et, Ei.
  repeat split; try assumption.
  destruct (filter _ (ln_spans line)) as [|span kept] eqn:Ef; [discriminate|].
  assert (Hin : In span (filter (fun span => title_span_ok (strip (sp_text span)))
                           (ln_spans line))) by (rewrite Ef; now left).
  apply filter_In in Hin. exists span. exact Hin.
Qed.

(** A document gets a title only if its first page has such a line. *)
Theorem title_needs_a_title_line (pdf : Pdf) (detected_lists : list DetectedList) :
  res_title (fst (extract_outline pdf detected_lists)) <> [] ->
  exists (pg : Page) (others : list (option Page)) (line : Line),
    pdf_pages pdf = Some (Some pg :: others)
    /\ In line (page_lines pg)
    /\ is_title_line pdf pg line.
Proof.
  unfold extract_outline, walk.
  destruct (pdf_pages pdf) as [pages|]; [|intros H; now contradiction H].
  destruct (all_decoded (firstn 5 pages)) as [doc|] eqn:Ed; [|intros H; now contradiction H].
  destruct (pages_loop _ _ _ _ _ _) as [[st|] d]; [|intros H; now contradiction H].
  cbn [fst res_title]. intros Ht.
  destruct doc as [|pg doc].
  { exfalso. apply Ht. vm_compute. reflexivity. }
  destruct pages as [|[pg0|] others]; try discriminate Ed.
  assert (pg0 = pg) as ->.
  { cbn [firstn all_decoded] in Ed.
    match type of Ed with match ?x with _ => _ end = _ => destruct x end;
      [congruence|discriminate]. }
  exists pg, others.
  assert (Hc : flat_map (title_candidate pdf pg) (page_lines pg) <> []).
  { intros E. apply Ht. unfold extract_title_from_text. fold (page_lines pg).
    rewrite E. reflexivity. }
  destruct (flat_map (title_candidate pdf pg) (page_lines pg)) as [|c cs] eqn:Ef;
    [congruence|].
  assert (Hin : In c (flat_map (title_candidate pdf pg) (page_lines pg)))
    by (rewrite Ef; now left).
  apply in_flat_map in Hin as [line [Hl Hc']].
  exists line. split; [reflexivity|]. split; [assumption|].
  apply title_candidate_line. intros E. rewrite E in Hc'. contradiction.
Qed.

End TitleLines.

Section ContentsPages.

Context {U : Unicode} {N : Numbers}.

(** *** Headings on a page of contents *)

Lemma contents_page (L : UnicodeLaws U) (page_text : str) :
  contains (utf8 "table of contents") page_text = true -> is_on_toc_page page_text = true.
Proof.
  intros H. unfold is_on_toc_page. apply existsb_exists. exists en. split.
  - unfold languages_to_check. destruct (lang_eqb _ en); simpl; tauto.
  - apply existsb_exists. exists (utf8 "table of contents"). split; [simpl; tauto|].
    rewrite lower_ascii by (apply is_ascii_forallb; vm_compute; reflexivity).
    replace (map Basic.ascii_lower (utf8 "table of contents"))
      with (utf8 "table of contents") by (vm_compute; reflexivity).
    exact H.
Qed.

(** A record that comes from a line of a page whose text holds the words
    table of contents, in any case of the letters, comes from a line that
    is a contents keyword itself or that starts with a number and a full
    stop and has a bold span. *)
Theorem contents_page_headings (L : UnicodeLaws U) (pdf : Pdf)
  (detected_lists : list DetectedList) (r : HeadingRecord) :
  In r (res_outline (fst (extract_outline pdf detected_lists))) ->
  exists o : Origin,
    comes_from pdf r o
    /\ (contains (utf8 "table of contents") (str_lower (pg_text (og_page o))) = true ->
        allowed_on_toc_page (str_lower (pg_text (og_page o))) (og_text o) (og_spans o)
        = true).
Proof.
  intros Hin. apply outline_origin in Hin as [pages [doc [o [_ [Hfrom Hpass]]]]].
  destruct Hpass as [processed [detected [detected' [_ [Htoc _]]]]].
  exists o. split; [assumption|].
  intros Hc. apply Htoc. now apply contents_page.
Qed.

End ContentsPages.

Section Addresses.

Context {U : Unicode} {N : Numbers}.

(** *** Texts with an at sign *)

Lemma at_sign_match (a b c : str) :
  forallb (fun x => negb (x =? 10)) (a ++ b) = true ->
  Re.matches true (utf8 ".*@.*\..*") (a ++ 64 :: b ++ 46 :: c) = true.
Proof.
  intros Hall. rewrite forallb_app in Hall. apply andb_true_iff in Hall as [Ha Hb].
  unfold Re.matches, Re.re_match.
  replace (Re.compile (utf8 ".*@.*\..*"))
    with (Re.RSeq (Re.RRep Re.RAny 0 None)
            (Re.RSeq (Re.RSet false [Re.CLit 64])
               (Re.RSeq (Re.RRep Re.RAny 0 None)
                  (Re.RSeq (Re.RSet false [Re.CLit 46]) (Re.RRep Re.RAny 0 None)))))
    by (vm_compute; reflexivity).
  match goal with
  | |- match (match ?x with _ => _ end) with _ => _ end = true =>
      assert (Hx : succeeds x = true); [|destruct x as [[e cs]|]; [reflexivity|discriminate Hx]]
  end.
  assert (Hlit : forall l, Re.set_ok true false [Re.CLit l] l = true).
  { intros l. unfold Re.set_ok. cbn [existsb Re.item_ok xorb]. now rewrite Z.eqb_refl. }
  unfold Re.match_at. rewrite m_seq.
  apply rep_complete with (f := fun x => negb (x =? 10)) (pre := a)
                          (post := 64 :: b ++ 46 :: c);
    [apply any_reads_one|reflexivity|assumption|simpl; lia|].
  intros st1 cs1 Hst1. rewrite m_seq.
  rewrite (@set_reads_one _ true false [Re.CLit 64] st1 cs1 _ 64 (b ++ 46 :: c) Hst1
             (Hlit 64)).
  rewrite m_seq.
  apply rep_complete with (f := fun x => negb (x =? 10)) (pre := b) (post := 46 :: c);
    [apply any_reads_one|reflexivity|assumption|simpl; lia|].
  intros st2 cs2 Hst2. rewrite m_seq.
  rewrite (@set_reads_one _ true false [Re.CLit 46] st2 cs2 _ 46 c Hst2 (Hlit 46)).
  apply rep_complete with (f := fun x => negb (x =? 10)) (pre := []) (post := c);
    [apply any_reads_one|reflexivity|reflexivity|simpl; lia|].
  reflexivity.
Qed.

(** A text of one line with an at sign and a full stop after it, as an
    electronic address has, is excluded, whatever its spans. *)
Theorem at_sign_excluded (a b c : str) (spans : option (list Span)) :
  let text := a ++ 64 :: b ++ 46 :: c in
  strip text = text ->
  forallb (fun x => negb (x =? 10)) (a ++ b) = true ->
  should_skip_text text spans = true.
Proof.
  intros text Hstrip Hall. unfold should_skip_text. rewrite Hstrip.
  destruct text as [|x t] eqn:Et; [reflexivity|]. rewrite <- Et in *.
  destruct (is_toc_row text); [reflexivity|].
  assert (Hw : is_warning_text text = true).
  { unfold is_warning_text. apply orb_true_iff. left. apply existsb_exists.
    exists (utf8 ".*@.*\..*"). split.
    - unfold warning_patterns. apply in_or_app. right.
      unfold universal_patterns, strs. apply in_map. simpl. tauto.
    - rewrite Hstrip. now apply at_sign_match. }
  now rewrite Hw.
Qed.

End Addresses.

Section Samples.

Context {U : Unicode} {N : Numbers}.

(** *** The pages that are sampled *)

(** The average font size is read from the first five pages: the pages
    after them do not change it. *)
Theorem average_ignores_later_pages (doc more : list Page) :
  (5 <= List.length doc)%nat ->
  calculate_average_font_size (doc ++ more) = calculate_average_font_size doc.
Proof.
  intros H. unfold calculate_average_font_size, sampled_font_sizes.
  rewrite firstn_app.
  replace (5 - List.length doc)%nat with 0%nat by lia.
  cbn [firstn]. now rewrite app_nil_r.
Qed.

End Samples.

(** A text of six pages, the last in large type. *)
Definition six_pages {N : Numbers} : list Page :=
  [page_of [line_of "One" 10 0 100] "One"; page_of [line_of "Two" 12 0 100] "Two";
   page_of [line_of "Three" 14 0 100] "Three"; page_of [line_of "Four" 16 0 100] "Four";
   page_of [line_of "Five" 18 0 100] "Five"; page_of [line_of "Six" 40 0 100] "Six"].

Lemma title_needs_a_title_line_witness :
  res_title (fst (extract_outline annual_report [])) <> []
  /\ exists (pg : Page) (others : list (option Page)) (line : Line),
       pdf_pages annual_report = Some (Some pg :: others)
       /\ In line (page_lines pg)
       /\ is_title_line annual_report pg line.
Proof.
  assert (H : res_title (fst (extract_outline annual_report [])) <> [])
    by (vm_compute; discriminate).
  split; [exact H|].
  exact (@title_needs_a_title_line unicode_basic numbers_exact annual_report [] H).
Defined.

(** A report with a page of contents: its heading, a numbered entry in
    bold and a line of text in bold. *)
Definition contents_doc {N : Numbers} : Pdf :=
  pdf_of [page_of [line_of "Annual Report" 24 16 40] "Annual Report";
          page_of [line_of "Table of Contents" 14 16 100;
                   line_of "1. Introduction" 12 16 200;
                   line_of "Background of the work" 12 16 300]
            "Table of Contents 1. Introduction Background of the work"].

Definition contents_entry : HeadingRecord :=
  {| hr_level := H1; hr_text := utf8 "1. Introduction "; hr_page := 2 |}.

(** The outline of [contents_doc]: the line of text is left out. *)
Lemma contents_doc_outline :
  res_outline (fst (extract_outline contents_doc []))
  = [contents_entry;
     {| hr_level := H3; hr_text := utf8 "Table of Contents "; hr_page := 2 |}]
  /\ res_outline (fst (extract_outline (@contents_doc binary64) []))
     = res_outline (fst (extract_outline (@contents_doc numbers_exact) [])).
Proof. vm_compute. split; reflexivity. Qed.

Lemma contents_page_headings_witness :
  In contents_entry (res_outline (fst (extract_outline contents_doc [])))
  /\ exists o : Origin,
       comes_from contents_doc contents_entry o
       /\ (contains (utf8 "table of contents") (str_lower (pg_text (og_page o))) = true ->
           allowed_on_toc_page (str_lower (pg_text (og_page o))) (og_text o) (og_spans o)
           = true).
Proof.
  assert (H : In contents_entry (res_outline (fst (extract_outline contents_doc []))))
    by (vm_compute; left; reflexivity).
  split; [exact H|].
  exact (@contents_page_headings unicode_basic numbers_exact unicode_basic_laws contents_doc
           [] contents_entry H).
Defined.

Lemma at_sign_excluded_witness :
  let a := utf8 "info" in
  let b := utf8 "example" in
  let c := utf8 "org" in
  let text := a ++ 64 :: b ++ 46 :: c in
  (strip text = text /\ forallb (fun x => negb (x =? 10)) (a ++ b) = true)
  /\ should_skip_text text None = true.
Proof.
  intros a b c text.
  assert (H1 : strip text = text) by (vm_compute; reflexivity).
  assert (H2 : forallb (fun x => negb (x =? 10)) (a ++ b) = true)
    by (vm_compute; reflexivity).
  split; [split; assumption|].
  exact (@at_sign_excluded unicode_basic numbers_exact a b c None H1 H2).
Defined.

Lemma average_ignores_later_pages_witness :
  (5 <= List.length (firstn 5 six_pages))%nat
  /\ calculate_average_font_size (firstn 5 six_pages ++ skipn 5 six_pages)
     = calculate_average_font_size (firstn 5 six_pages).
Proof.
  assert (H : (5 <= List.length (firstn 5 six_pages))%nat) by (vm_compute; lia).
  split; [exact H|].
  exact (@average_ignores_later_pages unicode_basic numbers_exact (firstn 5 six_pages)
           (skipn 5 six_pages) H).
Defined.

(** *** Numbers that [int] does not convert *)



Lemma is_likely_list_item_spec_witness :
  (Re.matches false (utf8 "^\d+\.\d+\s+") (strip (utf8 "9.2 Beta")) = true
   /\ numbers_of (utf8 "9.2 Beta") = Some (9, 2)
   /\ forallb number_fits (lines_before numbered_lines 1 ++ lines_after numbered_lines 1)
      = true)
  /\ option_map fst (is_likely_list_item (utf8 "9.2 Beta") numbered_lines 1 [])
     = Some (2 <=? List.length
                     (filter (same_major 9)
                             (lines_before numbered_lines 1
                              ++ lines_after numbered_lines 1)))%nat.
Proof.
  assert (H1 : Re.matches false (utf8 "^\d+\.\d+\s+") (strip (utf8 "9.2 Beta")) = true)
    by (vm_compute; reflexivity).
  assert (H2 : numbers_of (utf8 "9.2 Beta") = Some (9, 2)) by (vm_compute; reflexivity).
  assert (H3 : forallb number_fits
                 (lines_before (@numbered_lines numbers_exact) 1
                  ++ lines_after numbered_lines 1) = true)
    by (vm_compute; reflexivity).
  split; [repeat split; assumption|].
  exact (@is_likely_list_item_spec unicode_basic numbers_exact (utf8 "9.2 Beta")
           numbered_lines 1%nat [] 9 2 H1 H2 H3).
Defined.
